(** * GoQuant trade simulator

    A shallow embedding of the Python sources

    - [src/models/market_impact.py]  (module [MarketImpact]),
    - [src/models/slippage.py]       (module [Slippage]),
    - [src/models/maker_taker.py]    (module [MakerTaker]),
    - [src/websocket/client.py]      (module [Client]),
    - [src/ui/main_window.py]        (module [MainWindow]),

    the client and the window's handler put together (module [Main]),
    followed by the properties of the specification, numbered C1..C10, and
    by further properties of the code, numbered from X1.

    Modelling conventions.

    - A Python call either returns or raises: [result A].  The exceptions
      are those that derive from [Exception], which is what the handlers of
      the sources catch; [KeyboardInterrupt], [SystemExit] and task
      cancellation are outside the model.  A [try/except Exception] block is
      [try_except].
    - [logging] is a list of [log_record]s, oldest first.
    - Python and numpy floats are real numbers: rounding is not modelled, and
      neither are the non-finite values.  What matters for the control flow is
      kept: numpy division, [np.log10] and [np.sqrt] never raise (they warn),
      so they are total functions here ([x / 0], [ln] of a non-positive number
      and [sqrt] of a negative number take the values the real-number library
      gives them).  Module [Ieee] follows the three models a second time, on
      real numbers extended with [inf], [-inf] and [nan], for the books on
      which a divisor is zero; the two embeddings agree wherever no divisor
      is zero.
    - [np.array] of a list of [[price, qty]] rows is the list of pairs itself;
      an empty list gives a one-dimensional empty array, on which every
      two-dimensional index raises [IndexError]. *)

From Stdlib Require Import Reals Lra Lia ZArith Ascii String List Bool.
Import ListNotations.

Open Scope R_scope.

(** ** Python values, exceptions and logging *)

Module Py.

Inductive exn : Type :=
| KeyError (key : string)
| IndexError
| ValueError (msg : string)
| TypeError
| AttributeError
| JSONDecodeError
| ConnectionClosed.

Inductive result (A : Type) : Type :=
| Return (a : A)
| Raise (e : exn).

Arguments Return {A} a.
Arguments Raise {A} e.

Definition bind {A B : Type} (m : result A) (k : A -> result B) : result B :=
  match m with
  | Return a => k a
  | Raise e => Raise e
  end.

Fixpoint mapM {A B : Type} (f : A -> result B) (l : list A) : result (list B) :=
  match l with
  | [] => Return []
  | x :: tl =>
      bind (f x) (fun y => bind (mapM f tl) (fun ys => Return (y :: ys)))
  end.

Inductive level : Type := INFO | WARNING | ERROR.

(** [logger.error(f"{text}: {str(e)}")] is [{| lvl := ERROR; text; cause := Some e |}]. *)
Record log_record : Type := mk_log {
  lvl : level;
  text : string;
  cause : option exn
}.

Definition log_error (text : string) (e : exn) : log_record :=
  mk_log ERROR text (Some e).

(** [try: body  except Exception as e: handler e]. *)
Definition try_except {A : Type} (body : result A)
           (handler : exn -> A * list log_record) : result A * list log_record :=
  match body with
  | Return a => (Return a, [])
  | Raise e => (Return (fst (handler e)), snd (handler e))
  end.

(** Python's [max(a, b)] and [min(a, b)]: the first argument is kept unless
    the second is strictly greater (smaller). *)
Definition py_max (a b : R) : R := if Rlt_dec a b then b else a.
Definition py_min (a b : R) : R := if Rlt_dec b a then b else a.

(** The values [json.loads] produces. *)
#[warnings="-register-all"]
Inductive json : Type :=
| JNull
| JBool (b : bool)
| JNum (r : R)
| JStr (s : string)
| JArr (items : list json)
| JObj (members : list (string * json)).

Definition datetime : Type := Z.

(** The dictionary [_process_orderbook] returns and the models read: the
    five validated keys, and whatever other keys the frame had. *)
Record orderbook : Type := mk_orderbook {
  timestamp : datetime;
  exchange : json;
  symbol : json;
  asks : list (R * R);
  bids : list (R * R);
  extra : list (string * json)
}.

End Py.

Import Py.

Declare Scope py_scope.
Delimit Scope py_scope with py.
Notation "x <- e ;; k" := (bind e (fun x => k))
  (at level 61, e at next level, right associativity) : py_scope.
Open Scope py_scope.

(** ** The numpy operations the models use *)

Module Np.

(** [a[0][0]] *)
Definition item00 (a : list (R * R)) : result R :=
  match a with
  | [] => Raise IndexError
  | (p, _) :: _ => Return p
  end.

(** [a[:, 0]] and [a[:, 1]] *)
Definition col0 (a : list (R * R)) : result (list R) :=
  match a with
  | [] => Raise IndexError
  | _ => Return (map fst a)
  end.

Definition col1 (a : list (R * R)) : result (list R) :=
  match a with
  | [] => Raise IndexError
  | _ => Return (map snd a)
  end.

(** An element-wise binary operation on two one-dimensional arrays, with
    numpy's broadcasting: equal lengths, or one operand of length one. *)
Definition broadcast (f : R -> R -> R) (x y : list R) : result (list R) :=
  if Nat.eqb (length x) (length y)
  then Return (map (fun xy => f (fst xy) (snd xy)) (combine x y))
  else match x, y with
       | [a], _ => Return (map (f a) y)
       | _, [b] => Return (map (fun a => f a b) x)
       | _, _ => Raise (ValueError "operands could not be broadcast together")
       end.

Definition subtract : list R -> list R -> result (list R) := broadcast Rminus.
Definition multiply : list R -> list R -> result (list R) := broadcast Rmult.

Definition sum (x : list R) : R := fold_right Rplus 0 x.

Definition mean (x : list R) : R := sum x / INR (length x).

Definition log10 (x : R) : R := ln x / ln 10.

(** The depth of one side of a book, [np.sum(a[:, 1] * a[:, 0])] on a side
    with at least one level: the sum of quantity times price. *)
Definition depth (a : list (R * R)) : R :=
  sum (map (fun level => snd level * fst level) a).

End Np.

(** ** src/models/market_impact.py *)

Module MarketImpact.

Definition _calculate_temporary_impact (asks bids : list (R * R)) (quantity : R)
  : result R :=
  a0 <- Np.col0 asks ;;
  b0 <- Np.col0 bids ;;
  d <- Np.subtract a0 b0 ;;
  let spread := Np.mean d in
  a1 <- Np.col1 asks ;;
  b1 <- Np.col1 bids ;;
  let avg_depth := Np.mean (a1 ++ b1) in
  Return (0.1 * (spread / avg_depth)).

Definition _calculate_permanent_impact (asks bids : list (R * R)) (quantity : R)
  : result R :=
  let price_levels := length asks in
  Return (0.05 / sqrt (INR price_levels)).

Definition _calculate_optimal_time (quantity volatility : R) : result R :=
  let base_time := 300 in
  let quantity_factor := Np.log10 quantity / 3 in
  let volatility_factor := volatility * 2 in
  Return (base_time * (1 + quantity_factor + volatility_factor)).

(** The body of the [try] block of [calculate]. *)
Definition calculate_body (ob : orderbook) (quantity volatility : R) : result R :=
  let asks := asks ob in
  let bids := bids ob in
  a00 <- Np.item00 asks ;;
  b00 <- Np.item00 bids ;;
  let mid_price := (a00 + b00) / 2 in
  eta <- _calculate_temporary_impact asks bids quantity ;;
  gamma <- _calculate_permanent_impact asks bids quantity ;;
  let lambda_param := 0.1 * (1 + volatility) in
  T <- _calculate_optimal_time quantity volatility ;;
  let temporary_impact := eta * (quantity / T) in
  let permanent_impact := gamma * quantity in
  let risk_term := lambda_param * volatility * sqrt T in
  let total_impact := temporary_impact + permanent_impact + risk_term in
  let impact_percentage := (total_impact / quantity) * 100 in
  Return impact_percentage.

Definition calculate (ob : orderbook) (quantity volatility : R)
  : result R * list log_record :=
  try_except (calculate_body ob quantity volatility)
    (fun e => (0.0, [log_error "Error calculating market impact" e])).

(** The formula of the specification, in its own words: [eta], [gamma],
    [lambda], [T], the impact and the percentage. *)
Definition spec_mean_spread (asks bids : list (R * R)) : R :=
  Np.mean (map (fun ab => fst (fst ab) - fst (snd ab)) (combine asks bids)).

Definition spec_mean_depth (asks bids : list (R * R)) : R :=
  Np.mean (map snd asks ++ map snd bids).


(** The percentage [calculate] returns once [eta] is known, for a book with
    [price_levels] ask levels. *)
Definition impact_pct_of (eta : R) (price_levels : nat) (quantity volatility : R) : R :=
  let gamma := 0.05 / sqrt (INR price_levels) in
  let lambda := 0.1 * (1 + volatility) in
  let T := 300 * (1 + Np.log10 quantity / 3 + volatility * 2) in
  (eta * (quantity / T) + gamma * quantity + lambda * volatility * sqrt T)
    / quantity * 100.

End MarketImpact.

(** ** scikit-learn

    [StandardScaler], [LinearRegression] and [LogisticRegression] are library
    classes: their objects are abstract, and so are the methods the models
    call.  A fitting method mutates its object whether or not it raises, so
    it returns the object after the call next to its outcome. *)

Module Sk.

Class Sklearn : Type := {
  StandardScaler : Type;
  StandardScaler_new : StandardScaler;
  transform : StandardScaler -> list (list R) -> result (list (list R));
  fit_transform :
    StandardScaler -> list (list R) -> StandardScaler * result (list (list R));
  LinearRegression : Type;
  LinearRegression_new : LinearRegression;
  predict : LinearRegression -> list (list R) -> result (list R);
  fit : LinearRegression -> list (list R) -> list R -> LinearRegression * result unit;
  LogisticRegression : Type;
  LogisticRegression_new : LogisticRegression;
  predict_proba : LogisticRegression -> list (list R) -> result (list (list R));
  fit_classifier :
    LogisticRegression -> list (list R) -> list R -> LogisticRegression * result unit
}.

(** [x[i]] on a Python sequence or a one-dimensional array. *)
Definition item {A : Type} (x : list A) (i : nat) : result A :=
  match nth_error x i with
  | Some a => Return a
  | None => Raise IndexError
  end.

(** What scikit-learn documents for a classifier fitted on the two labels 0
    and 1: every row of [predict_proba] holds the probabilities of the two
    classes. *)
Definition binary_probabilities {sk : Sklearn} (m : LogisticRegression) : Prop :=
  forall X rows,
    predict_proba m X = Return rows ->
    Forall (fun row => exists p0 p1,
                row = [p0; p1] /\ 0 <= p0 /\ 0 <= p1 /\ p0 + p1 = 1) rows.

End Sk.

(** ** src/models/slippage.py *)

Module Slippage.

Section WithSklearn.

Context {sk : Sk.Sklearn}.

Record SlippageModel : Type := mk_model {
  model : Sk.LinearRegression;
  scaler : Sk.StandardScaler;
  is_trained : bool
}.

Definition __init__ : SlippageModel :=
  {| model := Sk.LinearRegression_new;
     scaler := Sk.StandardScaler_new;
     is_trained := false |}.

Definition _extract_features (ob : orderbook) (quantity : R) : result (list R) :=
  let asks := asks ob in
  let bids := bids ob in
  a00 <- Np.item00 asks ;;
  b00 <- Np.item00 bids ;;
  let mid_price := (a00 + b00) / 2 in
  let spread := a00 - b00 in
  let spread_percentage := (spread / mid_price) * 100 in
  aq <- Np.col1 asks ;; ap <- Np.col0 asks ;; av <- Np.multiply aq ap ;;
  let ask_depth := Np.sum av in
  bq <- Np.col1 bids ;; bp <- Np.col0 bids ;; bv <- Np.multiply bq bp ;;
  let bid_depth := Np.sum bv in
  let total_depth := ask_depth + bid_depth in
  let depth_imbalance := Rabs (ask_depth - bid_depth) / total_depth in
  let price_levels := length asks in
  let quantity_ratio := quantity / total_depth in
  Return [spread_percentage; depth_imbalance; INR price_levels; quantity_ratio;
          Np.log10 quantity].

Definition _calculate_heuristic_slippage (ob : orderbook) (quantity : R) : result R :=
  let asks := asks ob in
  let bids := bids ob in
  a00 <- Np.item00 asks ;;
  b00 <- Np.item00 bids ;;
  let mid_price := (a00 + b00) / 2 in
  let spread := a00 - b00 in
  let spread_percentage := (spread / mid_price) * 100 in
  aq <- Np.col1 asks ;; ap <- Np.col0 asks ;; av <- Np.multiply aq ap ;;
  bq <- Np.col1 bids ;; bp <- Np.col0 bids ;; bv <- Np.multiply bq bp ;;
  let total_depth := Np.sum av + Np.sum bv in
  let quantity_impact := (quantity / total_depth) * 100 in
  let slippage := spread_percentage * 0.5 + quantity_impact * 0.5 in
  Return slippage.

(** The body of the [try] block of [calculate]. *)
Definition calculate_body (self : SlippageModel) (ob : orderbook) (quantity : R)
  : result R :=
  features <- _extract_features ob quantity ;;
  if negb (is_trained self)
  then _calculate_heuristic_slippage ob quantity
  else
    scaled_features <- Sk.transform (scaler self) [features] ;;
    predicted <- Sk.predict (model self) scaled_features ;;
    slippage <- Sk.item predicted 0 ;;
    Return (py_max 0.0 slippage).

Definition calculate (self : SlippageModel) (ob : orderbook) (quantity : R)
  : result R * list log_record :=
  try_except (calculate_body self ob quantity)
    (fun e => (0.0, [log_error "Error calculating slippage" e])).

(** One element of [historical_data]. *)
Record sample : Type := mk_sample {
  s_orderbook : orderbook;
  s_quantity : R;
  actual_slippage : R
}.

(** The body of the [try] block of [train]: the model object after the
    statements that ran, and how the block ended. *)
Definition train_body (self : SlippageModel) (historical_data : list sample)
  : SlippageModel * result unit :=
  match historical_data with
  | [] => (self, Return tt)
  | _ =>
      match mapM (fun data => _extract_features (s_orderbook data) (s_quantity data))
                 historical_data with
      | Raise e => (self, Raise e)
      | Return X =>
          let y := map actual_slippage historical_data in
          let (scaler', scaled) := Sk.fit_transform (scaler self) X in
          let self := {| model := model self; scaler := scaler';
                         is_trained := is_trained self |} in
          match scaled with
          | Raise e => (self, Raise e)
          | Return X_scaled =>
              let (model', fitted) := Sk.fit (model self) X_scaled y in
              let self := {| model := model'; scaler := scaler self;
                             is_trained := is_trained self |} in
              match fitted with
              | Raise e => (self, Raise e)
              | Return _ =>
                  ({| model := model self; scaler := scaler self;
                      is_trained := true |}, Return tt)
              end
          end
      end
  end.

(** [train]: the model object afterwards, the outcome of the call, and the
    records logged. *)
Definition train (self : SlippageModel) (historical_data : list sample)
  : SlippageModel * result unit * list log_record :=
  let (self', outcome) := train_body self historical_data in
  match outcome with
  | Return _ => (self', Return tt, [])
  | Raise e =>
      ({| model := model self'; scaler := scaler self'; is_trained := false |},
       Return tt, [log_error "Error training slippage model" e])
  end.

End WithSklearn.

End Slippage.

(** ** src/models/maker_taker.py *)

Module MakerTaker.

Section WithSklearn.

Context {sk : Sk.Sklearn}.

Record MakerTakerModel : Type := mk_model {
  model : Sk.LogisticRegression;
  scaler : Sk.StandardScaler;
  is_trained : bool
}.

Definition __init__ : MakerTakerModel :=
  {| model := Sk.LogisticRegression_new;
     scaler := Sk.StandardScaler_new;
     is_trained := false |}.

(** The dictionary [{"maker": ..., "taker": ...}]. *)
Record proportions : Type := mk_proportions {
  maker : R;
  taker : R
}.

Definition _extract_features (ob : orderbook) (quantity : R) : result (list R) :=
  let asks := asks ob in
  let bids := bids ob in
  a00 <- Np.item00 asks ;;
  b00 <- Np.item00 bids ;;
  let mid_price := (a00 + b00) / 2 in
  let spread := a00 - b00 in
  let spread_percentage := (spread / mid_price) * 100 in
  aq <- Np.col1 asks ;; ap <- Np.col0 asks ;; av <- Np.multiply aq ap ;;
  let ask_depth := Np.sum av in
  bq <- Np.col1 bids ;; bp <- Np.col0 bids ;; bv <- Np.multiply bq bp ;;
  let bid_depth := Np.sum bv in
  let total_depth := ask_depth + bid_depth in
  let depth_imbalance := (ask_depth - bid_depth) / total_depth in
  let price_levels := length asks in
  let quantity_ratio := quantity / total_depth in
  let pressure := (ask_depth - bid_depth) / (ask_depth + bid_depth) in
  Return [spread_percentage; depth_imbalance; INR price_levels; quantity_ratio;
          pressure; Np.log10 quantity].

Definition _calculate_heuristic_proportions (ob : orderbook) (quantity : R)
  : result proportions :=
  let asks := asks ob in
  let bids := bids ob in
  a00 <- Np.item00 asks ;;
  b00 <- Np.item00 bids ;;
  let spread := a00 - b00 in
  let mid_price := (a00 + b00) / 2 in
  let spread_percentage := (spread / mid_price) * 100 in
  aq <- Np.col1 asks ;; ap <- Np.col0 asks ;; av <- Np.multiply aq ap ;;
  let ask_depth := Np.sum av in
  bq <- Np.col1 bids ;; bp <- Np.col0 bids ;; bv <- Np.multiply bq bp ;;
  let bid_depth := Np.sum bv in
  let total_depth := ask_depth + bid_depth in
  let quantity_ratio := quantity / total_depth in
  let maker_prob := 50.0 + (spread_percentage * 2) - (quantity_ratio * 100) in
  let maker_prob := py_max 0.0 (py_min 100.0 maker_prob) in
  let taker_prob := 100.0 - maker_prob in
  Return {| maker := maker_prob; taker := taker_prob |}.

(** The body of the [try] block of [calculate]. *)
Definition calculate_body (self : MakerTakerModel) (ob : orderbook) (quantity : R)
  : result proportions :=
  features <- _extract_features ob quantity ;;
  if negb (is_trained self)
  then _calculate_heuristic_proportions ob quantity
  else
    scaled_features <- Sk.transform (scaler self) [features] ;;
    rows <- Sk.predict_proba (model self) scaled_features ;;
    probabilities <- Sk.item rows 0 ;;
    p0 <- Sk.item probabilities 0 ;;
    p1 <- Sk.item probabilities 1 ;;
    Return {| maker := p0 * 100; taker := p1 * 100 |}.

Definition calculate (self : MakerTakerModel) (ob : orderbook) (quantity : R)
  : result proportions * list log_record :=
  try_except (calculate_body self ob quantity)
    (fun e => ({| maker := 50.0; taker := 50.0 |},
               [log_error "Error calculating maker/taker proportions" e])).

(** One element of [historical_data]; [execution_type] is 0 for maker and
    1 for taker. *)
Record sample : Type := mk_sample {
  s_orderbook : orderbook;
  s_quantity : R;
  execution_type : R
}.

(** The body of the [try] block of [train]: the model object after the
    statements that ran, and how the block ended. *)
Definition train_body (self : MakerTakerModel) (historical_data : list sample)
  : MakerTakerModel * result unit :=
  match historical_data with
  | [] => (self, Return tt)
  | _ =>
      match mapM (fun data => _extract_features (s_orderbook data) (s_quantity data))
                 historical_data with
      | Raise e => (self, Raise e)
      | Return X =>
          let y := map execution_type historical_data in
          let (scaler', scaled) := Sk.fit_transform (scaler self) X in
          let self := {| model := model self; scaler := scaler';
                         is_trained := is_trained self |} in
          match scaled with
          | Raise e => (self, Raise e)
          | Return X_scaled =>
              let (model', fitted) := Sk.fit_classifier (model self) X_scaled y in
              let self := {| model := model'; scaler := scaler self;
                             is_trained := is_trained self |} in
              match fitted with
              | Raise e => (self, Raise e)
              | Return _ =>
                  ({| model := model self; scaler := scaler self;
                      is_trained := true |}, Return tt)
              end
          end
      end
  end.

Definition train (self : MakerTakerModel) (historical_data : list sample)
  : MakerTakerModel * result unit * list log_record :=
  let (self', outcome) := train_body self historical_data in
  match outcome with
  | Return _ => (self', Return tt, [])
  | Raise e =>
      ({| model := model self'; scaler := scaler self'; is_trained := false |},
       Return tt, [log_error "Error training maker/taker model" e])
  end.

End WithSklearn.

End MakerTaker.

(** ** numpy's floats

    numpy's division, [np.log10] and [np.sqrt] do not raise where the
    operation on real numbers is undefined: they warn and return [inf],
    [-inf] or [nan], and every later operation goes on with that value.
    [float64] is a real number or one of these three values.  Rounding and
    overflow are still not modelled, and a zero is the positive zero. *)

Module Float64.

Inductive float64 : Type :=
| Fin (r : R)
| PInf
| NInf
| NaN.

Coercion Fin : R >-> float64.

Definition neg (x : float64) : float64 :=
  match x with
  | Fin a => Fin (- a)
  | PInf => NInf
  | NInf => PInf
  | NaN => NaN
  end.

Definition add (x y : float64) : float64 :=
  match x, y with
  | NaN, _ | _, NaN => NaN
  | Fin a, Fin b => Fin (a + b)
  | PInf, NInf | NInf, PInf => NaN
  | PInf, _ | _, PInf => PInf
  | NInf, _ | _, NInf => NInf
  end.

Definition sub (x y : float64) : float64 := add x (neg y).

(** An infinity, [PInf] when [positive], times the finite [a]. *)
Definition inf_times (positive : bool) (a : R) : float64 :=
  if Req_dec_T a 0 then NaN
  else if Rlt_dec 0 a
       then (if positive then PInf else NInf)
       else (if positive then NInf else PInf).

Definition mul (x y : float64) : float64 :=
  match x, y with
  | NaN, _ | _, NaN => NaN
  | Fin a, Fin b => Fin (a * b)
  | Fin a, PInf | PInf, Fin a => inf_times true a
  | Fin a, NInf | NInf, Fin a => inf_times false a
  | PInf, PInf | NInf, NInf => PInf
  | PInf, NInf | NInf, PInf => NInf
  end.

(** A division by zero gives an infinity of the sign of the dividend, and
    [nan] for [0 / 0]. *)
Definition div (x y : float64) : float64 :=
  match x, y with
  | NaN, _ | _, NaN => NaN
  | Fin a, Fin b =>
      if Req_dec_T b 0
      then (if Req_dec_T a 0 then NaN else if Rlt_dec 0 a then PInf else NInf)
      else Fin (a / b)
  | Fin _, PInf | Fin _, NInf => Fin 0
  | PInf, Fin b => if Rlt_dec b 0 then NInf else PInf
  | NInf, Fin b => if Rlt_dec b 0 then PInf else NInf
  | PInf, PInf | PInf, NInf | NInf, PInf | NInf, NInf => NaN
  end.

Definition abs (x : float64) : float64 :=
  match x with
  | Fin a => Fin (Rabs a)
  | PInf | NInf => PInf
  | NaN => NaN
  end.

(** [np.sqrt] and [np.log10] *)
Definition sqrt (x : float64) : float64 :=
  match x with
  | Fin a => if Rlt_dec a 0 then NaN else Fin (R_sqrt.sqrt a)
  | PInf => PInf
  | NInf | NaN => NaN
  end.

Definition log10 (x : float64) : float64 :=
  match x with
  | Fin a =>
      if Rlt_dec 0 a then Fin (Np.log10 a)
      else if Req_dec_T a 0 then NInf else NaN
  | PInf => PInf
  | NInf | NaN => NaN
  end.

(** [x < y]: false as soon as one side is [nan]. *)
Definition ltb (x y : float64) : bool :=
  match x, y with
  | Fin a, Fin b => if Rlt_dec a b then true else false
  | NInf, Fin _ | NInf, PInf | Fin _, PInf => true
  | _, _ => false
  end.

Definition py_max (a b : float64) : float64 := if ltb a b then b else a.
Definition py_min (a b : float64) : float64 := if ltb b a then b else a.

Definition finite (x : float64) : bool :=
  match x with
  | Fin _ => true
  | _ => false
  end.

Declare Scope float64_scope.
Delimit Scope float64_scope with f64.
Bind Scope float64_scope with float64.
Infix "+" := add : float64_scope.
Infix "-" := sub : float64_scope.
Infix "*" := mul : float64_scope.
Infix "/" := div : float64_scope.

End Float64.

(** ** The three models on numpy's floats

    The modules [MarketImpact], [Slippage] and [MakerTaker] above follow the
    models on the real numbers.  This one follows them on [float64], so that
    the quotient by a zero depth can be told from a finite one.  The numbers
    of a book, the quantity and the volatility are finite. *)

Module Ieee.

Import Float64.

(** *** src/models/market_impact.py *)

Module MarketImpact.

Definition _calculate_temporary_impact (asks bids : list (R * R)) (quantity : R)
  : result float64 :=
  a0 <- Np.col0 asks ;;
  b0 <- Np.col0 bids ;;
  d <- Np.subtract a0 b0 ;;
  let spread : float64 := Np.mean d in
  a1 <- Np.col1 asks ;;
  b1 <- Np.col1 bids ;;
  let avg_depth : float64 := Np.mean (a1 ++ b1) in
  Return (0.1 * (spread / avg_depth))%f64.

Definition _calculate_permanent_impact (asks bids : list (R * R)) (quantity : R)
  : result float64 :=
  let price_levels := length asks in
  Return (0.05 / sqrt (INR price_levels))%f64.

Definition _calculate_optimal_time (quantity volatility : R) : result float64 :=
  let base_time : float64 := 300 in
  let quantity_factor := (log10 quantity / 3)%f64 in
  let volatility_factor := (volatility * 2)%f64 in
  Return (base_time * (1 + quantity_factor + volatility_factor))%f64.

(** The body of the [try] block of [calculate]. *)
Definition calculate_body (ob : orderbook) (quantity volatility : R)
  : result float64 :=
  let asks := asks ob in
  let bids := bids ob in
  a00 <- Np.item00 asks ;;
  b00 <- Np.item00 bids ;;
  let mid_price := ((a00 + b00) / 2)%f64 in
  eta <- _calculate_temporary_impact asks bids quantity ;;
  gamma <- _calculate_permanent_impact asks bids quantity ;;
  let lambda_param := (0.1 * (1 + volatility))%f64 in
  T <- _calculate_optimal_time quantity volatility ;;
  let temporary_impact := (eta * (quantity / T))%f64 in
  let permanent_impact := (gamma * quantity)%f64 in
  let risk_term := (lambda_param * volatility * sqrt T)%f64 in
  let total_impact := (temporary_impact + permanent_impact + risk_term)%f64 in
  let impact_percentage := ((total_impact / quantity) * 100)%f64 in
  Return impact_percentage.

Definition calculate (ob : orderbook) (quantity volatility : R)
  : result float64 * list log_record :=
  try_except (calculate_body ob quantity volatility)
    (fun e => (Fin 0.0, [log_error "Error calculating market impact" e])).

End MarketImpact.

(** *** src/models/slippage.py

    The scaler and the regression are the library's: the object of the
    model holds what their two methods return. *)

Module Slippage.

Record SlippageModel : Type := mk_model {
  scaler_transform : list (list float64) -> result (list (list float64));
  model_predict : list (list float64) -> result (list float64);
  is_trained : bool
}.

Definition _extract_features (ob : orderbook) (quantity : R)
  : result (list float64) :=
  let asks := asks ob in
  let bids := bids ob in
  a00 <- Np.item00 asks ;;
  b00 <- Np.item00 bids ;;
  let mid_price := ((a00 + b00) / 2)%f64 in
  let spread := (a00 - b00)%f64 in
  let spread_percentage := ((spread / mid_price) * 100)%f64 in
  aq <- Np.col1 asks ;; ap <- Np.col0 asks ;; av <- Np.multiply aq ap ;;
  let ask_depth : float64 := Np.sum av in
  bq <- Np.col1 bids ;; bp <- Np.col0 bids ;; bv <- Np.multiply bq bp ;;
  let bid_depth : float64 := Np.sum bv in
  let total_depth := (ask_depth + bid_depth)%f64 in
  let depth_imbalance := (abs (ask_depth - bid_depth) / total_depth)%f64 in
  let price_levels := length asks in
  let quantity_ratio := (quantity / total_depth)%f64 in
  Return [spread_percentage; depth_imbalance; Fin (INR price_levels);
          quantity_ratio; log10 quantity].

Definition _calculate_heuristic_slippage (ob : orderbook) (quantity : R)
  : result float64 :=
  let asks := asks ob in
  let bids := bids ob in
  a00 <- Np.item00 asks ;;
  b00 <- Np.item00 bids ;;
  let mid_price := ((a00 + b00) / 2)%f64 in
  let spread := (a00 - b00)%f64 in
  let spread_percentage := ((spread / mid_price) * 100)%f64 in
  aq <- Np.col1 asks ;; ap <- Np.col0 asks ;; av <- Np.multiply aq ap ;;
  bq <- Np.col1 bids ;; bp <- Np.col0 bids ;; bv <- Np.multiply bq bp ;;
  let total_depth := (Fin (Np.sum av) + Fin (Np.sum bv))%f64 in
  let quantity_impact := ((quantity / total_depth) * 100)%f64 in
  let slippage := (spread_percentage * 0.5 + quantity_impact * 0.5)%f64 in
  Return slippage.

(** The body of the [try] block of [calculate]. *)
Definition calculate_body (self : SlippageModel) (ob : orderbook) (quantity : R)
  : result float64 :=
  features <- _extract_features ob quantity ;;
  if negb (is_trained self)
  then _calculate_heuristic_slippage ob quantity
  else
    scaled_features <- scaler_transform self [features] ;;
    predicted <- model_predict self scaled_features ;;
    slippage <- Sk.item predicted 0 ;;
    Return (py_max 0.0 slippage).

Definition calculate (self : SlippageModel) (ob : orderbook) (quantity : R)
  : result float64 * list log_record :=
  try_except (calculate_body self ob quantity)
    (fun e => (Fin 0.0, [log_error "Error calculating slippage" e])).

End Slippage.

(** *** src/models/maker_taker.py *)

Module MakerTaker.

Record MakerTakerModel : Type := mk_model {
  scaler_transform : list (list float64) -> result (list (list float64));
  model_predict_proba : list (list float64) -> result (list (list float64));
  is_trained : bool
}.

Record proportions : Type := mk_proportions {
  maker : float64;
  taker : float64
}.

Definition _extract_features (ob : orderbook) (quantity : R)
  : result (list float64) :=
  let asks := asks ob in
  let bids := bids ob in
  a00 <- Np.item00 asks ;;
  b00 <- Np.item00 bids ;;
  let mid_price := ((a00 + b00) / 2)%f64 in
  let spread := (a00 - b00)%f64 in
  let spread_percentage := ((spread / mid_price) * 100)%f64 in
  aq <- Np.col1 asks ;; ap <- Np.col0 asks ;; av <- Np.multiply aq ap ;;
  let ask_depth : float64 := Np.sum av in
  bq <- Np.col1 bids ;; bp <- Np.col0 bids ;; bv <- Np.multiply bq bp ;;
  let bid_depth : float64 := Np.sum bv in
  let total_depth := (ask_depth + bid_depth)%f64 in
  let depth_imbalance := ((ask_depth - bid_depth) / total_depth)%f64 in
  let price_levels := length asks in
  let quantity_ratio := (quantity / total_depth)%f64 in
  let pressure := ((ask_depth - bid_depth) / (ask_depth + bid_depth))%f64 in
  Return [spread_percentage; depth_imbalance; Fin (INR price_levels);
          quantity_ratio; pressure; log10 quantity].

Definition _calculate_heuristic_proportions (ob : orderbook) (quantity : R)
  : result proportions :=
  let asks := asks ob in
  let bids := bids ob in
  a00 <- Np.item00 asks ;;
  b00 <- Np.item00 bids ;;
  let spread := (a00 - b00)%f64 in
  let mid_price := ((a00 + b00) / 2)%f64 in
  let spread_percentage := ((spread / mid_price) * 100)%f64 in
  aq <- Np.col1 asks ;; ap <- Np.col0 asks ;; av <- Np.multiply aq ap ;;
  let ask_depth : float64 := Np.sum av in
  bq <- Np.col1 bids ;; bp <- Np.col0 bids ;; bv <- Np.multiply bq bp ;;
  let bid_depth : float64 := Np.sum bv in
  let total_depth := (ask_depth + bid_depth)%f64 in
  let quantity_ratio := (quantity / total_depth)%f64 in
  let maker_prob := (50.0 + (spread_percentage * 2) - (quantity_ratio * 100))%f64 in
  let maker_prob := py_max 0.0 (py_min 100.0 maker_prob) in
  let taker_prob := (100.0 - maker_prob)%f64 in
  Return {| maker := maker_prob; taker := taker_prob |}.

(** The body of the [try] block of [calculate]. *)
Definition calculate_body (self : MakerTakerModel) (ob : orderbook) (quantity : R)
  : result proportions :=
  features <- _extract_features ob quantity ;;
  if negb (is_trained self)
  then _calculate_heuristic_proportions ob quantity
  else
    scaled_features <- scaler_transform self [features] ;;
    rows <- model_predict_proba self scaled_features ;;
    probabilities <- Sk.item rows 0 ;;
    p0 <- Sk.item probabilities 0 ;;
    p1 <- Sk.item probabilities 1 ;;
    Return {| maker := (p0 * 100)%f64; taker := (p1 * 100)%f64 |}.

Definition calculate (self : MakerTakerModel) (ob : orderbook) (quantity : R)
  : result proportions * list log_record :=
  try_except (calculate_body self ob quantity)
    (fun e => ({| maker := 50.0; taker := 50.0 |},
               [log_error "Error calculating maker/taker proportions" e])).

End MakerTaker.

(** A book with an empty side, and a book whose numbers of ask and bid
    levels numpy cannot broadcast. *)
Definition has_empty_side (ob : orderbook) : bool :=
  match asks ob, bids ob with
  | _ :: _, _ :: _ => false
  | _, _ => true
  end.

Definition shapes_mismatch (ob : orderbook) : bool :=
  negb (Nat.eqb (length (asks ob)) (length (bids ob))) &&
  negb (Nat.eqb (length (asks ob)) 1) &&
  negb (Nat.eqb (length (bids ob)) 1).

(** A book of zero depth: each level has a positive price and the quantity 0. *)
Definition zero_depth (side : list (R * R)) : Prop :=
  Forall (fun level => 0 < fst level /\ snd level = 0) side.

End Ieee.

(** ** src/ui/main_window.py

    Of the window, the state the update handler reads and writes: the three
    input widgets, the six output labels and the three models.  A label holds
    the number it displays; the two-decimal formatting is not modelled. *)

Module MainWindow.

(** [d[key]] on a dictionary. *)
Fixpoint dict_get {V : Type} (d : list (string * V)) (key : string) : result V :=
  match d with
  | [] => Raise (KeyError key)
  | (k, v) :: rest => if String.eqb k key then Return v else dict_get rest key
  end.

Definition fee_tiers : list (string * R) :=
  [("Tier 1"%string, 0.001); ("Tier 2"%string, 0.0008); ("Tier 3"%string, 0.0006)].

(** The fee table in the words of the specification. *)
Definition spec_fee_rate (tier : string) : R :=
  if String.eqb tier "Tier 1" then 0.001
  else if String.eqb tier "Tier 2" then 0.0008
  else 0.0006.

(** [f"{v:.2f}"] for a value read from the frame: the number shown, or the
    exception the format raises. *)
Definition format_2f (v : json) : result R :=
  match v with
  | JNum r => Return r
  | JBool b => Return (if b then 1 else 0)
  | JStr _ => Raise (ValueError "Unknown format code 'f' for object of type 'str'")
  | _ => Raise TypeError
  end.

(** [data.get(key, default)] on the keys next to the five validated ones. *)
Fixpoint dict_get_default (d : list (string * json)) (key : string) (default : json)
  : json :=
  match d with
  | [] => default
  | (k, v) :: rest => if String.eqb k key then v else dict_get_default rest key default
  end.

(** [f"{data.get('processing_time', 0):.2f}"]: the value shown as latency,
    or the exception of its format. *)
Definition latency_of (data : orderbook) : result R :=
  format_2f (dict_get_default (extra data) "processing_time" (JNum 0)).

Section WithSklearn.

Context {sk : Sk.Sklearn}.

Record MainWindow : Type := mk_window {
  slippage_model : Slippage.SlippageModel;
  maker_taker_model : MakerTaker.MakerTakerModel;
  quantity_spin : R;
  volatility_spin : R;
  fee_tier_combo : string;
  slippage_label : R;
  fees_label : R;
  market_impact_label : R;
  net_cost_label : R;
  maker_taker_label : R * R;
  latency_label : R
}.

Definition set_slippage_label (self : MainWindow) (v : R) : MainWindow :=
  mk_window (slippage_model self) (maker_taker_model self) (quantity_spin self)
    (volatility_spin self) (fee_tier_combo self)
    v (fees_label self) (market_impact_label self) (net_cost_label self)
    (maker_taker_label self) (latency_label self).

Definition set_fees_label (self : MainWindow) (v : R) : MainWindow :=
  mk_window (slippage_model self) (maker_taker_model self) (quantity_spin self)
    (volatility_spin self) (fee_tier_combo self)
    (slippage_label self) v (market_impact_label self) (net_cost_label self)
    (maker_taker_label self) (latency_label self).

Definition set_market_impact_label (self : MainWindow) (v : R) : MainWindow :=
  mk_window (slippage_model self) (maker_taker_model self) (quantity_spin self)
    (volatility_spin self) (fee_tier_combo self)
    (slippage_label self) (fees_label self) v (net_cost_label self)
    (maker_taker_label self) (latency_label self).

Definition set_net_cost_label (self : MainWindow) (v : R) : MainWindow :=
  mk_window (slippage_model self) (maker_taker_model self) (quantity_spin self)
    (volatility_spin self) (fee_tier_combo self)
    (slippage_label self) (fees_label self) (market_impact_label self) v
    (maker_taker_label self) (latency_label self).

Definition set_maker_taker_label (self : MainWindow) (v : R * R) : MainWindow :=
  mk_window (slippage_model self) (maker_taker_model self) (quantity_spin self)
    (volatility_spin self) (fee_tier_combo self)
    (slippage_label self) (fees_label self) (market_impact_label self)
    (net_cost_label self) v (latency_label self).

Definition set_latency_label (self : MainWindow) (v : R) : MainWindow :=
  mk_window (slippage_model self) (maker_taker_model self) (quantity_spin self)
    (volatility_spin self) (fee_tier_combo self)
    (slippage_label self) (fees_label self) (market_impact_label self)
    (net_cost_label self) (maker_taker_label self) v.

Definition _calculate_fees (self : MainWindow) (quantity : R) : result R :=
  let tier := fee_tier_combo self in
  rate <- dict_get fee_tiers tier ;;
  Return (quantity * rate).

(** [_create_input_panel] and [_create_output_panel]: the ranges of the two
    spin boxes, and the window [__init__] builds around the three models, with
    the initial values of the widgets (the first item of a combo box is its
    current one) and of the labels. *)
Definition quantity_range : R * R := (0.01, 1000000).
Definition volatility_range : R * R := (0, 100).
Definition fee_tier_items : list string := ["Tier 1"; "Tier 2"; "Tier 3"]%string.

Definition __init__ (slippage_model : Slippage.SlippageModel)
           (maker_taker_model : MakerTaker.MakerTakerModel) : MainWindow :=
  {| slippage_model := slippage_model;
     maker_taker_model := maker_taker_model;
     quantity_spin := 100;
     volatility_spin := 1.0;
     fee_tier_combo := hd EmptyString fee_tier_items;
     slippage_label := 0;
     fees_label := 0;
     market_impact_label := 0;
     net_cost_label := 0;
     maker_taker_label := (0, 0);
     latency_label := 0 |}.

(** What a spin box guarantees of its value, and a combo box that is not
    editable of its text. *)
Definition inputs_in_range (self : MainWindow) : Prop :=
  fst quantity_range <= quantity_spin self <= snd quantity_range /\
  fst volatility_range <= volatility_spin self <= snd volatility_range /\
  In (fee_tier_combo self) fee_tier_items.

(** Two windows with the same models and the same inputs. *)
Definition same_inputs (w w' : MainWindow) : Prop :=
  slippage_model w' = slippage_model w /\
  maker_taker_model w' = maker_taker_model w /\
  quantity_spin w' = quantity_spin w /\
  volatility_spin w' = volatility_spin w /\
  fee_tier_combo w' = fee_tier_combo w.

(** The statements of the handler thread the window and the log, and stop at
    the first exception. *)
Definition handler (A : Type) : Type :=
  MainWindow -> MainWindow * list log_record * result A.

Definition h_bind {A B : Type} (m : handler A) (k : A -> handler B) : handler B :=
  fun self =>
    match m self with
    | (self', log, Return a) =>
        match k a self' with
        | (self'', log', r) => (self'', log ++ log', r)
        end
    | (self', log, Raise e) => (self', log, Raise e)
    end.

(** A call of a model's [calculate], with the records it logs. *)
Definition h_call {A : Type} (c : result A * list log_record) : handler A :=
  fun self => (self, snd c, fst c).

Definition h_lift {A : Type} (r : result A) : handler A :=
  fun self => (self, [], r).

Definition h_set (f : MainWindow -> MainWindow) : handler unit :=
  fun self => (f self, [], Return tt).

(** The body of the [try] block of [_on_orderbook_update]. *)
Definition update_body (data : orderbook) : handler unit :=
  fun self =>
    let quantity := quantity_spin self in
    let volatility := volatility_spin self / 100 in
    (h_bind (h_call (Slippage.calculate (slippage_model self) data quantity))
       (fun slippage =>
     h_bind (h_set (fun w => set_slippage_label w slippage)) (fun _ =>
     h_bind (h_lift (_calculate_fees self quantity)) (fun fees =>
     h_bind (h_set (fun w => set_fees_label w fees)) (fun _ =>
     h_bind (h_call (MarketImpact.calculate data quantity volatility)) (fun impact =>
     h_bind (h_set (fun w => set_market_impact_label w impact)) (fun _ =>
     let net_cost := (slippage + impact) * quantity / 100 + fees in
     h_bind (h_set (fun w => set_net_cost_label w net_cost)) (fun _ =>
     h_bind (h_call (MakerTaker.calculate (maker_taker_model self) data quantity))
       (fun maker_taker =>
     h_bind (h_set (fun w => set_maker_taker_label w
                      (MakerTaker.maker maker_taker, MakerTaker.taker maker_taker)))
       (fun _ =>
     h_bind (h_lift (format_2f
                       (dict_get_default (extra data) "processing_time" (JNum 0))))
       (fun latency =>
     h_set (fun w => set_latency_label w latency)))))))))))) self.

(** [_on_orderbook_update]: the window afterwards, the records the models
    logged, the lines printed, and the outcome of the call. *)
Definition _on_orderbook_update (self : MainWindow) (data : orderbook)
  : MainWindow * list log_record * list (string * exn) * result unit :=
  match update_body data self with
  | (self', log, Return _) => (self', log, [], Return tt)
  | (self', log, Raise e) => (self', log, [("Error updating UI"%string, e)], Return tt)
  end.

End WithSklearn.

End MainWindow.

(** ** src/websocket/client.py

    The client runs against its environment: every [await] of the receive
    loop is resolved by an [event].  A text frame is represented by what
    [json.loads] makes of it.  [float] on a string and
    [datetime.fromisoformat] are the built-ins of Python, taken as given. *)

Module Client.

Class Builtins : Type := {
  float_of_str : string -> option R;
  fromisoformat : string -> option datetime
}.

Inductive frame : Type :=
| Malformed
| Json (data : json).

Definition json_loads (message : frame) : result json :=
  match message with
  | Malformed => Raise JSONDecodeError
  | Json data => Return data
  end.

(** [s.replace("Z", "+00:00")] *)
Fixpoint replace_Z (s : string) : string :=
  match s with
  | EmptyString => EmptyString
  | String c rest =>
      if Ascii.eqb c "Z"%char
      then String.append "+00:00" (replace_Z rest)
      else String c (replace_Z rest)
  end.

(** [field in data] *)
Definition contains (data : json) (field : string) : result bool :=
  match data with
  | JObj members => Return (existsb (fun kv => String.eqb (fst kv) field) members)
  | JArr items =>
      Return (existsb (fun v => match v with
                                | JStr s => String.eqb s field
                                | _ => false
                                end) items)
  | JStr s => Return (match String.index 0 field s with
                      | Some _ => true
                      | None => false
                      end)
  | _ => Raise TypeError
  end.

(** [data[key]] for a string key *)
Definition getitem (data : json) (key : string) : result json :=
  match data with
  | JObj members => MainWindow.dict_get members key
  | _ => Raise TypeError
  end.

(** [iter(v)]: the items of a list, the characters of a string, the keys of
    a dictionary. *)
Definition iter (v : json) : result (list json) :=
  match v with
  | JArr items => Return items
  | JStr s => Return (map (fun c => JStr (String c EmptyString)) (list_ascii_of_string s))
  | JObj members => Return (map (fun kv => JStr (fst kv)) members)
  | _ => Raise TypeError
  end.

(** [price, qty = row] *)
Definition unpack2 (row : json) : result (json * json) :=
  items <- iter row ;;
  match items with
  | [price; qty] => Return (price, qty)
  | _ => Raise (ValueError "wrong number of values to unpack")
  end.

Definition required_fields : list string :=
  ["timestamp"; "exchange"; "symbol"; "asks"; "bids"]%string.

Definition is_required (key : string) : bool :=
  existsb (String.eqb key) required_fields.

Section WithBuiltins.

Context {bi : Builtins}.

(** [float(v)] *)
Definition float (v : json) : result R :=
  match v with
  | JNum r => Return r
  | JBool b => Return (if b then 1 else 0)
  | JStr s =>
      match float_of_str s with
      | Some r => Return r
      | None => Raise (ValueError "could not convert string to float")
      end
  | _ => Raise TypeError
  end.

(** [[[float(price), float(qty)] for price, qty in levels]] *)
Definition convert_levels (levels : json) : result (list (R * R)) :=
  rows <- iter levels ;;
  mapM (fun row =>
          pq <- unpack2 row ;;
          price <- float (fst pq) ;;
          qty <- float (snd pq) ;;
          Return (price, qty)) rows.

(** [datetime.fromisoformat(v.replace("Z", "+00:00"))] *)
Definition parse_timestamp (v : json) : result datetime :=
  match v with
  | JStr s =>
      match fromisoformat (replace_Z s) with
      | Some t => Return t
      | None => Raise (ValueError "Invalid isoformat string")
      end
  | _ => Raise AttributeError
  end.

Definition check_required (data : json) : result unit :=
  _ <- mapM (fun field =>
               present <- contains data field ;;
               if present then Return tt
               else Raise (ValueError ("Missing required field: " ++ field)))
            required_fields ;;
  Return tt.

(** The body of the [try] block of [_process_orderbook]. *)
Definition _process_orderbook_body (data : json) : result orderbook :=
  _ <- check_required data ;;
  ts <- getitem data "timestamp" ;;
  timestamp <- parse_timestamp ts ;;
  a <- getitem data "asks" ;;
  asks <- convert_levels a ;;
  b <- getitem data "bids" ;;
  bids <- convert_levels b ;;
  exchange <- getitem data "exchange" ;;
  symbol <- getitem data "symbol" ;;
  Return {| timestamp := timestamp;
            exchange := exchange;
            symbol := symbol;
            asks := asks;
            bids := bids;
            extra := match data with
                     | JObj members =>
                         filter (fun kv => negb (is_required (fst kv))) members
                     | _ => []
                     end |}.

(** [_process_orderbook]: the handler logs the exception and raises it again. *)
Definition _process_orderbook (data : json) : result orderbook * list log_record :=
  match _process_orderbook_body data with
  | Return ob => (Return ob, [])
  | Raise e => (Raise e, [log_error "Error processing orderbook data" e])
  end.

(** A subscriber: an identity for the trace, and how its coroutine ends on a
    given update. *)
Record callback : Type := mk_callback {
  cb_id : nat;
  cb_call : orderbook -> result unit
}.

Inductive action : Type :=
| Logged (r : log_record)
| Slept (seconds : Z)
| Called (cb : nat) (data : orderbook).

(** [for callback in self.callbacks: await callback(processed_data)] *)
Fixpoint dispatch (callbacks : list callback) (data : orderbook)
  : list action * result unit :=
  match callbacks with
  | [] => ([], Return tt)
  | callback :: rest =>
      match cb_call callback data with
      | Return _ =>
          let (acts, r) := dispatch rest data in
          (Called (cb_id callback) data :: acts, r)
      | Raise e => ([Called (cb_id callback) data], Raise e)
      end
  end.

(** Where the receive task stands: not started, blocked in [recv], inside
    [_reconnect] with the current [retry_delay], or ended. *)
Inductive phase : Type :=
| Idle
| Receiving
| Reconnecting (retry_delay : Z)
| Finished.

Record WebSocketClient : Type := mk_client {
  websocket : bool;
  callbacks : list callback;
  running : bool;
  task : phase;
  trace : list action
}.

Definition __init__ : WebSocketClient :=
  {| websocket := false; callbacks := []; running := false; task := Idle; trace := [] |}.

Definition register_callback (self : WebSocketClient) (callback : callback)
  : WebSocketClient :=
  {| websocket := websocket self;
     callbacks := callbacks self ++ [callback];
     running := running self;
     task := task self;
     trace := trace self |}.

Definition emit (self : WebSocketClient) (acts : list action) : WebSocketClient :=
  {| websocket := websocket self;
     callbacks := callbacks self;
     running := running self;
     task := task self;
     trace := trace self ++ acts |}.

Definition set_task (self : WebSocketClient) (p : phase) : WebSocketClient :=
  {| websocket := websocket self;
     callbacks := callbacks self;
     running := running self;
     task := p;
     trace := trace self |}.

Definition info (text : string) : action := Logged (mk_log INFO text None).
Definition warning (text : string) : action := Logged (mk_log WARNING text None).
Definition error (text : string) (e : exn) : action := Logged (log_error text e).

(** The test of [while self.running] in [_process_messages]. *)
Definition loop_head (self : WebSocketClient) : WebSocketClient :=
  if running self then set_task self Receiving
  else set_task self Finished.

Definition max_retry_delay : Z := 30.

(** The test of [while self.running] in [_reconnect]: the next attempt is
    announced and its sleep starts, or [_reconnect] returns to the receive
    loop. *)
Definition reconnect_head (self : WebSocketClient) (retry_delay : Z)
  : WebSocketClient :=
  if running self
  then set_task (emit self [info "Attempting to reconnect"]) (Reconnecting retry_delay)
  else loop_head self.

(** [_reconnect] from its first line. *)
Definition _reconnect (self : WebSocketClient) : WebSocketClient :=
  let retry_delay := 1%Z in
  reconnect_head self retry_delay.

(** What the receive loop makes of a message before it dispatches:
    [json.loads] followed by the body of [_process_orderbook]. *)
Definition decode (message : frame) : result orderbook :=
  data <- json_loads message ;;
  _process_orderbook_body data.

(** One pass of the [try] block of [_process_messages] on a received
    message. *)
Definition process_message (self : WebSocketClient) (message : frame)
  : list action * result unit :=
  match json_loads message with
  | Raise e => ([], Raise e)
  | Return data =>
      match _process_orderbook data with
      | (Raise e, log) => (map Logged log, Raise e)
      | (Return processed_data, log) =>
          let (acts, r) := dispatch (callbacks self) processed_data in
          (map Logged log ++ acts, r)
      end
  end.

(** The two [except] clauses of [_process_messages]. *)
Definition handle_exception (self : WebSocketClient) (e : exn) : WebSocketClient :=
  match e with
  | ConnectionClosed =>
      _reconnect (emit self [warning "WebSocket connection closed"])
  | _ => loop_head (emit self [error "Error processing message" e])
  end.

Inductive event : Type :=
| Recv (message : frame)
| RecvClosed
| ConnectOk
| ConnectFailed (e : exn)
| CloseCalled.

(** [close] *)
Definition close (self : WebSocketClient) : WebSocketClient :=
  let self := {| websocket := websocket self; callbacks := callbacks self;
                 running := false; task := task self; trace := trace self |} in
  if websocket self
  then emit self [info "WebSocket connection closed"]
  else self.

(** [connect], given how [websockets.connect] ends. *)
Definition connect (self : WebSocketClient) (outcome : result unit)
  : WebSocketClient * result unit :=
  match outcome with
  | Return _ =>
      let self := {| websocket := true; callbacks := callbacks self;
                     running := true; task := Receiving; trace := trace self |} in
      (emit self [info "Connected to WebSocket"], Return tt)
  | Raise e => (emit self [error "Failed to connect to WebSocket" e], Raise e)
  end.

(** One event of the environment; [None] when the receive task is not
    waiting for it. *)
Definition step (self : WebSocketClient) (ev : event) : option WebSocketClient :=
  match ev, task self with
  | CloseCalled, _ => Some (close self)
  | Recv message, Receiving =>
      match process_message self message with
      | (acts, Return _) => Some (loop_head (emit self acts))
      | (acts, Raise e) => Some (handle_exception (emit self acts) e)
      end
  | RecvClosed, Receiving => Some (handle_exception self ConnectionClosed)
  | ConnectOk, Reconnecting retry_delay =>
      let self := emit self [Slept retry_delay; info "Successfully reconnected"] in
      Some (loop_head self)
  | ConnectFailed e, Reconnecting retry_delay =>
      let self := emit self [Slept retry_delay; error "Reconnection failed" e] in
      let retry_delay := Z.min (retry_delay * 2) max_retry_delay in
      Some (reconnect_head self retry_delay)
  | _, _ => None
  end.

Fixpoint run (self : WebSocketClient) (evs : list event) : option WebSocketClient :=
  match evs with
  | [] => Some self
  | ev :: rest =>
      match step self ev with
      | Some self' => run self' rest
      | None => None
      end
  end.

(** The delays slept and the subscriber calls recorded in a trace. *)
Definition sleeps (t : list action) : list Z :=
  flat_map (fun a => match a with Slept d => [d] | _ => [] end) t.

Definition calls (t : list action) : list (nat * orderbook) :=
  flat_map (fun a => match a with Called cb data => [(cb, data)] | _ => [] end) t.

Definition records (t : list action) : list log_record :=
  flat_map (fun a => match a with Logged r => [r] | _ => [] end) t.

(** The records of level [WARNING] among those of a trace. *)
Definition is_warning (r : log_record) : bool :=
  match lvl r with WARNING => true | _ => false end.

Definition warnings (t : list action) : list log_record :=
  filter is_warning (records t).

(** The calls a stream of messages leads to when every subscriber returns:
    for each message that validates, in wire order, one call of each
    subscriber in registration order. *)
Definition deliveries (callbacks : list callback) (messages : list frame)
  : list (nat * orderbook) :=
  flat_map (fun message =>
              match decode message with
              | Return data => map (fun c => (cb_id c, data)) callbacks
              | Raise _ => []
              end) messages.

(** Every delay slept so far, and the delay of the attempt under way, lies
    between 1 and [max_retry_delay]. *)
Definition delay_in_range (d : Z) : Prop := (1 <= d <= max_retry_delay)%Z.

Definition delays_in_range (self : WebSocketClient) : Prop :=
  Forall delay_in_range (sleeps (trace self)) /\
  match task self with
  | Reconnecting retry_delay => delay_in_range retry_delay
  | _ => True
  end.

(** The delay the specification gives for attempt [n], counted from 1. *)
Definition spec_delay (n : nat) : Z := Z.min (2 ^ (Z.of_nat n - 1)) 30.

End WithBuiltins.

End Client.

(** ** The client and the window together

    [MainWindow.__init__] registers [_on_orderbook_update] on the client it
    is given (main_window.py, line 34), so the snapshots the receive loop
    accepts are the updates of the window.  [main] itself, which shows the
    window and enters the Qt event loop, is not modelled. *)

Module Main.

Section Wiring.

Context {sk : Sk.Sklearn} {bi : Client.Builtins}.


End Wiring.

End Main.

(** ** Concrete inputs

    Order books, a scikit-learn and a set of built-ins on which the
    properties below are exercised. *)

Module Examples.

Definition book (asks bids : list (R * R)) : orderbook :=
  {| timestamp := 0%Z;
     exchange := JStr "OKX";
     symbol := JStr "BTC-USDT-SWAP";
     asks := asks;
     bids := bids;
     extra := [] |}.

(** The book of the end-to-end scenario of the specification. *)
Definition scenario_book : orderbook :=
  book [(100.5, 2); (101, 3)] [(100, 2); (99.5, 3)].

(** Two ask levels against three bid levels. *)
Definition uneven_book : orderbook :=
  book [(100, 1); (101, 1)] [(99, 1); (98, 1); (97, 1)].

(** A single ask level against two bid levels. *)
Definition one_ask_book : orderbook :=
  book [(100, 1)] [(99, 1); (98, 1)].

(** A crossed book: the best bid is above the best ask. *)
Definition crossed_book : orderbook :=
  book [(100, 1)] [(110, 1)].

(** Estimators that ignore the features: the scaler is the identity, the
    regression predicts the mean target, the classifier the mean label. *)
#[global] Instance mean_sklearn : Sk.Sklearn := {|
  Sk.StandardScaler := unit;
  Sk.StandardScaler_new := tt;
  Sk.transform := fun _ X => Return X;
  Sk.fit_transform := fun s X => (s, Return X);
  Sk.LinearRegression := R;
  Sk.LinearRegression_new := 0;
  Sk.predict := fun m X => Return (map (fun _ => m) X);
  Sk.fit := fun _ _ y => (Np.mean y, Return tt);
  Sk.LogisticRegression := R;
  Sk.LogisticRegression_new := 0;
  Sk.predict_proba := fun m X => Return (map (fun _ => [1 - m; m]) X);
  Sk.fit_classifier := fun _ _ y => (Np.mean y, Return tt)
|}.

(** The scenario book of a frame that carries its processing time as a
    string. *)
Definition timed_book : orderbook :=
  {| timestamp := 0%Z;
     exchange := JStr "OKX";
     symbol := JStr "BTC-USDT-SWAP";
     asks := [(100.5, 2); (101, 3)];
     bids := [(100, 2); (99.5, 3)];
     extra := [("processing_time"%string, JStr "1.5ms")] |}.

(** One training sample for the slippage model, and the model object a
    fresh model becomes when trained on it. *)
Definition slippage_sample : Slippage.sample :=
  {| Slippage.s_orderbook := scenario_book;
     Slippage.s_quantity := 500;
     Slippage.actual_slippage := 0.3 |}.

Definition trained_slippage_model : Slippage.SlippageModel :=
  fst (fst (Slippage.train Slippage.__init__ [slippage_sample])).

(** A window with the initial widget values of [_create_input_panel]:
    quantity 100, volatility 1.0 and the first fee tier. *)
Definition window : MainWindow.MainWindow :=
  {| MainWindow.slippage_model := Slippage.__init__;
     MainWindow.maker_taker_model := MakerTaker.__init__;
     MainWindow.quantity_spin := 100;
     MainWindow.volatility_spin := 1.0;
     MainWindow.fee_tier_combo := "Tier 1";
     MainWindow.slippage_label := 0;
     MainWindow.fees_label := 0;
     MainWindow.market_impact_label := 0;
     MainWindow.net_cost_label := 0;
     MainWindow.maker_taker_label := (0, 0);
     MainWindow.latency_label := 0 |}.

(** [float] and [datetime.fromisoformat] on the strings of the frames
    below. *)
#[global] Instance table_builtins : Client.Builtins := {|
  Client.float_of_str := fun s =>
    if String.eqb s "100.5" then Some 100.5
    else if String.eqb s "101" then Some 101
    else if String.eqb s "100" then Some 100
    else if String.eqb s "99.5" then Some 99.5
    else if String.eqb s "2" then Some 2
    else if String.eqb s "3" then Some 3
    else None;
  Client.fromisoformat := fun s =>
    if String.eqb s "2025-05-04T10:39:13+00:00" then Some 0%Z else None
|}.

(** A frame in the wire format of the feed, carrying the scenario book. *)
Definition valid_frame : Client.frame :=
  Client.Json
    (JObj [("timestamp"%string, JStr "2025-05-04T10:39:13Z");
           ("exchange"%string, JStr "OKX");
           ("symbol"%string, JStr "BTC-USDT-SWAP");
           ("asks"%string, JArr [JArr [JStr "100.5"; JStr "2"];
                                 JArr [JStr "101"; JStr "3"]]);
           ("bids"%string, JArr [JArr [JStr "100"; JStr "2"];
                                 JArr [JStr "99.5"; JStr "3"]])]).

(** The same frame without its ["bids"]. *)
Definition frame_without_bids : Client.frame :=
  Client.Json
    (JObj [("timestamp"%string, JStr "2025-05-04T10:39:13Z");
           ("exchange"%string, JStr "OKX");
           ("symbol"%string, JStr "BTC-USDT-SWAP");
           ("asks"%string, JArr [JArr [JStr "100.5"; JStr "2"];
                                 JArr [JStr "101"; JStr "3"]])]).

(** A subscriber that returns and one that raises. *)
Definition quiet_subscriber (id : nat) : Client.callback :=
  {| Client.cb_id := id; Client.cb_call := fun _ => Return tt |}.

Definition failing_subscriber (id : nat) : Client.callback :=
  {| Client.cb_id := id;
     Client.cb_call := fun _ => Raise (ValueError "subscriber failed") |}.

(** A connected client: the subscribers are registered on a new client,
    then [connect] succeeds and the receive task blocks in [recv]. *)
Definition connected (subscribers : list Client.callback) : Client.WebSocketClient :=
  fst (Client.connect
         (fold_left Client.register_callback subscribers Client.__init__)
         (Return tt)).

(** A training set for the slippage model whose second sample has a book
    without asks. *)
Definition spoiled_samples : list Slippage.sample :=
  [slippage_sample;
   {| Slippage.s_orderbook := book [] [(100, 2)];
      Slippage.s_quantity := 500;
      Slippage.actual_slippage := 0.3 |}].

(** A book of zero depth, and the two learned models as they are created:
    not trained, their scaler and estimator not fitted. *)
Definition zero_depth_book : orderbook := book [(100, 0)] [(99, 0)].

Definition unfitted_slippage : Ieee.Slippage.SlippageModel :=
  {| Ieee.Slippage.scaler_transform := fun _ =>
       Raise (ValueError "This StandardScaler instance is not fitted yet");
     Ieee.Slippage.model_predict := fun _ =>
       Raise (ValueError "This LinearRegression instance is not fitted yet");
     Ieee.Slippage.is_trained := false |}.

Definition unfitted_maker_taker : Ieee.MakerTaker.MakerTakerModel :=
  {| Ieee.MakerTaker.scaler_transform := fun _ =>
       Raise (ValueError "This StandardScaler instance is not fitted yet");
     Ieee.MakerTaker.model_predict_proba := fun _ =>
       Raise (ValueError "This LogisticRegression instance is not fitted yet");
     Ieee.MakerTaker.is_trained := false |}.

End Examples.

(** ** Properties *)

Section NumpyFacts.

Lemma col0_cons (r : R * R) (a : list (R * R)) :
  Np.col0 (r :: a) = Return (map fst (r :: a)).
Proof. reflexivity. Qed.

Lemma col1_cons (r : R * R) (a : list (R * R)) :
  Np.col1 (r :: a) = Return (map snd (r :: a)).
Proof. reflexivity. Qed.

Lemma broadcast_same_length (f : R -> R -> R) (x y : list R) :
  length x = length y ->
  Np.broadcast f x y = Return (map (fun xy => f (fst xy) (snd xy)) (combine x y)).
Proof.
  intros Hlen. unfold Np.broadcast.
  rewrite Hlen, Nat.eqb_refl. reflexivity.
Qed.

Lemma broadcast_mismatch (f : R -> R -> R) (x y : list R) :
  length x <> length y -> length x <> 1%nat -> length y <> 1%nat ->
  exists msg, Np.broadcast f x y = Raise (ValueError msg).
Proof.
  intros Hne Hx Hy. unfold Np.broadcast.
  apply Nat.eqb_neq in Hne. rewrite Hne.
  destruct x as [|a [|a' x]]; destruct y as [|b [|b' y]];
    simpl in *; try congruence; eexists; reflexivity.
Qed.

Lemma map_combine_fst_sub (a b : list (R * R)) :
  map (fun xy : R * R => fst xy - snd xy) (combine (map fst a) (map fst b)) =
  map (fun ab : (R * R) * (R * R) => fst (fst ab) - fst (snd ab)) (combine a b).
Proof.
  revert b. induction a as [|x a IH]; intros [|y b]; simpl; try reflexivity.
  now rewrite IH.
Qed.

End NumpyFacts.

(** *** Market impact *)

Section MarketImpactFacts.

Import MarketImpact.

Lemma temporary_impact_same_length (asks bids : list (R * R)) (quantity : R) :
  asks <> [] -> length asks = length bids ->
  _calculate_temporary_impact asks bids quantity =
  Return (0.1 * (spec_mean_spread asks bids / spec_mean_depth asks bids)).
Proof.
  intros Hne Hlen.
  destruct asks as [|a asks]; [congruence|].
  destruct bids as [|b bids]; [discriminate|].
  unfold _calculate_temporary_impact.
  rewrite !col0_cons, !col1_cons. cbn [bind].
  unfold Np.subtract.
  rewrite broadcast_same_length by (rewrite !length_map; exact Hlen).
  cbn [bind]. rewrite map_combine_fst_sub. reflexivity.
Qed.

Lemma temporary_impact_mismatch (asks bids : list (R * R)) (quantity : R) :
  length asks <> length bids -> length asks <> 1%nat -> length bids <> 1%nat ->
  exists e, _calculate_temporary_impact asks bids quantity = Raise e.
Proof.
  intros Hne Ha Hb.
  destruct asks as [|a asks]; [eexists; reflexivity|].
  destruct bids as [|b bids]; [eexists; reflexivity|].
  unfold _calculate_temporary_impact.
  rewrite !col0_cons. cbn [bind].
  destruct (broadcast_mismatch Rminus (map fst (a :: asks)) (map fst (b :: bids)))
    as [msg Hmsg]; rewrite ?length_map; auto.
  unfold Np.subtract. rewrite Hmsg. eexists; reflexivity.
Qed.

End MarketImpactFacts.




(** C10, as the code has it: when the number of ask levels differs from the
    number of bid levels and neither side has exactly one level (which numpy
    would broadcast), [MarketImpactModel.calculate] returns the default 0.0
    and logs the exception. *)
Theorem C10_uneven_levels_default (ob : orderbook) (quantity volatility : R) :
  length (asks ob) <> length (bids ob) ->
  length (asks ob) <> 1%nat ->
  length (bids ob) <> 1%nat ->
  exists e,
    MarketImpact.calculate_body ob quantity volatility = Raise e /\
    MarketImpact.calculate ob quantity volatility =
    (Return 0.0, [log_error "Error calculating market impact" e]).
Proof.
  intros Hne Ha Hb.
  unfold MarketImpact.calculate, MarketImpact.calculate_body.
  destruct (temporary_impact_mismatch _ _ quantity Hne Ha Hb) as [e He].
  rewrite He.
  destruct (asks ob) as [|[pa qa] asks]; [eexists; split; reflexivity|].
  destruct (bids ob) as [|[pb qb] bids]; [eexists; split; reflexivity|].
  exists e. split; reflexivity.
Qed.

(** The hypotheses of C10 hold on the book with two ask and three bid
    levels. *)
Lemma C10_uneven_levels_default_witness :
  exists e,
    MarketImpact.calculate_body Examples.uneven_book 1 0 = Raise e /\
    MarketImpact.calculate Examples.uneven_book 1 0 =
    (Return 0.0, [log_error "Error calculating market impact" e]).
Proof.
  apply C10_uneven_levels_default; simpl; lia.
Defined.

(** C10, as stated, fails on a book with one ask level and two bid levels:
    numpy broadcasts the single ask price over the bid prices, no exception
    is raised, and [calculate] returns 5.05 with nothing logged. *)
Lemma C10_counterexample :
  length (asks Examples.one_ask_book) <> length (bids Examples.one_ask_book) /\
  MarketImpact.calculate Examples.one_ask_book 1 0 = (Return 5.05, []) /\
  5.05 <> 0.0.
Proof.
  split; [simpl; lia|]. split; [|lra].
  unfold MarketImpact.calculate, MarketImpact.calculate_body,
    MarketImpact._calculate_temporary_impact,
    MarketImpact._calculate_permanent_impact,
    MarketImpact._calculate_optimal_time, Np.mean, Np.log10.
  cbn [Examples.one_ask_book Examples.book asks bids Np.item00 Np.col0 Np.col1
       Np.subtract Np.broadcast map fst snd app length Nat.eqb bind try_except
       Np.sum fold_right INR].
  rewrite ln_1, sqrt_1.
  do 2 f_equal.
  replace (300 * (1 + 0 / ln 10 / 3 + 0 * 2)) with 300
    by (unfold Rdiv; ring).
  lra.
Qed.

(** *** The three models: exceptions stay inside [calculate] *)

Section ModelFacts.

Context {sk : Sk.Sklearn}.

Lemma try_except_cases {A : Type} (body : result A)
      (handler : exn -> A * list log_record) :
  (exists a, body = Return a /\ try_except body handler = (Return a, [])) \/
  (exists e, body = Raise e /\
             try_except body handler = (Return (fst (handler e)), snd (handler e))).
Proof.
  destruct body as [a|e]; [left; exists a|right; exists e]; split; reflexivity.
Qed.

Lemma try_except_returns {A : Type} (body : result A)
      (handler : exn -> A * list log_record) :
  exists a log, try_except body handler = (Return a, log).
Proof.
  destruct body as [a|e]; eexists _, _; reflexivity.
Qed.

Lemma multiply_cols (r : R * R) (a : list (R * R)) :
  Np.multiply (map snd (r :: a)) (map fst (r :: a)) =
  Return (map (fun xy => fst xy * snd xy)
              (combine (map snd (r :: a)) (map fst (r :: a)))).
Proof.
  unfold Np.multiply. apply broadcast_same_length.
  now rewrite !length_map.
Qed.

Lemma sum_products_depth (a : list (R * R)) :
  Np.sum (map (fun xy => fst xy * snd xy) (combine (map snd a) (map fst a))) =
  Np.depth a.
Proof.
  unfold Np.depth.
  induction a as [|[p q] a IH]; cbn [map combine Np.sum fold_right fst snd];
    [reflexivity|].
  unfold Np.sum in IH. now rewrite IH.
Qed.

Lemma py_clamp_range (x : R) :
  0 <= py_max 0.0 (py_min 100.0 x) <= 100.
Proof.
  unfold py_max, py_min.
  destruct (Rlt_dec x 100.0); destruct (Rlt_dec 0.0 _); lra.
Qed.

Lemma py_max_nonneg (x : R) : 0 <= py_max 0.0 x.
Proof. unfold py_max. destruct (Rlt_dec 0.0 x); lra. Qed.

(** What the heuristic split satisfies whenever it returns. *)
Lemma heuristic_proportions_sum (ob : orderbook) (quantity : R)
      (p : MakerTaker.proportions) :
  MakerTaker._calculate_heuristic_proportions ob quantity = Return p ->
  MakerTaker.maker p + MakerTaker.taker p = 100 /\
  0 <= MakerTaker.maker p <= 100 /\ 0 <= MakerTaker.taker p <= 100.
Proof.
  unfold MakerTaker._calculate_heuristic_proportions.
  destruct (asks ob) as [|[pa qa] asks']; [discriminate|].
  destruct (bids ob) as [|[pb qb] bids']; [discriminate|].
  cbn [Np.item00 bind]. rewrite !col0_cons, !col1_cons. cbn [bind].
  rewrite !multiply_cols. cbn [bind].
  intros H. injection H as <-. cbn [MakerTaker.maker MakerTaker.taker].
  match goal with |- context [py_max 0.0 (py_min 100.0 ?x)] =>
    pose proof (py_clamp_range x) end.
  lra.
Qed.

(** The trained split, under scikit-learn's contract for two classes. *)
Lemma trained_proportions_sum (self : MakerTaker.MakerTakerModel)
      (ob : orderbook) (quantity : R) (p : MakerTaker.proportions) :
  Sk.binary_probabilities (MakerTaker.model self) ->
  MakerTaker.is_trained self = true ->
  MakerTaker.calculate_body self ob quantity = Return p ->
  MakerTaker.maker p + MakerTaker.taker p = 100 /\
  0 <= MakerTaker.maker p <= 100 /\ 0 <= MakerTaker.taker p <= 100.
Proof.
  intros Hbin Htr. unfold MakerTaker.calculate_body. rewrite Htr. cbn [negb].
  destruct (MakerTaker._extract_features ob quantity) as [features|e];
    [|discriminate].
  cbn [bind].
  destruct (Sk.transform _ _) as [scaled|e]; [|discriminate]. cbn [bind].
  destruct (Sk.predict_proba _ _) as [rows|e] eqn:Hrows; [|discriminate].
  cbn [bind]. apply Hbin in Hrows.
  destruct rows as [|row rows]; [discriminate|]. cbn [Sk.item nth_error bind].
  apply Forall_inv in Hrows. destruct Hrows as (p0 & p1 & -> & H0 & H1 & Hsum).
  cbn [Sk.item nth_error bind]. intros H. injection H as <-.
  cbn [MakerTaker.maker MakerTaker.taker]. lra.
Qed.

End ModelFacts.

(** *** The models where a divisor is zero *)

Ltac float_simpl :=
  repeat progress
    (unfold Float64.py_max, Float64.py_min, Float64.inf_times;
     cbn [Float64.add Float64.sub Float64.neg Float64.mul Float64.div
          Float64.abs Float64.sqrt Float64.log10 Float64.ltb Float64.finite]).

Ltac float_decide :=
  repeat (float_simpl;
          match goal with
          | |- context [Req_dec_T ?a ?b] =>
              destruct (Req_dec_T a b); try (exfalso; lra)
          | |- context [Rlt_dec ?a ?b] =>
              destruct (Rlt_dec a b); try (exfalso; lra)
          end);
  float_simpl.

Section Float64Facts.

Import Float64.

Lemma broadcast_returns (f : R -> R -> R) (x y : list R) :
  length x = length y \/ length x = 1%nat \/ length y = 1%nat ->
  exists l, Np.broadcast f x y = Return l.
Proof.
  intros H. unfold Np.broadcast.
  destruct (Nat.eqb (length x) (length y)) eqn:Heq; [eexists; reflexivity|].
  apply Nat.eqb_neq in Heq.
  destruct H as [H|[H|H]]; [congruence| |].
  - destruct x as [|a [|a' x]]; try discriminate. eexists; reflexivity.
  - destruct y as [|b [|b' y]]; try discriminate.
    destruct x as [|a [|a' x]]; eexists; reflexivity.
Qed.

Lemma shapes_mismatch_false (ob : orderbook) :
  Ieee.shapes_mismatch ob = false ->
  length (asks ob) = length (bids ob) \/ length (asks ob) = 1%nat \/
  length (bids ob) = 1%nat.
Proof.
  unfold Ieee.shapes_mismatch. intros H.
  destruct (Nat.eqb_spec (length (asks ob)) (length (bids ob))); [auto|].
  destruct (Nat.eqb_spec (length (asks ob)) 1); [auto|].
  destruct (Nat.eqb_spec (length (bids ob)) 1); [auto|].
  discriminate H.
Qed.

Lemma shapes_mismatch_true (ob : orderbook) :
  Ieee.shapes_mismatch ob = true ->
  length (asks ob) <> length (bids ob) /\ length (asks ob) <> 1%nat /\
  length (bids ob) <> 1%nat.
Proof.
  unfold Ieee.shapes_mismatch. intros H.
  destruct (Nat.eqb_spec (length (asks ob)) (length (bids ob))); [discriminate|].
  destruct (Nat.eqb_spec (length (asks ob)) 1); [discriminate|].
  destruct (Nat.eqb_spec (length (bids ob)) 1); [discriminate|].
  auto.
Qed.

(** [MarketImpactModel.calculate] takes its failure path on a book with an
    empty side and on one whose columns do not broadcast, and on no other. *)
Lemma market_impact_failure_path (ob : orderbook) (quantity volatility : R) :
  if Ieee.has_empty_side ob || Ieee.shapes_mismatch ob
  then exists e, Ieee.MarketImpact.calculate ob quantity volatility =
                 (Return (Fin 0.0), [log_error "Error calculating market impact" e])
  else exists v, Ieee.MarketImpact.calculate ob quantity volatility = (Return v, []).
Proof.
  unfold Ieee.has_empty_side.
  destruct (asks ob) as [|[pa qa] asks'] eqn:Ha.
  { cbn [orb]. exists IndexError.
    unfold Ieee.MarketImpact.calculate, Ieee.MarketImpact.calculate_body.
    rewrite Ha. reflexivity. }
  destruct (bids ob) as [|[pb qb] bids'] eqn:Hb.
  { cbn [orb]. exists IndexError.
    unfold Ieee.MarketImpact.calculate, Ieee.MarketImpact.calculate_body.
    rewrite Ha, Hb. reflexivity. }
  cbn [orb].
  unfold Ieee.MarketImpact.calculate, Ieee.MarketImpact.calculate_body,
    Ieee.MarketImpact._calculate_temporary_impact.
  rewrite Ha, Hb. cbn [Np.item00 bind]. rewrite !col0_cons, !col1_cons.
  cbn [bind]. unfold Np.subtract.
  destruct (Ieee.shapes_mismatch ob) eqn:Hm.
  - apply shapes_mismatch_true in Hm. rewrite Ha, Hb in Hm.
    destruct Hm as (H1 & H2 & H3).
    destruct (broadcast_mismatch Rminus (map fst ((pa, qa) :: asks'))
                (map fst ((pb, qb) :: bids'))) as [msg Hmsg];
      rewrite ?length_map; auto.
    rewrite Hmsg. eexists. reflexivity.
  - apply shapes_mismatch_false in Hm. rewrite Ha, Hb in Hm.
    destruct (broadcast_returns Rminus (map fst ((pa, qa) :: asks'))
                (map fst ((pb, qb) :: bids'))) as [l Hl];
      [rewrite !length_map; exact Hm|].
    rewrite Hl. eexists. reflexivity.
Qed.

Lemma slippage_features_return (ob : orderbook) (quantity : R) (a b : R * R)
      (asks' bids' : list (R * R)) :
  asks ob = a :: asks' -> bids ob = b :: bids' ->
  exists features, Ieee.Slippage._extract_features ob quantity = Return features.
Proof.
  intros Ha Hb. unfold Ieee.Slippage._extract_features. rewrite Ha, Hb.
  destruct a as [pa qa], b as [pb qb].
  cbn [Np.item00 bind]. rewrite !col0_cons, !col1_cons. cbn [bind].
  rewrite !multiply_cols. cbn [bind]. eexists; reflexivity.
Qed.

Lemma maker_taker_features_return (ob : orderbook) (quantity : R) (a b : R * R)
      (asks' bids' : list (R * R)) :
  asks ob = a :: asks' -> bids ob = b :: bids' ->
  exists features, Ieee.MakerTaker._extract_features ob quantity = Return features.
Proof.
  intros Ha Hb. unfold Ieee.MakerTaker._extract_features. rewrite Ha, Hb.
  destruct a as [pa qa], b as [pb qb].
  cbn [Np.item00 bind]. rewrite !col0_cons, !col1_cons. cbn [bind].
  rewrite !multiply_cols. cbn [bind]. eexists; reflexivity.
Qed.

(** The heuristics in terms of the best prices and the two depths. *)
Lemma heuristic_slippage_value (ob : orderbook) (quantity pa qa pb qb : R)
      (asks' bids' : list (R * R)) :
  asks ob = (pa, qa) :: asks' -> bids ob = (pb, qb) :: bids' ->
  Ieee.Slippage._calculate_heuristic_slippage ob quantity =
  Return ((pa - pb) / ((pa + pb) / 2) * 100 * 0.5 +
          quantity / (Fin (Np.depth (asks ob)) + Fin (Np.depth (bids ob))) *
          100 * 0.5)%f64.
Proof.
  intros Ha Hb. unfold Ieee.Slippage._calculate_heuristic_slippage.
  rewrite Ha, Hb.
  cbn [Np.item00 bind]. rewrite !col0_cons, !col1_cons. cbn [bind].
  rewrite !multiply_cols. cbn [bind]. rewrite !sum_products_depth. reflexivity.
Qed.

Lemma heuristic_proportions_value (ob : orderbook) (quantity pa qa pb qb : R)
      (asks' bids' : list (R * R)) :
  asks ob = (pa, qa) :: asks' -> bids ob = (pb, qb) :: bids' ->
  Ieee.MakerTaker._calculate_heuristic_proportions ob quantity =
  let maker_prob :=
    py_max 0.0
      (py_min 100.0
         (50.0 + (pa - pb) / ((pa + pb) / 2) * 100 * 2 -
          quantity / (Fin (Np.depth (asks ob)) + Fin (Np.depth (bids ob))) *
          100)%f64) in
  Return {| Ieee.MakerTaker.maker := maker_prob;
            Ieee.MakerTaker.taker := (100.0 - maker_prob)%f64 |}.
Proof.
  intros Ha Hb. unfold Ieee.MakerTaker._calculate_heuristic_proportions.
  rewrite Ha, Hb.
  cbn [Np.item00 bind]. rewrite !col0_cons, !col1_cons. cbn [bind].
  rewrite !multiply_cols. cbn [bind]. rewrite !sum_products_depth. reflexivity.
Qed.

Lemma zero_depth_depth (side : list (R * R)) :
  Ieee.zero_depth side -> Np.depth side = 0.
Proof.
  unfold Np.depth.
  induction 1 as [|[p q] side [_ Hq] _ IH];
    cbn [map Np.sum fold_right fst snd] in *; [reflexivity|].
  unfold Np.sum in IH. rewrite IH. subst q. lra.
Qed.

Lemma zero_depth_quantities (side : list (R * R)) :
  Ieee.zero_depth side -> Np.sum (map snd side) = 0.
Proof.
  induction 1 as [|[p q] side [_ Hq] _ IH];
    cbn [map Np.sum fold_right fst snd] in *; [reflexivity|].
  unfold Np.sum in IH. rewrite IH. subst q. lra.
Qed.

(** On a book of zero depth the quotient of the quantity by the depth is
    [inf]: the untrained slippage is [inf] and the untrained split 0/100. *)
Lemma heuristic_slippage_zero_depth (ob : orderbook) (quantity : R) :
  asks ob <> [] -> bids ob <> [] ->
  Ieee.zero_depth (asks ob) -> Ieee.zero_depth (bids ob) -> 0 < quantity ->
  Ieee.Slippage._calculate_heuristic_slippage ob quantity = Return PInf.
Proof.
  intros Hne Hnb Hza Hzb Hq.
  destruct (asks ob) as [|[pa qa] asks'] eqn:Ha; [congruence|].
  destruct (bids ob) as [|[pb qb] bids'] eqn:Hb; [congruence|].
  rewrite (heuristic_slippage_value ob quantity pa qa pb qb asks' bids' Ha Hb).
  rewrite Ha, Hb, (zero_depth_depth _ Hza), (zero_depth_depth _ Hzb).
  apply Forall_inv in Hza, Hzb. cbn [fst snd] in Hza, Hzb.
  float_decide. reflexivity.
Qed.

Lemma heuristic_proportions_zero_depth (ob : orderbook) (quantity : R) :
  asks ob <> [] -> bids ob <> [] ->
  Ieee.zero_depth (asks ob) -> Ieee.zero_depth (bids ob) -> 0 < quantity ->
  Ieee.MakerTaker._calculate_heuristic_proportions ob quantity =
  Return {| Ieee.MakerTaker.maker := Fin 0; Ieee.MakerTaker.taker := Fin 100 |}.
Proof.
  intros Hne Hnb Hza Hzb Hq.
  destruct (asks ob) as [|[pa qa] asks'] eqn:Ha; [congruence|].
  destruct (bids ob) as [|[pb qb] bids'] eqn:Hb; [congruence|].
  rewrite (heuristic_proportions_value ob quantity pa qa pb qb asks' bids' Ha Hb).
  rewrite Ha, Hb, (zero_depth_depth _ Hza), (zero_depth_depth _ Hzb).
  apply Forall_inv in Hza, Hzb. cbn [fst snd] in Hza, Hzb.
  cbv zeta. float_decide. do 2 f_equal; f_equal; lra.
Qed.

Lemma add_nonfinite (x y : float64) : finite x = false -> finite (x + y) = false.
Proof. destruct x, y; cbn; congruence. Qed.

Lemma mul_nonfinite (x y : float64) : finite x = false -> finite (x * y) = false.
Proof.
  destruct x, y; cbn; try congruence; intros _; unfold inf_times;
    repeat match goal with
           | |- context [Req_dec_T ?a ?b] => destruct (Req_dec_T a b)
           | |- context [Rlt_dec ?a ?b] => destruct (Rlt_dec a b)
           end; reflexivity.
Qed.

Lemma div_nonfinite (x y : float64) : finite x = false -> finite (x / y) = false.
Proof.
  destruct x, y; cbn; try congruence; intros _;
    repeat match goal with
           | |- context [Rlt_dec ?a ?b] => destruct (Rlt_dec a b)
           end; reflexivity.
Qed.

(** The quotient of a finite number by zero is not finite. *)
Lemma div_by_zero_nonfinite (a : R) : finite (Fin a / Fin 0) = false.
Proof.
  cbn. destruct (Req_dec_T 0 0) as [_|H]; [|congruence].
  destruct (Req_dec_T a 0); [reflexivity|]. destruct (Rlt_dec 0 a); reflexivity.
Qed.

Lemma mul_nonfinite_r (x y : float64) : finite y = false -> finite (x * y) = false.
Proof.
  destruct x, y; cbn; try congruence; intros _; unfold inf_times;
    repeat match goal with
           | |- context [Req_dec_T ?a ?b] => destruct (Req_dec_T a b)
           | |- context [Rlt_dec ?a ?b] => destruct (Rlt_dec a b)
           end; reflexivity.
Qed.

(** On a book of zero depth the mean quantity is zero: the coefficient of
    the temporary impact is not finite, and neither is the percentage. *)
Lemma market_impact_zero_depth (ob : orderbook) (quantity volatility : R) :
  asks ob <> [] -> bids ob <> [] -> Ieee.shapes_mismatch ob = false ->
  Ieee.zero_depth (asks ob) -> Ieee.zero_depth (bids ob) ->
  exists v, Ieee.MarketImpact.calculate ob quantity volatility = (Return v, []) /\
            finite v = false.
Proof.
  intros Hne Hnb Hm Hza Hzb.
  apply shapes_mismatch_false in Hm.
  destruct (asks ob) as [|[pa qa] asks'] eqn:Ha; [congruence|].
  destruct (bids ob) as [|[pb qb] bids'] eqn:Hb; [congruence|].
  unfold Ieee.MarketImpact.calculate, Ieee.MarketImpact.calculate_body,
    Ieee.MarketImpact._calculate_temporary_impact.
  rewrite Ha, Hb. cbn [Np.item00 bind]. rewrite !col0_cons, !col1_cons.
  cbn [bind]. unfold Np.subtract.
  destruct (broadcast_returns Rminus (map fst ((pa, qa) :: asks'))
              (map fst ((pb, qb) :: bids'))) as [l Hl];
    [rewrite !length_map; exact Hm|].
  rewrite Hl. cbn [bind Ieee.MarketImpact._calculate_permanent_impact
                   Ieee.MarketImpact._calculate_optimal_time try_except].
  set (qa_all := map snd ((pa, qa) :: asks')) in *.
  set (qb_all := map snd ((pb, qb) :: bids')) in *.
  assert (Hmean : Np.mean (qa_all ++ qb_all) = 0).
  { unfold Np.mean.
    replace (Np.sum (qa_all ++ qb_all)) with (Np.sum qa_all + Np.sum qb_all).
    - unfold qa_all, qb_all.
      rewrite (zero_depth_quantities _ Hza), (zero_depth_quantities _ Hzb).
      unfold Rdiv. ring.
    - unfold Np.sum. generalize qa_all. intros l1.
      induction l1 as [|x l1 IH]; cbn [app fold_right]; [lra|].
      rewrite <- IH. lra. }
  rewrite Hmean. eexists. split; [reflexivity|].
  apply mul_nonfinite, div_nonfinite, add_nonfinite, add_nonfinite,
    mul_nonfinite, mul_nonfinite_r, div_by_zero_nonfinite.
Qed.

(** Where no divisor is zero the two embeddings agree: the heuristics on a
    book whose best prices do not add up to zero and whose depth is not
    zero, *)
Lemma heuristic_slippage_agrees (ob : orderbook) (quantity pa qa pb qb : R)
      (asks' bids' : list (R * R)) :
  asks ob = (pa, qa) :: asks' -> bids ob = (pb, qb) :: bids' ->
  pa + pb <> 0 -> Np.depth (asks ob) + Np.depth (bids ob) <> 0 ->
  exists v,
    Slippage._calculate_heuristic_slippage ob quantity = Return v /\
    Ieee.Slippage._calculate_heuristic_slippage ob quantity = Return (Fin v).
Proof.
  intros Ha Hb Hmid Hdepth.
  rewrite (heuristic_slippage_value ob quantity pa qa pb qb asks' bids' Ha Hb).
  unfold Slippage._calculate_heuristic_slippage.
  rewrite Ha, Hb. cbn [Np.item00 bind]. rewrite !col0_cons, !col1_cons.
  cbn [bind]. rewrite !multiply_cols. cbn [bind]. rewrite !sum_products_depth.
  rewrite <- Ha, <- Hb. eexists. split; [reflexivity|].
  float_decide. reflexivity.
Qed.

Lemma py_clamp_fin (x : R) :
  py_max 0.0 (py_min 100.0 (Fin x)) = Fin (Py.py_max 0.0 (Py.py_min 100.0 x)).
Proof.
  unfold py_max, py_min, Py.py_max, Py.py_min. cbn [ltb].
  destruct (Rlt_dec x 100.0); cbn [ltb];
    match goal with |- context [Rlt_dec 0.0 ?y] => destruct (Rlt_dec 0.0 y) end;
    reflexivity.
Qed.

Lemma heuristic_proportions_agrees (ob : orderbook) (quantity pa qa pb qb : R)
      (asks' bids' : list (R * R)) :
  asks ob = (pa, qa) :: asks' -> bids ob = (pb, qb) :: bids' ->
  pa + pb <> 0 -> Np.depth (asks ob) + Np.depth (bids ob) <> 0 ->
  exists p,
    MakerTaker._calculate_heuristic_proportions ob quantity = Return p /\
    Ieee.MakerTaker._calculate_heuristic_proportions ob quantity =
    Return {| Ieee.MakerTaker.maker := Fin (MakerTaker.maker p);
              Ieee.MakerTaker.taker := Fin (MakerTaker.taker p) |}.
Proof.
  intros Ha Hb Hmid Hdepth.
  rewrite (heuristic_proportions_value ob quantity pa qa pb qb asks' bids' Ha Hb).
  unfold MakerTaker._calculate_heuristic_proportions.
  rewrite Ha, Hb. cbn [Np.item00 bind]. rewrite !col0_cons, !col1_cons.
  cbn [bind]. rewrite !multiply_cols. cbn [bind]. rewrite !sum_products_depth.
  rewrite <- Ha, <- Hb. eexists. split; [reflexivity|].
  cbn [MakerTaker.maker MakerTaker.taker]. cbv zeta.
  set (da := Np.depth (asks ob)) in *. set (db := Np.depth (bids ob)) in *.
  assert (Hfin : (50.0 + (pa - pb) / ((pa + pb) / 2) * 100 * 2 -
                  quantity / (Fin da + Fin db) * 100)%f64 =
                 Fin (50.0 + (pa - pb) / ((pa + pb) / 2) * 100 * 2 -
                      quantity / (da + db) * 100)).
  { float_decide. reflexivity. }
  rewrite Hfin, py_clamp_fin. reflexivity.
Qed.

(** and the market impact on a book whose mean quantity is not zero, for a
    positive quantity and a positive execution time. *)
Lemma market_impact_agrees (ob : orderbook) (quantity volatility : R) :
  Np.mean (map snd (asks ob) ++ map snd (bids ob)) <> 0 ->
  0 < quantity ->
  0 < 300 * (1 + Np.log10 quantity / 3 + volatility * 2) ->
  exists v log,
    MarketImpact.calculate ob quantity volatility = (Return v, log) /\
    Ieee.MarketImpact.calculate ob quantity volatility = (Return (Fin v), log).
Proof.
  intros Hdepth Hq HT.
  unfold Ieee.MarketImpact.calculate, Ieee.MarketImpact.calculate_body,
    Ieee.MarketImpact._calculate_temporary_impact,
    MarketImpact.calculate, MarketImpact.calculate_body,
    MarketImpact._calculate_temporary_impact.
  destruct (asks ob) as [|[pa qa] asks'] eqn:Ha;
    [eexists _, _; split; reflexivity|].
  destruct (bids ob) as [|[pb qb] bids'] eqn:Hb;
    [eexists _, _; split; reflexivity|].
  cbn [Np.item00 bind]. rewrite !col0_cons, !col1_cons. cbn [bind].
  destruct (Np.subtract _ _) as [d|e]; [|eexists _, _; split; reflexivity].
  cbn [bind MarketImpact._calculate_permanent_impact
       MarketImpact._calculate_optimal_time
       Ieee.MarketImpact._calculate_permanent_impact
       Ieee.MarketImpact._calculate_optimal_time try_except].
  eexists _, _. split; [reflexivity|].
  assert (Hn : 0 < R_sqrt.sqrt (INR (length ((pa, qa) :: asks')))).
  { apply sqrt_lt_R0, lt_0_INR. cbn [length]. lia. }
  assert (Hn' : 0 < INR (length ((pa, qa) :: asks')))
    by (apply lt_0_INR; cbn [length]; lia).
  float_decide; reflexivity.
Qed.

Lemma log10_1 : Np.log10 1 = 0.
Proof. unfold Np.log10. rewrite ln_1. unfold Rdiv. ring. Qed.

(** An untrained model returns what its heuristic returns, and takes the
    failure path on a book with an empty side only. *)
Lemma slippage_untrained_failure_path (self : Ieee.Slippage.SlippageModel)
      (ob : orderbook) (quantity : R) :
  Ieee.Slippage.is_trained self = false ->
  if Ieee.has_empty_side ob
  then Ieee.Slippage.calculate self ob quantity =
       (Return (Fin 0.0), [log_error "Error calculating slippage" IndexError])
  else exists v,
         Ieee.Slippage._calculate_heuristic_slippage ob quantity = Return v /\
         Ieee.Slippage.calculate self ob quantity = (Return v, []).
Proof.
  intros Htr.
  unfold Ieee.has_empty_side, Ieee.Slippage.calculate, Ieee.Slippage.calculate_body.
  destruct (asks ob) as [|[pa qa] asks'] eqn:Ha.
  { unfold Ieee.Slippage._extract_features. rewrite Ha. reflexivity. }
  destruct (bids ob) as [|[pb qb] bids'] eqn:Hb.
  { unfold Ieee.Slippage._extract_features. rewrite Ha, Hb. reflexivity. }
  destruct (slippage_features_return ob quantity _ _ _ _ Ha Hb) as [features Hf].
  rewrite Hf, Htr. cbn [bind negb].
  rewrite (heuristic_slippage_value ob quantity pa qa pb qb asks' bids' Ha Hb).
  eexists. split; reflexivity.
Qed.

Lemma maker_taker_untrained_failure_path (self : Ieee.MakerTaker.MakerTakerModel)
      (ob : orderbook) (quantity : R) :
  Ieee.MakerTaker.is_trained self = false ->
  if Ieee.has_empty_side ob
  then Ieee.MakerTaker.calculate self ob quantity =
       (Return {| Ieee.MakerTaker.maker := Fin 50.0;
                  Ieee.MakerTaker.taker := Fin 50.0 |},
        [log_error "Error calculating maker/taker proportions" IndexError])
  else exists p,
         Ieee.MakerTaker._calculate_heuristic_proportions ob quantity = Return p /\
         Ieee.MakerTaker.calculate self ob quantity = (Return p, []).
Proof.
  intros Htr.
  unfold Ieee.has_empty_side, Ieee.MakerTaker.calculate,
    Ieee.MakerTaker.calculate_body.
  destruct (asks ob) as [|[pa qa] asks'] eqn:Ha.
  { unfold Ieee.MakerTaker._extract_features. rewrite Ha. reflexivity. }
  destruct (bids ob) as [|[pb qb] bids'] eqn:Hb.
  { unfold Ieee.MakerTaker._extract_features. rewrite Ha, Hb. reflexivity. }
  destruct (maker_taker_features_return ob quantity _ _ _ _ Ha Hb) as [features Hf].
  rewrite Hf, Htr. cbn [bind negb].
  rewrite (heuristic_proportions_value ob quantity pa qa pb qb asks' bids' Ha Hb).
  eexists. split; reflexivity.
Qed.

Lemma has_empty_side_false (ob : orderbook) :
  asks ob <> [] -> bids ob <> [] -> Ieee.has_empty_side ob = false.
Proof.
  unfold Ieee.has_empty_side. destruct (asks ob); [congruence|].
  destruct (bids ob); [congruence|]. reflexivity.
Qed.

End Float64Facts.

(** C7, as the code has it.  No [calculate] raises to its caller, whatever
    the book, the model object and the numbers.  The default (0.0 for the
    market impact and the slippage, 50/50 for the maker/taker split) is
    returned, with the exception logged, when the computation raises: for
    the market impact on a book with an empty side or with columns numpy
    cannot broadcast, for an untrained slippage or maker/taker model on a
    book with an empty side, and on no other book.  A book of zero depth
    with a level on each side is no such failure, numpy's division by zero
    raises nothing: nothing is logged and no default is returned.  For a
    positive quantity the untrained slippage is [inf] there, the untrained
    split is 0/100, and the market impact is not finite. *)
Theorem C7_failure_path_is_the_exception_path :
  (forall ob quantity volatility,
     if Ieee.has_empty_side ob || Ieee.shapes_mismatch ob
     then exists e,
            Ieee.MarketImpact.calculate ob quantity volatility =
            (Return (Float64.Fin 0.0),
             [log_error "Error calculating market impact" e])
     else exists v,
            Ieee.MarketImpact.calculate ob quantity volatility = (Return v, [])) /\
  (forall self ob quantity,
     ((exists v, Ieee.Slippage.calculate self ob quantity = (Return v, [])) \/
      (exists e, Ieee.Slippage.calculate self ob quantity =
                 (Return (Float64.Fin 0.0),
                  [log_error "Error calculating slippage" e]))) /\
     (Ieee.Slippage.is_trained self = false ->
      if Ieee.has_empty_side ob
      then Ieee.Slippage.calculate self ob quantity =
           (Return (Float64.Fin 0.0),
            [log_error "Error calculating slippage" IndexError])
      else exists v, Ieee.Slippage.calculate self ob quantity = (Return v, []))) /\
  (forall self ob quantity,
     ((exists p, Ieee.MakerTaker.calculate self ob quantity = (Return p, [])) \/
      (exists e, Ieee.MakerTaker.calculate self ob quantity =
                 (Return {| Ieee.MakerTaker.maker := Float64.Fin 50.0;
                            Ieee.MakerTaker.taker := Float64.Fin 50.0 |},
                  [log_error "Error calculating maker/taker proportions" e]))) /\
     (Ieee.MakerTaker.is_trained self = false ->
      if Ieee.has_empty_side ob
      then Ieee.MakerTaker.calculate self ob quantity =
           (Return {| Ieee.MakerTaker.maker := Float64.Fin 50.0;
                      Ieee.MakerTaker.taker := Float64.Fin 50.0 |},
            [log_error "Error calculating maker/taker proportions" IndexError])
      else exists p, Ieee.MakerTaker.calculate self ob quantity = (Return p, []))) /\
  (forall slippage_model maker_taker_model ob quantity volatility,
     asks ob <> [] -> bids ob <> [] ->
     Ieee.zero_depth (asks ob) -> Ieee.zero_depth (bids ob) ->
     Ieee.Slippage.is_trained slippage_model = false ->
     Ieee.MakerTaker.is_trained maker_taker_model = false ->
     0 < quantity ->
     Ieee.Slippage.calculate slippage_model ob quantity =
       (Return Float64.PInf, []) /\
     Ieee.MakerTaker.calculate maker_taker_model ob quantity =
       (Return {| Ieee.MakerTaker.maker := Float64.Fin 0;
                  Ieee.MakerTaker.taker := Float64.Fin 100 |}, []) /\
     (Ieee.shapes_mismatch ob = false ->
      exists v,
        Ieee.MarketImpact.calculate ob quantity volatility = (Return v, []) /\
        Float64.finite v = false)).
Proof.
  split; [exact market_impact_failure_path|].
  split.
  { intros self ob quantity. split.
    { unfold Ieee.Slippage.calculate.
      destruct (Ieee.Slippage.calculate_body self ob quantity) as [v|e];
        [left; exists v|right; exists e]; reflexivity. }
    intros Htr.
    pose proof (slippage_untrained_failure_path self ob quantity Htr) as H.
    destruct (Ieee.has_empty_side ob); [exact H|].
    destruct H as (v & _ & H). exists v. exact H. }
  split.
  { intros self ob quantity. split.
    { unfold Ieee.MakerTaker.calculate.
      destruct (Ieee.MakerTaker.calculate_body self ob quantity) as [p|e];
        [left; exists p|right; exists e]; reflexivity. }
    intros Htr.
    pose proof (maker_taker_untrained_failure_path self ob quantity Htr) as H.
    destruct (Ieee.has_empty_side ob); [exact H|].
    destruct H as (p & _ & H). exists p. exact H. }
  intros sm mm ob quantity volatility Hne Hnb Hza Hzb Hs Hm Hq.
  pose proof (slippage_untrained_failure_path sm ob quantity Hs) as H1.
  pose proof (maker_taker_untrained_failure_path mm ob quantity Hm) as H2.
  rewrite (has_empty_side_false ob Hne Hnb) in H1, H2.
  destruct H1 as (v & Hv & H1). destruct H2 as (p & Hp & H2).
  rewrite (heuristic_slippage_zero_depth ob quantity Hne Hnb Hza Hzb Hq) in Hv.
  rewrite (heuristic_proportions_zero_depth ob quantity Hne Hnb Hza Hzb Hq) in Hp.
  injection Hv as <-. injection Hp as <-.
  split; [exact H1|]. split; [exact H2|].
  intros Hshape. apply market_impact_zero_depth; assumption.
Qed.

(** The hypotheses of C7 on a book of zero depth hold for the book whose
    two levels have the quantity 0, the models as they are created and the
    quantity 1. *)
Lemma C7_failure_path_is_the_exception_path_witness :
  Ieee.Slippage.calculate Examples.unfitted_slippage
    Examples.zero_depth_book 1 = (Return Float64.PInf, []) /\
  Ieee.MakerTaker.calculate Examples.unfitted_maker_taker
    Examples.zero_depth_book 1 =
    (Return {| Ieee.MakerTaker.maker := Float64.Fin 0;
               Ieee.MakerTaker.taker := Float64.Fin 100 |}, []).
Proof.
  destruct C7_failure_path_is_the_exception_path as (_ & _ & _ & H).
  destruct (H Examples.unfitted_slippage Examples.unfitted_maker_taker
              Examples.zero_depth_book 1 0) as (H1 & H2 & _).
  - discriminate.
  - discriminate.
  - repeat constructor; cbn; lra.
  - repeat constructor; cbn; lra.
  - reflexivity.
  - reflexivity.
  - lra.
  - split; [exact H1|exact H2].
Defined.

(** C7, as stated, fails on a book of zero depth: asks [[100, 0]], bids
    [[99, 0]], quantity 1, volatility 0 and the models as they are created.
    The three results are not the defaults, the division by zero is not
    guarded against, and nothing is logged. *)
Lemma C7_counterexample :
  Ieee.MarketImpact.calculate Examples.zero_depth_book 1 0 =
    (Return Float64.PInf, []) /\
  Ieee.Slippage.calculate Examples.unfitted_slippage
    Examples.zero_depth_book 1 = (Return Float64.PInf, []) /\
  Ieee.MakerTaker.calculate Examples.unfitted_maker_taker
    Examples.zero_depth_book 1 =
    (Return {| Ieee.MakerTaker.maker := Float64.Fin 0;
               Ieee.MakerTaker.taker := Float64.Fin 100 |}, []).
Proof.
  split; [|split].
  - unfold Ieee.MarketImpact.calculate, Ieee.MarketImpact.calculate_body,
      Ieee.MarketImpact._calculate_temporary_impact.
    cbn [Examples.zero_depth_book asks bids Examples.book Np.item00 Np.col0
         Np.col1 bind map fst snd
         Np.subtract Np.broadcast length Nat.eqb combine app
         Ieee.MarketImpact._calculate_permanent_impact
         Ieee.MarketImpact._calculate_optimal_time try_except INR].
    unfold Np.mean, Np.sum. cbn [fold_right length INR].
    cbn [Float64.log10].
    destruct (Rlt_dec 0 1) as [_|H]; [|exfalso; lra].
    rewrite log10_1.
    float_decide; reflexivity.
  - unfold Ieee.Slippage.calculate, Ieee.Slippage.calculate_body,
      Ieee.Slippage._extract_features,
      Ieee.Slippage._calculate_heuristic_slippage.
    cbn [Examples.zero_depth_book Examples.unfitted_slippage
         Ieee.Slippage.is_trained negb asks bids Examples.book Np.item00 Np.col0 Np.col1 bind map fst snd
         Np.multiply Np.broadcast length Nat.eqb combine try_except].
    unfold Np.sum. cbn [fold_right].
    float_decide; reflexivity.
  - unfold Ieee.MakerTaker.calculate, Ieee.MakerTaker.calculate_body,
      Ieee.MakerTaker._extract_features,
      Ieee.MakerTaker._calculate_heuristic_proportions.
    cbn [Examples.zero_depth_book Examples.unfitted_maker_taker
         Ieee.MakerTaker.is_trained negb asks bids Examples.book Np.item00 Np.col0 Np.col1 bind map fst snd
         Np.multiply Np.broadcast length Nat.eqb combine try_except].
    unfold Np.sum. cbn [fold_right].
    float_decide; (do 2 f_equal; f_equal; f_equal; lra).
Qed.

(** C6: for every order book and positive quantity,
    [MakerTakerModel.calculate] returns a split whose two parts add up to 100
    (within 1e-6) and lie in [0,100]: in the untrained mode by the clamp of
    the heuristic, on the failure path by the 50/50 default, and in the
    trained mode because the two class probabilities of scikit-learn's
    binary classifier add up to one. *)
Theorem C6_maker_taker_split {sk : Sk.Sklearn}
        (self : MakerTaker.MakerTakerModel) (ob : orderbook) (quantity : R) :
  0 < quantity ->
  (MakerTaker.is_trained self = true ->
   Sk.binary_probabilities (MakerTaker.model self)) ->
  exists p log,
    MakerTaker.calculate self ob quantity = (Return p, log) /\
    Rabs (MakerTaker.maker p + MakerTaker.taker p - 100) <= 0.000001 /\
    0 <= MakerTaker.maker p <= 100 /\
    0 <= MakerTaker.taker p <= 100.
Proof.
  intros _ Hbin.
  assert (Hbody : forall p,
             MakerTaker.calculate_body self ob quantity = Return p ->
             MakerTaker.maker p + MakerTaker.taker p = 100 /\
             0 <= MakerTaker.maker p <= 100 /\ 0 <= MakerTaker.taker p <= 100).
  { intros p Hp. destruct (MakerTaker.is_trained self) eqn:Htr.
    - eapply trained_proportions_sum; eauto.
    - unfold MakerTaker.calculate_body in Hp. rewrite Htr in Hp. cbn [negb] in Hp.
      destruct (MakerTaker._extract_features ob quantity); [|discriminate].
      cbn [bind] in Hp. eapply heuristic_proportions_sum; eauto. }
  unfold MakerTaker.calculate.
  destruct (try_except_cases (MakerTaker.calculate_body self ob quantity)
              (fun e => ({| MakerTaker.maker := 50.0; MakerTaker.taker := 50.0 |},
                         [log_error "Error calculating maker/taker proportions" e])))
    as [(p & Hp & ->)|(e & He & ->)].
  - exists p, []. split; [reflexivity|].
    destruct (Hbody p Hp) as (Hsum & Hm & Ht).
    rewrite Hsum. replace (100 - 100) with 0 by ring. rewrite Rabs_R0.
    repeat split; lra.
  - eexists _, _. split; [reflexivity|].
    cbn [fst MakerTaker.maker MakerTaker.taker].
    replace (50.0 + 50.0 - 100) with 0 by lra. rewrite Rabs_R0.
    repeat split; lra.
Qed.

(** The hypotheses of C6 hold for a trained model of the example estimators,
    whose classifier gives the two classes the probabilities 0.75 and
    0.25. *)
Lemma C6_maker_taker_split_witness :
  exists p log,
    MakerTaker.calculate
      (MakerTaker.mk_model (sk := Examples.mean_sklearn) 0.25 tt true)
      Examples.scenario_book 500 = (Return p, log) /\
    Rabs (MakerTaker.maker p + MakerTaker.taker p - 100) <= 0.000001 /\
    0 <= MakerTaker.maker p <= 100 /\
    0 <= MakerTaker.taker p <= 100.
Proof.
  apply (C6_maker_taker_split (sk := Examples.mean_sklearn)).
  - lra.
  - intros _ X rows H. injection H as <-.
    apply Forall_forall. intros row Hin. apply in_map_iff in Hin.
    destruct Hin as (x & <- & _).
    exists (1 - 0.25), 0.25. repeat split; lra.
Defined.

Section SlippageSign.

Context {sk : Sk.Sklearn}.

Lemma sum_products_nonneg (a : list (R * R)) :
  Forall (fun level => 0 < fst level /\ 0 < snd level) a ->
  0 <= Np.sum (map (fun xy => fst xy * snd xy)
                   (combine (map snd a) (map fst a))).
Proof.
  induction 1 as [|[p q] a [Hp Hq] _ IH]; cbn [map combine Np.sum fold_right fst snd].
  - lra.
  - unfold Np.sum in IH. cbn [fst snd] in Hp, Hq. nra.
Qed.

(** The trained path clamps: whatever the regression predicts, a trained
    model returns a slippage that is not negative. *)
Lemma trained_slippage_nonneg (self : Slippage.SlippageModel) (ob : orderbook)
      (quantity : R) :
  Slippage.is_trained self = true ->
  exists v log, Slippage.calculate self ob quantity = (Return v, log) /\ 0 <= v.
Proof.
  intros Htr. unfold Slippage.calculate, Slippage.calculate_body.
  rewrite Htr. cbn [negb].
  destruct (Slippage._extract_features ob quantity) as [features|e]; cbn [bind];
    [|eexists _, _; split; [reflexivity|cbn [fst]; lra]].
  destruct (Sk.transform _ _) as [scaled|e]; cbn [bind];
    [|eexists _, _; split; [reflexivity|cbn [fst]; lra]].
  destruct (Sk.predict _ _) as [predicted|e]; cbn [bind];
    [|eexists _, _; split; [reflexivity|cbn [fst]; lra]].
  destruct (Sk.item predicted 0) as [slippage|e]; cbn [bind try_except];
    [|eexists _, _; split; [reflexivity|cbn [fst]; lra]].
  eexists _, _; split; [reflexivity|apply py_max_nonneg].
Qed.

(** The heuristic is not negative on a book that is not crossed: positive
    prices and quantities, best ask not below best bid, and a quantity that
    is not negative. *)
Lemma heuristic_slippage_nonneg_uncrossed (ob : orderbook) (quantity : R)
      (pa qa pb qb : R) (asks' bids' : list (R * R)) :
  asks ob = (pa, qa) :: asks' ->
  bids ob = (pb, qb) :: bids' ->
  Forall (fun level => 0 < fst level /\ 0 < snd level) (asks ob) ->
  Forall (fun level => 0 < fst level /\ 0 < snd level) (bids ob) ->
  pb <= pa ->
  0 <= quantity ->
  exists v, Slippage._calculate_heuristic_slippage ob quantity = Return v /\ 0 <= v.
Proof.
  intros Ha Hb Hasks Hbids Hcross Hq.
  unfold Slippage._calculate_heuristic_slippage.
  rewrite Ha, Hb in *. cbn [Np.item00 bind].
  rewrite !col0_cons, !col1_cons. cbn [bind]. rewrite !multiply_cols. cbn [bind].
  eexists. split; [reflexivity|].
  pose proof (sum_products_nonneg _ Hasks) as HA.
  pose proof (sum_products_nonneg _ Hbids) as HB.
  apply Forall_inv in Hasks, Hbids. cbn [fst snd] in Hasks, Hbids.
  assert (Hmid : 0 < (pa + pb) / 2) by lra.
  assert (Hsp : 0 <= (pa - pb) / ((pa + pb) / 2))
    by (apply Rmult_le_pos; [lra|left; apply Rinv_0_lt_compat; exact Hmid]).
  match goal with |- context [quantity / ?d] =>
    assert (Hqi : 0 <= quantity / d)
  end.
  { match goal with |- 0 <= quantity / ?d => assert (Hd : 0 <= d) by lra;
      destruct Hd as [Hd|Hd] end.
    - apply Rmult_le_pos; [lra|left; apply Rinv_0_lt_compat; exact Hd].
    - rewrite <- Hd. unfold Rdiv. rewrite Rinv_0. lra. }
  nra.
Qed.

End SlippageSign.

(** C2 at its failing input: on the crossed book with one ask at 100 and one
    bid at 110, an untrained model and the quantity 0.01, [calculate] returns
    the heuristic value -1999/420, a negative slippage, and logs nothing. *)
Theorem C2_heuristic_negative_on_crossed_book {sk : Sk.Sklearn} :
  Slippage.calculate Slippage.__init__ Examples.crossed_book 0.01 =
    (Return (-1999 / 420), []) /\
  -1999 / 420 < 0.
Proof.
  split; [|lra].
  unfold Slippage.calculate, Slippage.calculate_body,
    Slippage._extract_features, Slippage._calculate_heuristic_slippage.
  cbn [Examples.crossed_book Examples.book asks bids Np.item00 bind].
  rewrite !col0_cons, !col1_cons. cbn [bind].
  rewrite !multiply_cols.
  cbn [bind Slippage.__init__ Slippage.is_trained negb try_except
       map combine fst snd Np.sum fold_right].
  do 2 f_equal. lra.
Qed.

(** *** Training *)

Section TrainFacts.

Context {sk : Sk.Sklearn}.

Lemma slippage_train_body_success (self self' : Slippage.SlippageModel)
      (d : Slippage.sample) (data : list Slippage.sample) :
  Slippage.train_body self (d :: data) = (self', Return tt) ->
  Slippage.is_trained self' = true.
Proof.
  unfold Slippage.train_body.
  destruct (mapM _ _) as [X|e]; [|intros H; discriminate].
  destruct (Sk.fit_transform _ _) as [scaler' [X_scaled|e]];
    [|intros H; discriminate].
  cbn [Slippage.model Slippage.scaler Slippage.is_trained].
  destruct (Sk.fit _ _ _) as [model' [u|e]]; [|intros H; discriminate].
  intros H. injection H as <-. reflexivity.
Qed.

Lemma maker_taker_train_body_success (self self' : MakerTaker.MakerTakerModel)
      (d : MakerTaker.sample) (data : list MakerTaker.sample) :
  MakerTaker.train_body self (d :: data) = (self', Return tt) ->
  MakerTaker.is_trained self' = true.
Proof.
  unfold MakerTaker.train_body.
  destruct (mapM _ _) as [X|e]; [|intros H; discriminate].
  destruct (Sk.fit_transform _ _) as [scaler' [X_scaled|e]];
    [|intros H; discriminate].
  cbn [MakerTaker.model MakerTaker.scaler MakerTaker.is_trained].
  destruct (Sk.fit_classifier _ _ _) as [model' [u|e]]; [|intros H; discriminate].
  intros H. injection H as <-. reflexivity.
Qed.

Lemma slippage_train_cases (self : Slippage.SlippageModel)
      (data : list Slippage.sample) :
  exists self' log,
    Slippage.train self data = (self', Return tt, log) /\
    match snd (Slippage.train_body self data) with
    | Return _ =>
        log = [] /\
        match data with
        | [] => self' = self
        | _ :: _ => Slippage.is_trained self' = true
        end
    | Raise e =>
        log = [log_error "Error training slippage model" e] /\
        Slippage.is_trained self' = false
    end.
Proof.
  unfold Slippage.train.
  destruct (Slippage.train_body self data) as [self1 [[]|e]] eqn:Hbody;
    cbn [snd]; eexists _, _; (split; [reflexivity|]); split; try reflexivity.
  destruct data as [|d data].
  - unfold Slippage.train_body in Hbody. now injection Hbody as <-.
  - eapply slippage_train_body_success; eassumption.
Qed.

Lemma maker_taker_train_cases (self : MakerTaker.MakerTakerModel)
      (data : list MakerTaker.sample) :
  exists self' log,
    MakerTaker.train self data = (self', Return tt, log) /\
    match snd (MakerTaker.train_body self data) with
    | Return _ =>
        log = [] /\
        match data with
        | [] => self' = self
        | _ :: _ => MakerTaker.is_trained self' = true
        end
    | Raise e =>
        log = [log_error "Error training maker/taker model" e] /\
        MakerTaker.is_trained self' = false
    end.
Proof.
  unfold MakerTaker.train.
  destruct (MakerTaker.train_body self data) as [self1 [[]|e]] eqn:Hbody;
    cbn [snd]; eexists _, _; (split; [reflexivity|]); split; try reflexivity.
  destruct data as [|d data].
  - unfold MakerTaker.train_body in Hbody. now injection Hbody as <-.
  - eapply maker_taker_train_body_success; eassumption.
Qed.

End TrainFacts.

(** C8, as the code has it: [train] never raises, for either model.  When
    its body runs to the end on a non-empty list it sets [is_trained] to
    true and logs nothing; when the body raises it sets [is_trained] to false
    and logs the exception; on an empty list it returns at once, leaving the
    model object as it was and logging nothing.  In particular [train] on an
    empty list leaves a fresh model untrained. *)
Theorem C8_train_never_raises {sk : Sk.Sklearn}
        (slippage_model : Slippage.SlippageModel)
        (slippage_data : list Slippage.sample)
        (maker_taker_model : MakerTaker.MakerTakerModel)
        (maker_taker_data : list MakerTaker.sample) :
  (exists self' log,
     Slippage.train slippage_model slippage_data = (self', Return tt, log) /\
     match snd (Slippage.train_body slippage_model slippage_data) with
     | Return _ =>
         log = [] /\
         match slippage_data with
         | [] => self' = slippage_model
         | _ :: _ => Slippage.is_trained self' = true
         end
     | Raise e =>
         log = [log_error "Error training slippage model" e] /\
         Slippage.is_trained self' = false
     end) /\
  (exists self' log,
     MakerTaker.train maker_taker_model maker_taker_data = (self', Return tt, log) /\
     match snd (MakerTaker.train_body maker_taker_model maker_taker_data) with
     | Return _ =>
         log = [] /\
         match maker_taker_data with
         | [] => self' = maker_taker_model
         | _ :: _ => MakerTaker.is_trained self' = true
         end
     | Raise e =>
         log = [log_error "Error training maker/taker model" e] /\
         MakerTaker.is_trained self' = false
     end) /\
  Slippage.train Slippage.__init__ [] = (Slippage.__init__, Return tt, []) /\
  Slippage.is_trained Slippage.__init__ = false /\
  MakerTaker.train MakerTaker.__init__ [] = (MakerTaker.__init__, Return tt, []) /\
  MakerTaker.is_trained MakerTaker.__init__ = false.
Proof.
  split; [apply slippage_train_cases|].
  split; [apply maker_taker_train_cases|].
  repeat split.
Qed.

(** C8, as stated, fails on a model that is already trained: [train] on an
    empty list returns before anything else, so [is_trained] stays true and
    nothing is logged. *)
Lemma C8_counterexample :
  Slippage.is_trained Examples.trained_slippage_model = true /\
  Slippage.train Examples.trained_slippage_model [] =
    (Examples.trained_slippage_model, Return tt, []) /\
  Slippage.is_trained
    (fst (fst (Slippage.train Examples.trained_slippage_model []))) <> false.
Proof.
  assert (Htrained : Slippage.is_trained Examples.trained_slippage_model = true).
  { unfold Examples.trained_slippage_model.
    destruct (slippage_train_cases (sk := Examples.mean_sklearn)
                Slippage.__init__ [Examples.slippage_sample])
      as (self' & log & Htrain & Hcase).
    rewrite Htrain. cbn [fst].
    unfold Slippage.train_body, Slippage._extract_features in Hcase.
    cbn [mapM Examples.slippage_sample Slippage.s_orderbook Slippage.s_quantity
         Examples.scenario_book Examples.book asks bids Np.item00 bind] in Hcase.
    rewrite !col0_cons, !col1_cons in Hcase. cbn [bind] in Hcase.
    rewrite !multiply_cols in Hcase.
    cbn [bind Sk.fit_transform Sk.fit Examples.mean_sklearn snd] in Hcase.
    apply Hcase. }
  split; [exact Htrained|]. split; [reflexivity|].
  cbn [Slippage.train Slippage.train_body fst]. rewrite Htrained. discriminate.
Qed.

(** *** The aggregator *)

Section MainWindowFacts.

Context {sk : Sk.Sklearn}.

Lemma fee_tiers_lookup (tier : string) :
  In tier ["Tier 1"; "Tier 2"; "Tier 3"]%string ->
  MainWindow.dict_get MainWindow.fee_tiers tier =
  Return (MainWindow.spec_fee_rate tier).
Proof.
  intros [<-|[<-|[<-|[]]]]; reflexivity.
Qed.

End MainWindowFacts.

(** C9: with one of the three fee tiers selected, the update handler sets
    the fees label to quantity times the rate of the tier in the table
    (Tier 1: 0.001, Tier 2: 0.0008, Tier 3: 0.0006), and the net cost label
    to (slippage + impact) * quantity / 100 + fees, where slippage and impact
    are the values the slippage and market impact models return for the
    snapshot and the quantity. *)
Theorem C9_fees_and_net_cost {sk : Sk.Sklearn}
        (self : MainWindow.MainWindow) (data : orderbook) :
  In (MainWindow.fee_tier_combo self) ["Tier 1"; "Tier 2"; "Tier 3"]%string ->
  exists slippage impact slippage_log impact_log,
    Slippage.calculate (MainWindow.slippage_model self) data
      (MainWindow.quantity_spin self) = (Return slippage, slippage_log) /\
    MarketImpact.calculate data (MainWindow.quantity_spin self)
      (MainWindow.volatility_spin self / 100) = (Return impact, impact_log) /\
    MainWindow.fees_label
      (fst (fst (fst (MainWindow._on_orderbook_update self data)))) =
    MainWindow.quantity_spin self *
    MainWindow.spec_fee_rate (MainWindow.fee_tier_combo self) /\
    MainWindow.net_cost_label
      (fst (fst (fst (MainWindow._on_orderbook_update self data)))) =
    (slippage + impact) * MainWindow.quantity_spin self / 100 +
    MainWindow.quantity_spin self *
    MainWindow.spec_fee_rate (MainWindow.fee_tier_combo self).
Proof.
  intros Htier.
  destruct (try_except_returns
              (Slippage.calculate_body (MainWindow.slippage_model self) data
                 (MainWindow.quantity_spin self))
              (fun e => (0.0, [log_error "Error calculating slippage" e])))
    as (slippage & slog & Hs).
  destruct (try_except_returns
              (MarketImpact.calculate_body data (MainWindow.quantity_spin self)
                 (MainWindow.volatility_spin self / 100))
              (fun e => (0.0, [log_error "Error calculating market impact" e])))
    as (impact & ilog & Hi).
  destruct (try_except_returns
              (MakerTaker.calculate_body (MainWindow.maker_taker_model self) data
                 (MainWindow.quantity_spin self))
              (fun e => ({| MakerTaker.maker := 50.0; MakerTaker.taker := 50.0 |},
                         [log_error "Error calculating maker/taker proportions" e])))
    as (mt & mlog & Hm).
  fold (Slippage.calculate (MainWindow.slippage_model self) data
          (MainWindow.quantity_spin self)) in Hs.
  fold (MarketImpact.calculate data (MainWindow.quantity_spin self)
          (MainWindow.volatility_spin self / 100)) in Hi.
  fold (MakerTaker.calculate (MainWindow.maker_taker_model self) data
          (MainWindow.quantity_spin self)) in Hm.
  exists slippage, impact, slog, ilog.
  split; [exact Hs|]. split; [exact Hi|].
  unfold MainWindow._on_orderbook_update, MainWindow.update_body,
    MainWindow._calculate_fees.
  rewrite Hs, Hi, Hm, (fee_tiers_lookup _ Htier).
  unfold MainWindow.h_bind, MainWindow.h_call, MainWindow.h_lift,
    MainWindow.h_set.
  cbn [fst snd bind].
  destruct (MainWindow.format_2f _) as [latency|e]; cbn [fst snd];
    split; reflexivity.
Qed.

(** The hypothesis of C9 holds on the window as it is created (quantity 100,
    Tier 1) and the book of the specification's scenario. *)
Lemma C9_fees_and_net_cost_witness :
  exists slippage impact slippage_log impact_log,
    Slippage.calculate (MainWindow.slippage_model Examples.window)
      Examples.scenario_book 100 = (Return slippage, slippage_log) /\
    MarketImpact.calculate Examples.scenario_book 100 (1.0 / 100) =
      (Return impact, impact_log) /\
    MainWindow.fees_label
      (fst (fst (fst (MainWindow._on_orderbook_update Examples.window
                        Examples.scenario_book)))) =
    100 * MainWindow.spec_fee_rate "Tier 1" /\
    MainWindow.net_cost_label
      (fst (fst (fst (MainWindow._on_orderbook_update Examples.window
                        Examples.scenario_book)))) =
    (slippage + impact) * 100 / 100 + 100 * MainWindow.spec_fee_rate "Tier 1".
Proof.
  apply (C9_fees_and_net_cost (sk := Examples.mean_sklearn) Examples.window
           Examples.scenario_book).
  simpl. left. reflexivity.
Defined.

(** *** The streaming client *)

Section ClientFacts.

Context {bi : Client.Builtins}.

Import Client.

Lemma run_app (self : WebSocketClient) (evs evs' : list event) :
  run self (evs ++ evs') =
  match run self evs with
  | Some self' => run self' evs'
  | None => None
  end.
Proof.
  revert self. induction evs as [|ev evs IH]; intros self; cbn [run app].
  - reflexivity.
  - destruct (step self ev); [apply IH|reflexivity].
Qed.

Lemma sleeps_app (t t' : list action) : sleeps (t ++ t') = sleeps t ++ sleeps t'.
Proof. apply flat_map_app. Qed.

Lemma calls_app (t t' : list action) : calls (t ++ t') = calls t ++ calls t'.
Proof. apply flat_map_app. Qed.

Lemma records_app (t t' : list action) : records (t ++ t') = records t ++ records t'.
Proof. apply flat_map_app. Qed.

(** The doubling of the code follows the closed form of the specification. *)
Lemma next_delay_spec (n : nat) :
  (1 <= n)%nat ->
  Z.min (spec_delay n * 2) max_retry_delay = spec_delay (S n).
Proof.
  intros Hn. unfold spec_delay, max_retry_delay.
  replace (Z.of_nat (S n) - 1)%Z with (Z.succ (Z.of_nat n - 1)) by lia.
  rewrite Z.pow_succ_r by lia.
  assert (0 < 2 ^ (Z.of_nat n - 1))%Z by (apply Z.pow_pos_nonneg; lia).
  lia.
Qed.

Lemma spec_delay_1 : spec_delay 1 = 1%Z.
Proof. reflexivity. Qed.

(** A run of failed attempts inside [_reconnect]. *)
Lemma reconnect_failures (failures : list exn) :
  forall (self : WebSocketClient) (n : nat),
    (1 <= n)%nat ->
    running self = true ->
    task self = Reconnecting (spec_delay n) ->
    exists self',
      run self (map ConnectFailed failures) = Some self' /\
      running self' = true /\
      callbacks self' = callbacks self /\
      task self' = Reconnecting (spec_delay (n + length failures)) /\
      sleeps (trace self') =
      sleeps (trace self) ++ map spec_delay (seq n (length failures)).
Proof.
  induction failures as [|e failures IH]; intros self n Hn Hrun Htask.
  - exists self. cbn [map run length seq]. rewrite Nat.add_0_r, app_nil_r. auto.
  - cbn [map run]. unfold step. rewrite Htask.
    unfold reconnect_head. cbn [emit running]. rewrite Hrun.
    rewrite (next_delay_spec n Hn).
    match goal with |- context [run ?s _] => set (self1 := s) end.
    destruct (IH self1 (S n)) as (self' & Hr & Hrun' & Hcb & Htask' & Hsl);
      [lia|exact Hrun|reflexivity|].
    exists self'. split; [exact Hr|]. split; [exact Hrun'|].
    split; [exact Hcb|]. split.
    + rewrite Htask'. f_equal. f_equal. cbn [length]. lia.
    + rewrite Hsl. subst self1. cbn [trace emit set_task].
      rewrite !sleeps_app. cbn [sleeps flat_map error info app length seq map].
      rewrite app_nil_r, <- !app_assoc. reflexivity.
Qed.

(** Losing the connection while receiving enters [_reconnect] with the
    initial delay. *)
Lemma recv_closed_enters_reconnect (self : WebSocketClient) :
  running self = true ->
  task self = Receiving ->
  exists self',
    step self RecvClosed = Some self' /\
    running self' = true /\
    callbacks self' = callbacks self /\
    task self' = Reconnecting (spec_delay 1) /\
    sleeps (trace self') = sleeps (trace self).
Proof.
  intros Hrun Htask. unfold step. rewrite Htask.
  cbn [handle_exception]. unfold _reconnect, reconnect_head.
  cbn [emit running]. rewrite Hrun.
  eexists. split; [reflexivity|]. cbn [running callbacks task trace set_task emit].
  repeat split; auto.
  rewrite !sleeps_app. cbn. now rewrite !app_nil_r.
Qed.

(** A successful attempt returns to the receive loop. *)
Lemma connect_ok_resumes (self : WebSocketClient) (d : Z) :
  running self = true ->
  task self = Reconnecting d ->
  exists self',
    step self ConnectOk = Some self' /\
    running self' = true /\
    callbacks self' = callbacks self /\
    task self' = Receiving /\
    sleeps (trace self') = sleeps (trace self) ++ [d].
Proof.
  intros Hrun Htask. unfold step. rewrite Htask.
  unfold loop_head. cbn [emit running]. rewrite Hrun.
  eexists. split; [reflexivity|]. cbn [running callbacks task trace set_task emit].
  repeat split; auto.
  rewrite !sleeps_app. reflexivity.
Qed.

(** One episode: the connection is lost and the given attempts fail. *)
Lemma reconnect_episode (self : WebSocketClient) (failures : list exn) :
  running self = true ->
  task self = Receiving ->
  exists self',
    run self (RecvClosed :: map ConnectFailed failures) = Some self' /\
    running self' = true /\
    callbacks self' = callbacks self /\
    task self' = Reconnecting (spec_delay (length failures + 1)) /\
    sleeps (trace self') =
    sleeps (trace self) ++ map spec_delay (seq 1 (length failures)).
Proof.
  intros Hrun Htask.
  destruct (recv_closed_enters_reconnect self Hrun Htask)
    as (self1 & Hstep & Hrun1 & Hcb1 & Htask1 & Hsl1).
  destruct (reconnect_failures failures self1 1 (le_n 1) Hrun1 Htask1)
    as (self' & Hr & Hrun' & Hcb' & Htask' & Hsl').
  exists self'. cbn [run]. rewrite Hstep.
  split; [exact Hr|]. split; [exact Hrun'|]. split; [congruence|]. split.
  - rewrite Htask'. do 2 f_equal. lia.
  - rewrite Hsl', Hsl1. reflexivity.
Qed.

(** [close] ends the retries: once [running] is false, the next failed
    attempt leaves [_reconnect] and the receive loop. *)
Lemma close_stops_retrying (self : WebSocketClient) (d : Z) (e : exn) :
  task self = Reconnecting d ->
  exists self',
    run self [CloseCalled; ConnectFailed e] = Some self' /\
    running self' = false /\
    task self' = Finished.
Proof.
  intros Htask. cbn [run step]. unfold close. cbn [websocket].
  destruct (websocket self); cbn [step task emit]; rewrite Htask;
    unfold reconnect_head, loop_head; cbn [running emit set_task];
    eexists; repeat split.
Qed.

(** Subscribers are kept in the order of their registration. *)
Lemma register_callback_appends (cbs : list callback) (self : WebSocketClient) :
  callbacks (fold_left register_callback cbs self) = callbacks self ++ cbs.
Proof.
  revert self. induction cbs as [|c cbs IH]; intros self; cbn [fold_left].
  - now rewrite app_nil_r.
  - rewrite IH. cbn [register_callback callbacks]. now rewrite <- app_assoc.
Qed.

End ClientFacts.

(** C3: when the connection is lost and [failures] reconnection attempts
    fail in a row, the delay slept before the N-th attempt is
    min(2^(N-1), 30); the client is still retrying after any number of
    failures; and after a successful attempt the next episode starts again
    at the delay 1: the delays of the second episode are those of the
    specification counted from 1. *)
Theorem C3_reconnect_backoff {bi : Client.Builtins}
        (self : Client.WebSocketClient) (failures again : list exn) :
  Client.running self = true ->
  Client.task self = Client.Receiving ->
  exists self',
    Client.run self
      (Client.RecvClosed :: map Client.ConnectFailed failures ++
       Client.ConnectOk ::
       Client.RecvClosed :: map Client.ConnectFailed again) = Some self' /\
    Client.sleeps (Client.trace self') =
      Client.sleeps (Client.trace self) ++
      map Client.spec_delay (seq 1 (length failures + 1)) ++
      map Client.spec_delay (seq 1 (length again)) /\
    Client.task self' = Client.Reconnecting (Client.spec_delay (length again + 1)) /\
    Client.running self' = true /\
    Client.spec_delay 1 = 1%Z.
Proof.
  intros Hrun Htask.
  destruct (reconnect_episode self failures Hrun Htask)
    as (self1 & Hr1 & Hrun1 & _ & Htask1 & Hsl1).
  destruct (connect_ok_resumes self1 _ Hrun1 Htask1)
    as (self2 & Hs2 & Hrun2 & _ & Htask2 & Hsl2).
  destruct (reconnect_episode self2 again Hrun2 Htask2)
    as (self3 & Hr3 & Hrun3 & _ & Htask3 & Hsl3).
  exists self3.
  change (Client.RecvClosed :: map Client.ConnectFailed failures ++
          Client.ConnectOk :: Client.RecvClosed :: map Client.ConnectFailed again)
    with ((Client.RecvClosed :: map Client.ConnectFailed failures) ++
          [Client.ConnectOk] ++
          Client.RecvClosed :: map Client.ConnectFailed again).
  rewrite run_app, Hr1. cbn [app Client.run]. rewrite Hs2.
  split; [exact Hr3|]. split; [|auto].
  rewrite Hsl3, Hsl2, Hsl1, <- !app_assoc. do 1 f_equal.
  rewrite seq_app, map_app, <- app_assoc.
  replace (1 + length failures)%nat with (length failures + 1)%nat by lia.
  reflexivity.
Qed.

(** The hypotheses of C3 hold on a connected client; with six failed
    attempts the delays reach the cap, and the episode after the successful
    seventh attempt starts at 1 again. *)
Lemma C3_reconnect_backoff_witness :
  exists self',
    Client.run (Examples.connected [])
      (Client.RecvClosed ::
       map Client.ConnectFailed
         [ConnectionClosed; ConnectionClosed; ConnectionClosed;
          ConnectionClosed; ConnectionClosed; ConnectionClosed] ++
       Client.ConnectOk ::
       Client.RecvClosed :: map Client.ConnectFailed [ConnectionClosed]) =
    Some self' /\
    Client.sleeps (Client.trace self') = [1; 2; 4; 8; 16; 30; 30; 1]%Z /\
    Client.task self' = Client.Reconnecting 2.
Proof.
  destruct (C3_reconnect_backoff (bi := Examples.table_builtins)
              (Examples.connected [])
              [ConnectionClosed; ConnectionClosed; ConnectionClosed;
               ConnectionClosed; ConnectionClosed; ConnectionClosed]
              [ConnectionClosed] eq_refl eq_refl)
    as (self' & Hrun & Hsleeps & Htask & _).
  exists self'. split; [exact Hrun|]. split; [exact Hsleeps|exact Htask].
Defined.

Section DecodeFacts.

Context {bi : Client.Builtins}.

Import Client.

Lemma bind_raise {A B : Type} (m : result A) (k : A -> result B) (e : exn) :
  bind m k = Raise e ->
  m = Raise e \/ exists a, m = Return a /\ k a = Raise e.
Proof.
  destruct m as [a|e']; cbn [bind]; intros H.
  - right. exists a. auto.
  - left. injection H as ->. reflexivity.
Qed.

Lemma mapM_raise {A B : Type} (f : A -> result B) (l : list A) (e : exn) :
  mapM f l = Raise e -> exists x, In x l /\ f x = Raise e.
Proof.
  induction l as [|x l IH]; cbn [mapM]; intros H; [discriminate|].
  apply bind_raise in H. destruct H as [H|(y & _ & H)].
  - exists x. split; [left; reflexivity|exact H].
  - apply bind_raise in H. destruct H as [H|(ys & _ & H)]; [|discriminate].
    destruct (IH H) as (x' & Hin & Hx'). exists x'. split; [right|]; assumption.
Qed.

Lemma dict_get_raise {V : Type} (d : list (string * V)) (key : string) (e : exn) :
  MainWindow.dict_get d key = Raise e -> e = KeyError key.
Proof.
  induction d as [|[k v] d IH]; cbn [MainWindow.dict_get].
  - intros H. now injection H.
  - destruct (String.eqb k key); [discriminate|exact IH].
Qed.

Lemma getitem_raise (data : json) (key : string) (e : exn) :
  getitem data key = Raise e -> e <> ConnectionClosed.
Proof.
  destruct data; cbn [getitem]; intros H;
    try (injection H as <-; discriminate).
  apply dict_get_raise in H. subst e. discriminate.
Qed.

Lemma iter_raise (v : json) (e : exn) :
  iter v = Raise e -> e <> ConnectionClosed.
Proof.
  destruct v; cbn [iter]; intros H; try discriminate;
    injection H as <-; discriminate.
Qed.

Lemma float_raise (v : json) (e : exn) :
  float v = Raise e -> e <> ConnectionClosed.
Proof.
  destruct v; cbn [float]; intros H; try discriminate;
    try (injection H as <-; discriminate).
  destruct (float_of_str s); [discriminate|]. injection H as <-. discriminate.
Qed.

Lemma convert_levels_raise (levels : json) (e : exn) :
  convert_levels levels = Raise e -> e <> ConnectionClosed.
Proof.
  unfold convert_levels. intros H.
  apply bind_raise in H. destruct H as [H|(rows & _ & H)].
  - eapply iter_raise; eassumption.
  - apply mapM_raise in H. destruct H as (row & _ & H).
    apply bind_raise in H. destruct H as [H|(pq & _ & H)].
    + unfold unpack2 in H. apply bind_raise in H.
      destruct H as [H|(items & _ & H)]; [eapply iter_raise; eassumption|].
      destruct items as [|p [|q [|r items]]]; try discriminate;
        injection H as <-; discriminate.
    + apply bind_raise in H. destruct H as [H|(price & _ & H)];
        [eapply float_raise; eassumption|].
      apply bind_raise in H. destruct H as [H|(qty & _ & H)];
        [eapply float_raise; eassumption|discriminate].
Qed.

Lemma check_required_raise (data : json) (e : exn) :
  check_required data = Raise e -> e <> ConnectionClosed.
Proof.
  unfold check_required. intros H.
  apply bind_raise in H. destruct H as [H|(u & _ & H)]; [|discriminate].
  apply mapM_raise in H. destruct H as (field & _ & H).
  apply bind_raise in H. destruct H as [H|(present & _ & H)].
  - destruct data; cbn [contains] in H; try discriminate;
      injection H as <-; discriminate.
  - destruct present; [discriminate|]. injection H as <-. discriminate.
Qed.

Lemma parse_timestamp_raise (v : json) (e : exn) :
  parse_timestamp v = Raise e -> e <> ConnectionClosed.
Proof.
  destruct v; cbn [parse_timestamp]; intros H;
    try (injection H as <-; discriminate).
  destruct (fromisoformat _); [discriminate|]. injection H as <-. discriminate.
Qed.

(** Parsing and validation never raise [ConnectionClosed]: a rejected
    frame is handled by the second [except] clause of the receive loop. *)
Lemma decode_raise (message : frame) (e : exn) :
  decode message = Raise e -> e <> ConnectionClosed.
Proof.
  unfold decode. intros H.
  apply bind_raise in H. destruct H as [H|(data & _ & H)].
  { destruct message; cbn [json_loads] in H; [|discriminate].
    injection H as <-. discriminate. }
  unfold _process_orderbook_body in H.
  repeat (apply bind_raise in H;
          destruct H as [H|(? & _ & H)];
          [solve [ eapply check_required_raise; eassumption
                 | eapply getitem_raise; eassumption
                 | eapply parse_timestamp_raise; eassumption
                 | eapply convert_levels_raise; eassumption ]|]).
  discriminate.
Qed.

(** A dictionary that lacks one of the five required keys is rejected. *)
Lemma missing_field_rejected (members : list (string * json)) (field : string) :
  In field required_fields ->
  existsb (fun kv => String.eqb (fst kv) field) members = false ->
  exists e, decode (Json (JObj members)) = Raise e.
Proof.
  intros Hin Hmiss. unfold decode. cbn [json_loads bind].
  unfold _process_orderbook_body, check_required, required_fields.
  cbn [mapM contains bind].
  destruct Hin as [<-|[<-|[<-|[<-|[<-|[]]]]]];
    repeat match goal with
           | |- context [existsb ?f members] =>
               destruct (existsb f members) eqn:?; try discriminate; cbn [bind]
           end;
    eexists; reflexivity.
Qed.

(** A level whose price does not convert to a number is rejected. *)
Lemma bad_price_rejected (qty : json) (rows : list json) (s : string) :
  float_of_str s = None ->
  exists e, convert_levels (JArr (JArr [JStr s; qty] :: rows)) = Raise e.
Proof.
  intros Hs. unfold convert_levels. cbn [iter bind mapM unpack2 fst float].
  rewrite Hs. eexists; reflexivity.
Qed.

End DecodeFacts.

Section DispatchFacts.

Context {bi : Client.Builtins}.

Import Client.

Lemma calls_logged (log : list log_record) : calls (map Logged log) = [].
Proof. induction log as [|r log IH]; [reflexivity|exact IH]. Qed.

Lemma sleeps_logged (log : list log_record) : sleeps (map Logged log) = [].
Proof. induction log as [|r log IH]; [reflexivity|exact IH]. Qed.

Lemma records_logged (log : list log_record) : records (map Logged log) = log.
Proof.
  induction log as [|r log IH]; [reflexivity|].
  cbn [map records flat_map app]. f_equal. exact IH.
Qed.

Lemma calls_called (cbs : list callback) (data : orderbook) :
  calls (map (fun c => Called (cb_id c) data) cbs) =
  map (fun c => (cb_id c, data)) cbs.
Proof.
  induction cbs as [|c cbs IH]; [reflexivity|].
  cbn [map calls flat_map app]. f_equal. exact IH.
Qed.

Lemma sleeps_called (cbs : list callback) (data : orderbook) :
  sleeps (map (fun c => Called (cb_id c) data) cbs) = [].
Proof. induction cbs as [|c cbs IH]; [reflexivity|exact IH]. Qed.

Lemma records_called (cbs : list callback) (data : orderbook) :
  records (map (fun c => Called (cb_id c) data) cbs) = [].
Proof. induction cbs as [|c cbs IH]; [reflexivity|exact IH]. Qed.

(** Subscribers that all return are all called, in registration order. *)
Lemma dispatch_all_return (cbs : list callback) (data : orderbook) :
  (forall c, In c cbs -> cb_call c data = Return tt) ->
  dispatch cbs data = (map (fun c => Called (cb_id c) data) cbs, Return tt).
Proof.
  induction cbs as [|c cbs IH]; intros Hok; [reflexivity|].
  cbn [dispatch map]. rewrite (Hok c (or_introl eq_refl)).
  rewrite IH by (intros c' Hc'; apply Hok; right; exact Hc'). reflexivity.
Qed.

(** The loop over the subscribers stops at the first one that raises. *)
Lemma dispatch_stops_at_raise (before after : list callback) (cb : callback)
      (data : orderbook) (e : exn) :
  (forall c, In c before -> cb_call c data = Return tt) ->
  cb_call cb data = Raise e ->
  dispatch (before ++ cb :: after) data =
  (map (fun c => Called (cb_id c) data) (before ++ [cb]), Raise e).
Proof.
  induction before as [|c before IH]; intros Hok Hraise.
  - cbn [app dispatch map]. rewrite Hraise. reflexivity.
  - cbn [app dispatch map]. rewrite (Hok c (or_introl eq_refl)).
    rewrite IH by (auto; intros c' Hc'; apply Hok; right; exact Hc').
    reflexivity.
Qed.

Lemma process_message_rejected (self : WebSocketClient) (message : frame)
      (e : exn) :
  decode message = Raise e ->
  exists log, process_message self message = (map Logged log, Raise e).
Proof.
  unfold decode, process_message, _process_orderbook.
  destruct (json_loads message) as [data|e']; cbn [bind]; intros H.
  - rewrite H. eexists. reflexivity.
  - injection H as ->. exists []. reflexivity.
Qed.

Lemma process_message_accepted (self : WebSocketClient) (message : frame)
      (data : orderbook) :
  decode message = Return data ->
  process_message self message = dispatch (callbacks self) data.
Proof.
  unfold decode, process_message, _process_orderbook.
  destruct (json_loads message) as [raw|e']; cbn [bind]; intros H;
    [|discriminate].
  rewrite H. cbn [map app]. now destruct (dispatch (callbacks self) data).
Qed.

(** A rejected message is logged and dropped; the client goes on receiving. *)
Lemma rejected_message_dropped (self : WebSocketClient) (message : frame)
      (e : exn) :
  running self = true ->
  task self = Receiving ->
  decode message = Raise e ->
  exists self' log,
    step self (Recv message) = Some self' /\
    running self' = true /\
    task self' = Receiving /\
    callbacks self' = callbacks self /\
    calls (trace self') = calls (trace self) /\
    sleeps (trace self') = sleeps (trace self) /\
    records (trace self') =
      records (trace self) ++ log ++ [log_error "Error processing message" e].
Proof.
  intros Hrun Htask Hdec.
  destruct (process_message_rejected self message e Hdec) as (log & Hpm).
  pose proof (decode_raise message e Hdec) as Hne.
  unfold step. rewrite Htask, Hpm.
  assert (Hh : handle_exception (emit self (map Logged log)) e =
               loop_head (emit (emit self (map Logged log))
                            [error "Error processing message" e]))
    by (destruct e; try reflexivity; congruence).
  rewrite Hh. unfold loop_head. cbn [emit running]. rewrite Hrun.
  eexists _, log. split; [reflexivity|].
  cbn [running task callbacks trace set_task emit].
  rewrite !calls_app, !sleeps_app, !records_app, calls_logged, sleeps_logged,
    records_logged.
  cbn [calls sleeps records flat_map error app]. rewrite !app_nil_r.
  rewrite <- app_assoc. auto 10.
Qed.

(** An accepted message whose subscribers all return reaches each of them
    once. *)
Lemma accepted_message_dispatched (self : WebSocketClient) (message : frame)
      (data : orderbook) :
  running self = true ->
  task self = Receiving ->
  decode message = Return data ->
  (forall c, In c (callbacks self) -> cb_call c data = Return tt) ->
  exists self',
    step self (Recv message) = Some self' /\
    running self' = true /\
    task self' = Receiving /\
    callbacks self' = callbacks self /\
    calls (trace self') =
      calls (trace self) ++ map (fun c => (cb_id c, data)) (callbacks self) /\
    sleeps (trace self') = sleeps (trace self) /\
    records (trace self') = records (trace self).
Proof.
  intros Hrun Htask Hdec Hok.
  unfold step. rewrite Htask, (process_message_accepted self message data Hdec).
  rewrite (dispatch_all_return _ _ Hok).
  unfold loop_head. cbn [emit running]. rewrite Hrun.
  eexists. split; [reflexivity|].
  cbn [running task callbacks trace set_task emit].
  rewrite !calls_app, !sleeps_app, !records_app, calls_called, sleeps_called,
    records_called, !app_nil_r. auto 10.
Qed.

End DispatchFacts.

(** C4: a message that fails parsing or validation is logged and dropped:
    the client neither reconnects nor sleeps nor calls a subscriber, and it
    goes on receiving.  In particular one such message followed by a valid
    one, with subscribers that return, dispatches exactly one snapshot to
    each registered subscriber, in registration order. *)
Theorem C4_malformed_message_dropped {bi : Client.Builtins}
        (self : Client.WebSocketClient) (bad good : Client.frame)
        (e : exn) (snapshot : orderbook) :
  Client.running self = true ->
  Client.task self = Client.Receiving ->
  Client.decode bad = Raise e ->
  Client.decode good = Return snapshot ->
  (forall c, In c (Client.callbacks self) ->
             Client.cb_call c snapshot = Return tt) ->
  (exists self1 log,
     Client.step self (Client.Recv bad) = Some self1 /\
     Client.running self1 = true /\
     Client.task self1 = Client.Receiving /\
     Client.calls (Client.trace self1) = Client.calls (Client.trace self) /\
     Client.sleeps (Client.trace self1) = Client.sleeps (Client.trace self) /\
     Client.records (Client.trace self1) =
       Client.records (Client.trace self) ++ log ++
       [log_error "Error processing message" e]) /\
  (exists self2,
     Client.run self [Client.Recv bad; Client.Recv good] = Some self2 /\
     Client.running self2 = true /\
     Client.task self2 = Client.Receiving /\
     Client.calls (Client.trace self2) =
       Client.calls (Client.trace self) ++
       map (fun c => (Client.cb_id c, snapshot)) (Client.callbacks self)).
Proof.
  intros Hrun Htask Hbad Hgood Hok.
  destruct (rejected_message_dropped self bad e Hrun Htask Hbad)
    as (self1 & log & Hstep & Hrun1 & Htask1 & Hcb1 & Hcalls1 & Hsl1 & Hrec1).
  split.
  - exists self1, log. auto 10.
  - destruct (accepted_message_dispatched self1 good snapshot Hrun1 Htask1 Hgood)
      as (self2 & Hstep2 & Hrun2 & Htask2 & _ & Hcalls2 & _).
    { rewrite Hcb1. exact Hok. }
    exists self2. cbn [Client.run]. rewrite Hstep, Hstep2.
    rewrite Hcalls2, Hcalls1, Hcb1. auto.
Qed.

(** The hypotheses of C4 hold for a connected client with two subscribers
    that return, a frame without its bids and the frame of the scenario
    book. *)
Lemma C4_malformed_message_dropped_witness :
  exists self2,
    Client.run (Examples.connected
                  [Examples.quiet_subscriber 1; Examples.quiet_subscriber 2])
      [Client.Recv Examples.frame_without_bids;
       Client.Recv Examples.valid_frame] = Some self2 /\
    Client.task self2 = Client.Receiving /\
    Client.calls (Client.trace self2) =
      [(1%nat, Examples.scenario_book); (2%nat, Examples.scenario_book)].
Proof.
  destruct (C4_malformed_message_dropped (bi := Examples.table_builtins)
              (Examples.connected
                 [Examples.quiet_subscriber 1; Examples.quiet_subscriber 2])
              Examples.frame_without_bids Examples.valid_frame
              (ValueError "Missing required field: bids")
              Examples.scenario_book
              eq_refl eq_refl eq_refl eq_refl)
    as (_ & self2 & Hrun & _ & Htask & Hcalls).
  - intros c [<-|[<-|[]]]; reflexivity.
  - exists self2. split; [exact Hrun|]. split; [exact Htask|exact Hcalls].
Defined.

(** What [_process_messages] does when a subscriber raises during the
    dispatch of a validated snapshot: the exception is caught by the one
    handler of the receive loop and logged, and the loop goes on (it keeps
    receiving or, when the exception is [ConnectionClosed], it reconnects).
    The [for] loop over [self.callbacks] is inside the [try] block, so it
    ends at the subscriber that raises: the subscribers registered before
    it, and the failing one, have been called with the snapshot. *)
Lemma subscriber_error_stops_dispatch {bi : Client.Builtins}
        (self : Client.WebSocketClient) (message : Client.frame)
        (snapshot : orderbook) (before after : list Client.callback)
        (cb : Client.callback) (e : exn) :
  Client.running self = true ->
  Client.task self = Client.Receiving ->
  Client.decode message = Return snapshot ->
  Client.callbacks self = before ++ cb :: after ->
  (forall c, In c before -> Client.cb_call c snapshot = Return tt) ->
  Client.cb_call cb snapshot = Raise e ->
  exists self',
    Client.step self (Client.Recv message) = Some self' /\
    Client.running self' = true /\
    Client.callbacks self' = Client.callbacks self /\
    Client.calls (Client.trace self') =
      Client.calls (Client.trace self) ++
      map (fun c => (Client.cb_id c, snapshot)) (before ++ [cb]) /\
    match e with
    | ConnectionClosed =>
        Client.task self' = Client.Reconnecting 1 /\
        Client.records (Client.trace self') =
          Client.records (Client.trace self) ++
          [mk_log WARNING "WebSocket connection closed" None;
           mk_log INFO "Attempting to reconnect" None]
    | _ =>
        Client.task self' = Client.Receiving /\
        Client.records (Client.trace self') =
          Client.records (Client.trace self) ++
          [log_error "Error processing message" e]
    end.
Proof.
  intros Hrun Htask Hdec Hcbs Hbefore Hraise.
  unfold Client.step. rewrite Htask.
  rewrite (process_message_accepted self message snapshot Hdec), Hcbs.
  rewrite (dispatch_stops_at_raise before after cb snapshot e Hbefore Hraise).
  set (acts := map (fun c => Client.Called (Client.cb_id c) snapshot)
                   (before ++ [cb])).
  assert (Hcalls : Client.calls acts =
                   map (fun c => (Client.cb_id c, snapshot)) (before ++ [cb]))
    by apply calls_called.
  assert (Hrecs : Client.records acts = []) by apply records_called.
  destruct e;
    cbn [Client.handle_exception];
    unfold Client._reconnect, Client.reconnect_head, Client.loop_head;
    cbn [Client.emit Client.running Client.set_task]; rewrite Hrun;
    (eexists; split; [reflexivity|]);
    cbn [Client.running Client.callbacks Client.task Client.trace
         Client.set_task Client.emit];
    rewrite !calls_app, !records_app, Hcalls, Hrecs;
    cbn [Client.calls Client.records flat_map Client.error Client.warning
         Client.info app];
    rewrite ?app_nil_r, <- ?app_assoc; auto 10.
Qed.

(** C1: the code at a failing input.  A connected client has two registered
    subscribers, the first raises [ValueError] and the second returns; it
    receives the frame of the scenario book.  The exception is caught and
    logged and the loop goes on receiving, but the second subscriber, which
    is still registered, is not called with the snapshot: the dispatch that
    the source announces as [# Notify all registered callbacks], and
    [register_callback] as calling each callback with each new update, has
    stopped at the first subscriber. *)
Theorem C1_later_subscriber_not_called :
  exists self',
    Client.step (bi := Examples.table_builtins)
      (Examples.connected
         [Examples.failing_subscriber 1; Examples.quiet_subscriber 2])
      (Client.Recv Examples.valid_frame) = Some self' /\
    Client.callbacks self' =
      [Examples.failing_subscriber 1; Examples.quiet_subscriber 2] /\
    Client.running self' = true /\
    Client.task self' = Client.Receiving /\
    Client.records (Client.trace self') =
      [mk_log INFO "Connected to WebSocket" None;
       log_error "Error processing message" (ValueError "subscriber failed")] /\
    Client.calls (Client.trace self') = [(1%nat, Examples.scenario_book)] /\
    ~ In (2%nat, Examples.scenario_book) (Client.calls (Client.trace self')).
Proof.
  eexists. split; [reflexivity|].
  do 5 (split; [reflexivity|]).
  intros [H|[]]. discriminate H.
Qed.

(** ** Further properties of the code *)

(** *** The update handler of the window *)

Section HandlerFacts.

Context {sk : Sk.Sklearn}.

Import MainWindow.

(** The handler up to its last statement, when the fee tier is in the
    table: the five labels it has set by then, and the records of the three
    models. *)
Lemma update_body_with_fees (self : MainWindow) (data : orderbook) (rate : R) :
  dict_get fee_tiers (fee_tier_combo self) = Return rate ->
  exists slippage impact mt slog ilog mlog,
    Slippage.calculate (slippage_model self) data (quantity_spin self) =
      (Return slippage, slog) /\
    MarketImpact.calculate data (quantity_spin self) (volatility_spin self / 100) =
      (Return impact, ilog) /\
    MakerTaker.calculate (maker_taker_model self) data (quantity_spin self) =
      (Return mt, mlog) /\
    update_body data self =
    match latency_of data with
    | Return latency =>
        (mk_window (slippage_model self) (maker_taker_model self)
           (quantity_spin self) (volatility_spin self) (fee_tier_combo self)
           slippage (quantity_spin self * rate) impact
           ((slippage + impact) * quantity_spin self / 100 + quantity_spin self * rate)
           (MakerTaker.maker mt, MakerTaker.taker mt) latency,
         slog ++ ilog ++ mlog, Return tt)
    | Raise e =>
        (mk_window (slippage_model self) (maker_taker_model self)
           (quantity_spin self) (volatility_spin self) (fee_tier_combo self)
           slippage (quantity_spin self * rate) impact
           ((slippage + impact) * quantity_spin self / 100 + quantity_spin self * rate)
           (MakerTaker.maker mt, MakerTaker.taker mt) (latency_label self),
         slog ++ ilog ++ mlog, Raise e)
    end.
Proof.
  intros Hrate.
  destruct (try_except_returns
              (Slippage.calculate_body (slippage_model self) data (quantity_spin self))
              (fun e => (0.0, [log_error "Error calculating slippage" e])))
    as (slippage & slog & Hs).
  destruct (try_except_returns
              (MarketImpact.calculate_body data (quantity_spin self)
                 (volatility_spin self / 100))
              (fun e => (0.0, [log_error "Error calculating market impact" e])))
    as (impact & ilog & Hi).
  destruct (try_except_returns
              (MakerTaker.calculate_body (maker_taker_model self) data
                 (quantity_spin self))
              (fun e => ({| MakerTaker.maker := 50.0; MakerTaker.taker := 50.0 |},
                         [log_error "Error calculating maker/taker proportions" e])))
    as (mt & mlog & Hm).
  fold (Slippage.calculate (slippage_model self) data (quantity_spin self)) in Hs.
  fold (MarketImpact.calculate data (quantity_spin self)
          (volatility_spin self / 100)) in Hi.
  fold (MakerTaker.calculate (maker_taker_model self) data (quantity_spin self)) in Hm.
  exists slippage, impact, mt, slog, ilog, mlog.
  split; [exact Hs|]. split; [exact Hi|]. split; [exact Hm|].
  unfold update_body, _calculate_fees, latency_of.
  rewrite Hs, Hi, Hm, Hrate.
  unfold h_bind, h_call, h_lift, h_set. cbn [fst snd bind app].
  destruct (format_2f _) as [latency|e]; cbn [app];
    rewrite ?app_nil_r; reflexivity.
Qed.

(** The handler when the fee tier is not in the table: only the slippage
    label has been set. *)
Lemma update_body_without_fees (self : MainWindow) (data : orderbook) (e : exn) :
  dict_get fee_tiers (fee_tier_combo self) = Raise e ->
  exists slippage slog,
    Slippage.calculate (slippage_model self) data (quantity_spin self) =
      (Return slippage, slog) /\
    update_body data self = (set_slippage_label self slippage, slog, Raise e).
Proof.
  intros Hrate.
  destruct (try_except_returns
              (Slippage.calculate_body (slippage_model self) data (quantity_spin self))
              (fun e => (0.0, [log_error "Error calculating slippage" e])))
    as (slippage & slog & Hs).
  fold (Slippage.calculate (slippage_model self) data (quantity_spin self)) in Hs.
  exists slippage, slog. split; [exact Hs|].
  unfold update_body, _calculate_fees. rewrite Hs, Hrate.
  unfold h_bind, h_call, h_lift, h_set. cbn [fst snd bind app].
  rewrite ?app_nil_r. reflexivity.
Qed.

Lemma fee_tiers_cases (tier : string) :
  (exists rate, dict_get fee_tiers tier = Return rate) \/
  dict_get fee_tiers tier = Raise (KeyError tier).
Proof.
  destruct (dict_get fee_tiers tier) as [rate|e] eqn:H.
  - left. exists rate. reflexivity.
  - right. apply dict_get_raise in H. now subst e.
Qed.

End HandlerFacts.

(** X1: a frame whose ["processing_time"] is a string makes the handler
    fail at its last statement only.  With a fee tier of the table, the
    handler still returns normally: the slippage, fees, market impact, net
    cost and maker/taker labels hold the new values, the latency label keeps
    its old value, and one line is printed. *)
Theorem X1_latency_failure_is_partial {sk : Sk.Sklearn}
        (self : MainWindow.MainWindow) (data : orderbook) (text : string) :
  In (MainWindow.fee_tier_combo self) MainWindow.fee_tier_items ->
  MainWindow.dict_get_default (extra data) "processing_time" (JNum 0) = JStr text ->
  exists slippage impact mt slog ilog mlog e,
    Slippage.calculate (MainWindow.slippage_model self) data
      (MainWindow.quantity_spin self) = (Return slippage, slog) /\
    MarketImpact.calculate data (MainWindow.quantity_spin self)
      (MainWindow.volatility_spin self / 100) = (Return impact, ilog) /\
    MakerTaker.calculate (MainWindow.maker_taker_model self) data
      (MainWindow.quantity_spin self) = (Return mt, mlog) /\
    MainWindow._on_orderbook_update self data =
    (MainWindow.mk_window
       (MainWindow.slippage_model self) (MainWindow.maker_taker_model self)
       (MainWindow.quantity_spin self) (MainWindow.volatility_spin self)
       (MainWindow.fee_tier_combo self)
       slippage
       (MainWindow.quantity_spin self *
        MainWindow.spec_fee_rate (MainWindow.fee_tier_combo self))
       impact
       ((slippage + impact) * MainWindow.quantity_spin self / 100 +
        MainWindow.quantity_spin self *
        MainWindow.spec_fee_rate (MainWindow.fee_tier_combo self))
       (MakerTaker.maker mt, MakerTaker.taker mt)
       (MainWindow.latency_label self),
     slog ++ ilog ++ mlog,
     [("Error updating UI"%string, e)],
     Return tt).
Proof.
  intros Htier Htext.
  destruct (update_body_with_fees self data _ (fee_tiers_lookup _ Htier))
    as (slippage & impact & mt & slog & ilog & mlog & Hs & Hi & Hm & Hbody).
  exists slippage, impact, mt, slog, ilog, mlog.
  eexists. split; [exact Hs|]. split; [exact Hi|]. split; [exact Hm|].
  unfold MainWindow._on_orderbook_update. rewrite Hbody.
  unfold MainWindow.latency_of. rewrite Htext. reflexivity.
Qed.

(** The hypotheses of X1 hold for the window as it is created and a book
    whose processing time is the string "1.5ms". *)
Lemma X1_latency_failure_is_partial_witness :
  exists w log e,
    MainWindow._on_orderbook_update Examples.window Examples.timed_book =
      (w, log, [("Error updating UI"%string, e)], Return tt) /\
    MainWindow.latency_label w = 0 /\
    MainWindow.fees_label w = 100 * MainWindow.spec_fee_rate "Tier 1".
Proof.
  destruct (X1_latency_failure_is_partial (sk := Examples.mean_sklearn)
              Examples.window Examples.timed_book "1.5ms"
              (or_introl eq_refl) eq_refl)
    as (slippage & impact & mt & slog & ilog & mlog & e & _ & _ & _ & H).
  eexists _, _, e. split; [exact H|]. split; reflexivity.
Defined.

Section HandlerFrame.

Context {sk : Sk.Sklearn}.

Import MainWindow.

Lemma update_frame (self : MainWindow) (data : orderbook) :
  snd (_on_orderbook_update self data) = Return tt /\
  same_inputs self (fst (fst (fst (_on_orderbook_update self data)))).
Proof.
  unfold _on_orderbook_update, same_inputs.
  destruct (fee_tiers_cases (fee_tier_combo self)) as [(rate & Hrate)|Hrate].
  - destruct (update_body_with_fees self data rate Hrate)
      as (slippage & impact & mt & slog & ilog & mlog & _ & _ & _ & ->).
    destruct (latency_of data); cbn; auto 10.
  - destruct (update_body_without_fees self data _ Hrate)
      as (slippage & slog & _ & ->).
    cbn; auto 10.
Qed.

(** With a fee tier of the table and a latency that formats, the window
    after an update depends on the models and the inputs only. *)
Lemma update_overwrites (w w' : MainWindow) (data : orderbook) (latency : R) :
  same_inputs w w' ->
  In (fee_tier_combo w) fee_tier_items ->
  latency_of data = Return latency ->
  fst (fst (fst (_on_orderbook_update w' data))) =
  fst (fst (fst (_on_orderbook_update w data))).
Proof.
  intros (Hsm & Hmm & Hq & Hv & Ht) Htier Hlat.
  assert (Htier' : In (fee_tier_combo w') fee_tier_items) by (rewrite Ht; exact Htier).
  destruct (update_body_with_fees w data _ (fee_tiers_lookup _ Htier))
    as (s & i & m & sl & il & ml & Hs & Hi & Hm & Hbody).
  destruct (update_body_with_fees w' data _ (fee_tiers_lookup _ Htier'))
    as (s' & i' & m' & sl' & il' & ml' & Hs' & Hi' & Hm' & Hbody').
  rewrite Hsm, Hq in Hs'. rewrite Hq, Hv in Hi'. rewrite Hmm, Hq in Hm'.
  rewrite Hs in Hs'. rewrite Hi in Hi'. rewrite Hm in Hm'.
  injection Hs' as <- <-. injection Hi' as <- <-. injection Hm' as <- <-.
  unfold _on_orderbook_update. rewrite Hbody, Hbody', Hlat. cbn [fst].
  rewrite Hsm, Hmm, Hq, Hv, Ht. reflexivity.
Qed.

End HandlerFrame.

(** X2: the update handler never raises to the client that calls it, and it
    only writes labels: whatever the window and the update, the two models
    and the three inputs (quantity, volatility, fee tier) are afterwards what
    they were. *)
Theorem X2_handler_contains_errors_and_keeps_inputs {sk : Sk.Sklearn}
        (self : MainWindow.MainWindow) (data : orderbook) :
  snd (MainWindow._on_orderbook_update self data) = Return tt /\
  MainWindow.slippage_model
    (fst (fst (fst (MainWindow._on_orderbook_update self data)))) =
    MainWindow.slippage_model self /\
  MainWindow.maker_taker_model
    (fst (fst (fst (MainWindow._on_orderbook_update self data)))) =
    MainWindow.maker_taker_model self /\
  MainWindow.quantity_spin
    (fst (fst (fst (MainWindow._on_orderbook_update self data)))) =
    MainWindow.quantity_spin self /\
  MainWindow.volatility_spin
    (fst (fst (fst (MainWindow._on_orderbook_update self data)))) =
    MainWindow.volatility_spin self /\
  MainWindow.fee_tier_combo
    (fst (fst (fst (MainWindow._on_orderbook_update self data)))) =
    MainWindow.fee_tier_combo self.
Proof.
  destruct (update_frame self data) as (Hret & Hsame). split; [exact Hret|].
  exact Hsame.
Qed.

(** X3: the handler keeps no history.  With a fee tier of the table and an
    update whose latency formats, the window after that update is the same
    whether or not another update was handled before it. *)
Theorem X3_last_update_wins {sk : Sk.Sklearn}
        (self : MainWindow.MainWindow) (earlier data : orderbook) (latency : R) :
  In (MainWindow.fee_tier_combo self) MainWindow.fee_tier_items ->
  MainWindow.latency_of data = Return latency ->
  fst (fst (fst (MainWindow._on_orderbook_update
                   (fst (fst (fst (MainWindow._on_orderbook_update self earlier))))
                   data))) =
  fst (fst (fst (MainWindow._on_orderbook_update self data))).
Proof.
  intros Htier Hlat.
  apply (update_overwrites self _ data latency); [|exact Htier|exact Hlat].
  apply update_frame.
Qed.

(** The hypotheses of X3 hold for the window as it is created: an update
    with the crossed book before the scenario book leaves no trace. *)
Lemma X3_last_update_wins_witness :
  fst (fst (fst (MainWindow._on_orderbook_update
                   (fst (fst (fst (MainWindow._on_orderbook_update
                                     Examples.window Examples.crossed_book))))
                   Examples.scenario_book))) =
  fst (fst (fst (MainWindow._on_orderbook_update Examples.window
                   Examples.scenario_book))).
Proof.
  apply (X3_last_update_wins (sk := Examples.mean_sklearn) Examples.window
           Examples.crossed_book Examples.scenario_book 0).
  - left. reflexivity.
  - reflexivity.
Defined.

Section DeliverFacts.

Context {sk : Sk.Sklearn} {bi : Client.Builtins}.





End DeliverFacts.



(** *** The receive loop over a whole stream *)

Section StreamFacts.

Context {bi : Client.Builtins}.

Lemma stream_delivered (messages : list Client.frame) (self : Client.WebSocketClient) :
  Client.running self = true ->
  Client.task self = Client.Receiving ->
  (forall c data, In c (Client.callbacks self) ->
                  Client.cb_call c data = Return tt) ->
  exists self',
    Client.run self (map Client.Recv messages) = Some self' /\
    Client.running self' = true /\
    Client.task self' = Client.Receiving /\
    Client.callbacks self' = Client.callbacks self /\
    Client.calls (Client.trace self') =
      Client.calls (Client.trace self) ++
      Client.deliveries (Client.callbacks self) messages /\
    Client.sleeps (Client.trace self') = Client.sleeps (Client.trace self).
Proof.
  revert self. induction messages as [|m messages IH]; intros self Hrun Htask Hok.
  - exists self. cbn [map Client.run Client.deliveries flat_map].
    rewrite app_nil_r. auto 10.
  - cbn [map Client.run Client.deliveries flat_map].
    destruct (Client.decode m) as [data|e] eqn:Hdec.
    + destruct (accepted_message_dispatched self m data Hrun Htask Hdec)
        as (self1 & Hstep & Hrun1 & Htask1 & Hcb1 & Hcalls1 & Hsl1 & _).
      { intros c Hc. apply Hok. exact Hc. }
      destruct (IH self1 Hrun1 Htask1) as (self' & Hr & Hrun' & Htask' & Hcb' & Hcalls' & Hsl').
      { intros c d Hc. apply Hok. rewrite <- Hcb1. exact Hc. }
      exists self'. rewrite Hstep. split; [exact Hr|].
      split; [exact Hrun'|]. split; [exact Htask'|]. split; [congruence|].
      split; [|congruence].
      rewrite Hcalls', Hcalls1, Hcb1, <- app_assoc. reflexivity.
    + destruct (rejected_message_dropped self m e Hrun Htask Hdec)
        as (self1 & log & Hstep & Hrun1 & Htask1 & Hcb1 & Hcalls1 & Hsl1 & _).
      destruct (IH self1 Hrun1 Htask1) as (self' & Hr & Hrun' & Htask' & Hcb' & Hcalls' & Hsl').
      { intros c d Hc. apply Hok. rewrite <- Hcb1. exact Hc. }
      exists self'. rewrite Hstep. split; [exact Hr|].
      split; [exact Hrun'|]. split; [exact Htask'|]. split; [congruence|].
      split; [|congruence].
      rewrite Hcalls', Hcalls1, Hcb1. reflexivity.
Qed.

End StreamFacts.

(** X5: delivery follows the wire.  For a receiving client whose
    subscribers return on every snapshot, any stream of messages, well formed
    or not, leads to exactly one call of each subscriber for each message
    that validates, in wire order and registration order; the client never
    sleeps and is receiving at the end. *)
Theorem X5_stream_delivered_in_order {bi : Client.Builtins}
        (messages : list Client.frame) (self : Client.WebSocketClient) :
  Client.running self = true ->
  Client.task self = Client.Receiving ->
  (forall c data, In c (Client.callbacks self) ->
                  Client.cb_call c data = Return tt) ->
  exists self',
    Client.run self (map Client.Recv messages) = Some self' /\
    Client.running self' = true /\
    Client.task self' = Client.Receiving /\
    Client.callbacks self' = Client.callbacks self /\
    Client.calls (Client.trace self') =
      Client.calls (Client.trace self) ++
      Client.deliveries (Client.callbacks self) messages /\
    Client.sleeps (Client.trace self') = Client.sleeps (Client.trace self).
Proof.
  apply stream_delivered.
Qed.

(** The hypotheses of X5 hold for a connected client with two subscribers
    that return: of three messages, the second of which has no bids, the
    first and the third reach both subscribers, in this order. *)
Lemma X5_stream_delivered_in_order_witness :
  exists self',
    Client.run (Examples.connected
                  [Examples.quiet_subscriber 1; Examples.quiet_subscriber 2])
      (map Client.Recv [Examples.valid_frame; Examples.frame_without_bids;
                        Examples.valid_frame]) = Some self' /\
    Client.calls (Client.trace self') =
      [(1%nat, Examples.scenario_book); (2%nat, Examples.scenario_book);
       (1%nat, Examples.scenario_book); (2%nat, Examples.scenario_book)].
Proof.
  destruct (X5_stream_delivered_in_order (bi := Examples.table_builtins)
              [Examples.valid_frame; Examples.frame_without_bids;
               Examples.valid_frame]
              (Examples.connected
                 [Examples.quiet_subscriber 1; Examples.quiet_subscriber 2])
              eq_refl eq_refl)
    as (self' & Hrun & _ & _ & _ & Hcalls & _).
  - intros c data [<-|[<-|[]]]; reflexivity.
  - exists self'. split; [exact Hrun|exact Hcalls].
Defined.

(** *** Closing, and the range of the delays *)

Section LoopFacts.

Context {bi : Client.Builtins}.

Import Client.

Lemma sleeps_dispatch (cbs : list callback) (data : orderbook) :
  sleeps (fst (dispatch cbs data)) = [].
Proof.
  induction cbs as [|c cbs IH]; cbn [dispatch]; [reflexivity|].
  destruct (cb_call c data); [|reflexivity].
  destruct (dispatch cbs data) as [acts r]. exact IH.
Qed.

Lemma sleeps_process_message (self : WebSocketClient) (message : frame) :
  sleeps (fst (process_message self message)) = [].
Proof.
  unfold process_message.
  destruct (json_loads message) as [data|e]; [|reflexivity].
  destruct (_process_orderbook data) as [[processed|e] log]; cbn [fst].
  - pose proof (sleeps_dispatch (callbacks self) processed) as H.
    destruct (dispatch (callbacks self) processed) as [acts r]. cbn [fst] in *.
    now rewrite sleeps_app, sleeps_logged, H.
  - apply sleeps_logged.
Qed.

Lemma loop_head_delays (self : WebSocketClient) :
  Forall delay_in_range (sleeps (trace self)) ->
  delays_in_range (loop_head self).
Proof.
  intros H. unfold loop_head, delays_in_range.
  destruct (running self); cbn [set_task trace task]; auto.
Qed.

Lemma reconnect_head_delays (self : WebSocketClient) (d : Z) :
  Forall delay_in_range (sleeps (trace self)) ->
  delay_in_range d ->
  delays_in_range (reconnect_head self d).
Proof.
  intros H Hd. unfold reconnect_head.
  destruct (running self); [|apply loop_head_delays; exact H].
  unfold delays_in_range. cbn [set_task emit trace task].
  rewrite sleeps_app. cbn [sleeps flat_map info app]. rewrite app_nil_r. auto.
Qed.

Lemma handle_exception_delays (self : WebSocketClient) (e : exn) :
  Forall delay_in_range (sleeps (trace self)) ->
  delays_in_range (handle_exception self e).
Proof.
  intros H.
  assert (Hone : delay_in_range 1) by (unfold delay_in_range, max_retry_delay; lia).
  destruct e; cbn [handle_exception];
    try (apply loop_head_delays; cbn [emit trace]; rewrite sleeps_app;
         cbn [sleeps flat_map error app]; rewrite app_nil_r; exact H).
  unfold _reconnect. apply reconnect_head_delays; [|exact Hone].
  cbn [emit trace]. rewrite sleeps_app. cbn [sleeps flat_map warning app].
  rewrite app_nil_r. exact H.
Qed.

Lemma step_delays (self self' : WebSocketClient) (ev : event) :
  delays_in_range self -> step self ev = Some self' -> delays_in_range self'.
Proof.
  intros [Hsl Htask] Hstep. unfold step in Hstep.
  destruct ev.
  - destruct (task self) eqn:Ht; try discriminate.
    pose proof (sleeps_process_message self message) as Hpm.
    destruct (process_message self message) as [acts [u|e]]; cbn [fst] in Hpm;
      injection Hstep as <-.
    + apply loop_head_delays. cbn [emit trace]. rewrite sleeps_app, Hpm, app_nil_r.
      exact Hsl.
    + apply handle_exception_delays. cbn [emit trace].
      rewrite sleeps_app, Hpm, app_nil_r. exact Hsl.
  - destruct (task self) eqn:Ht; try discriminate. injection Hstep as <-.
    exact (handle_exception_delays self ConnectionClosed Hsl).
  - destruct (task self) eqn:Ht; try discriminate. injection Hstep as <-.
    apply loop_head_delays. cbn [emit trace]. rewrite sleeps_app.
    cbn [sleeps flat_map info app]. apply Forall_app. split; [exact Hsl|].
    constructor; [exact Htask|constructor].
  - destruct (task self) eqn:Ht; try discriminate. injection Hstep as <-.
    apply reconnect_head_delays.
    + cbn [emit trace]. rewrite sleeps_app. cbn [sleeps flat_map error app].
      apply Forall_app. split; [exact Hsl|]. constructor; [exact Htask|constructor].
    + unfold delay_in_range, max_retry_delay in *. lia.
  - injection Hstep as <-. unfold close, delays_in_range.
    destruct (websocket self); cbn [websocket emit trace task];
      rewrite ?sleeps_app; cbn [sleeps flat_map info app]; rewrite ?app_nil_r;
      split; assumption.
Qed.

Lemma run_delays (evs : list event) :
  forall self self',
    delays_in_range self -> run self evs = Some self' -> delays_in_range self'.
Proof.
  induction evs as [|ev evs IH]; intros self self' Hinv Hrun; cbn [run] in Hrun.
  - now injection Hrun as <-.
  - destruct (step self ev) as [self1|] eqn:Hstep; [|discriminate].
    eapply IH; [|exact Hrun]. eapply step_delays; eassumption.
Qed.

(** Closing while the task is blocked in [recv]. *)
Lemma close_while_receiving (self : WebSocketClient) :
  task self = Receiving ->
  exists self',
    run self [CloseCalled; RecvClosed] = Some self' /\
    running self' = false /\
    task self' = Finished /\
    sleeps (trace self') = sleeps (trace self) /\
    calls (trace self') = calls (trace self) /\
    warnings (trace self') =
      warnings (trace self) ++ [mk_log WARNING "WebSocket connection closed" None].
Proof.
  intros Htask. cbn [run step]. unfold close. cbn [websocket].
  destruct (websocket self); cbn [step task emit]; rewrite Htask;
    cbn [handle_exception]; unfold _reconnect, reconnect_head, loop_head;
    cbn [running emit set_task];
    (eexists; split; [reflexivity|]); cbn [running task trace set_task emit];
    unfold warnings;
    rewrite ?sleeps_app, ?calls_app, ?records_app, ?filter_app;
    cbn [sleeps calls records flat_map info warning app filter is_warning lvl];
    rewrite ?app_nil_r; auto 10.
Qed.

(** Closing while an attempt of [_reconnect] is under way. *)
Lemma close_while_reconnecting (self : WebSocketClient) (d : Z) (ev : event) :
  task self = Reconnecting d ->
  ev = ConnectOk \/ (exists e, ev = ConnectFailed e) ->
  exists self',
    run self [CloseCalled; ev] = Some self' /\
    running self' = false /\
    task self' = Finished /\
    sleeps (trace self') = sleeps (trace self) ++ [d].
Proof.
  intros Htask [->|(e & ->)]; cbn [run step]; unfold close; cbn [websocket];
    destruct (websocket self); cbn [step task emit]; rewrite Htask;
    unfold reconnect_head, loop_head; cbn [running emit set_task];
    (eexists; split; [reflexivity|]); cbn [running task trace set_task emit];
    rewrite ?sleeps_app;
    cbn [sleeps flat_map info error app]; rewrite ?app_nil_r; auto.
Qed.

End LoopFacts.

(** X7: [close] ends the receive task at its next step.  Called while the
    task is blocked in [recv], the closed socket makes [recv] raise
    [ConnectionClosed]: the task logs it, one record of level [WARNING]
    (wherever [close] puts its own record of level [INFO]), starts no
    reconnection (it does not sleep), calls no subscriber and ends.  Called
    while an attempt of [_reconnect] is under way, the attempt is still made
    after its delay, and whether it succeeds or fails the task ends without
    another attempt. *)
Theorem X7_close_ends_receive_task {bi : Client.Builtins}
        (self : Client.WebSocketClient) :
  (Client.task self = Client.Receiving ->
   exists self',
     Client.run self [Client.CloseCalled; Client.RecvClosed] = Some self' /\
     Client.running self' = false /\
     Client.task self' = Client.Finished /\
     Client.sleeps (Client.trace self') = Client.sleeps (Client.trace self) /\
     Client.calls (Client.trace self') = Client.calls (Client.trace self) /\
     filter Client.is_warning (Client.records (Client.trace self')) =
       filter Client.is_warning (Client.records (Client.trace self)) ++
       [mk_log WARNING "WebSocket connection closed" None]) /\
  (forall d ev,
     Client.task self = Client.Reconnecting d ->
     ev = Client.ConnectOk \/ (exists e, ev = Client.ConnectFailed e) ->
     exists self',
       Client.run self [Client.CloseCalled; ev] = Some self' /\
       Client.running self' = false /\
       Client.task self' = Client.Finished /\
       Client.sleeps (Client.trace self') =
         Client.sleeps (Client.trace self) ++ [d]).
Proof.
  split.
  - apply close_while_receiving.
  - intros d ev. apply close_while_reconnecting.
Qed.

(** X7 on a connected client that is closed while it receives. *)
Lemma X7_close_ends_receive_task_witness :
  exists self',
    Client.run (Examples.connected [Examples.quiet_subscriber 1])
      [Client.CloseCalled; Client.RecvClosed] = Some self' /\
    Client.task self' = Client.Finished /\
    Client.sleeps (Client.trace self') = [] /\
    filter Client.is_warning (Client.records (Client.trace self')) =
      [mk_log WARNING "WebSocket connection closed" None].
Proof.
  destruct (X7_close_ends_receive_task (bi := Examples.table_builtins)
              (Examples.connected [Examples.quiet_subscriber 1]))
    as (Hrecv & _).
  destruct (Hrecv eq_refl) as (self' & Hrun & _ & Htask & Hsl & _ & Hwarn).
  exists self'. split; [exact Hrun|]. split; [exact Htask|].
  split; [exact Hsl|exact Hwarn].
Defined.

(** X8: no event sequence makes the client sleep outside the backoff range.
    Starting from the client [connect] leaves, with any subscribers, every
    delay slept in any run lies between 1 and 30, and so does the delay of an
    attempt under way. *)
Theorem X8_delays_stay_in_range {bi : Client.Builtins}
        (subscribers : list Client.callback) (evs : list Client.event)
        (self' : Client.WebSocketClient) :
  Client.run
    (fst (Client.connect
            (fold_left Client.register_callback subscribers Client.__init__)
            (Return tt))) evs = Some self' ->
  Forall (fun d => (1 <= d <= 30)%Z) (Client.sleeps (Client.trace self')) /\
  match Client.task self' with
  | Client.Reconnecting retry_delay => (1 <= retry_delay <= 30)%Z
  | _ => True
  end.
Proof.
  intros Hrun.
  assert (Htrace : forall cbs c,
             Client.trace (fold_left Client.register_callback cbs c) =
             Client.trace c).
  { induction cbs as [|x cbs IH]; intros c; cbn [fold_left]; [reflexivity|].
    now rewrite IH. }
  assert (H : Client.delays_in_range self').
  { eapply run_delays; [|exact Hrun].
    unfold Client.delays_in_range.
    cbn [Client.connect fst Client.emit Client.trace Client.task].
    split; [|exact I]. rewrite Htrace. cbn. constructor. }
  exact H.
Qed.

(** The hypothesis of X8 holds for the run of nine failed attempts after a
    lost connection: the delays are 1, 2, 4, 8, 16, 30, 30, 30, 30. *)
Lemma X8_delays_stay_in_range_witness :
  exists self',
    Client.run (Examples.connected [])
      (Client.RecvClosed ::
       map Client.ConnectFailed (repeat ConnectionClosed 9)) = Some self' /\
    Client.sleeps (Client.trace self') = [1; 2; 4; 8; 16; 30; 30; 30; 30]%Z /\
    Forall (fun d => (1 <= d <= 30)%Z) (Client.sleeps (Client.trace self')).
Proof.
  eexists. split; [vm_compute; reflexivity|]. split; [vm_compute; reflexivity|].
  apply (X8_delays_stay_in_range (bi := Examples.table_builtins) []
           (Client.RecvClosed ::
            map Client.ConnectFailed (repeat ConnectionClosed 9))).
  vm_compute. reflexivity.
Defined.

(** *** Validation of a message *)

Section ValidationFacts.

Context {bi : Client.Builtins}.

Import Client.

Lemma dict_get_present {V : Type} (d : list (string * V)) (key : string) (v : V) :
  MainWindow.dict_get d key = Return v ->
  existsb (fun kv => String.eqb (fst kv) key) d = true.
Proof.
  induction d as [|[k x] d IH]; cbn [MainWindow.dict_get existsb fst];
    [discriminate|].
  destruct (String.eqb k key); [reflexivity|exact IH].
Qed.

Lemma mapM_raises {A B : Type} (f : A -> result B) (l : list A) (x : A) (e : exn) :
  In x l -> f x = Raise e -> exists e', mapM f l = Raise e'.
Proof.
  induction l as [|y l IH]; intros Hin Hx; [destruct Hin|].
  cbn [mapM]. destruct (f y) as [b|e1] eqn:Hy; cbn [bind];
    [|eexists; reflexivity].
  destruct Hin as [->|Hin]; [congruence|].
  destruct (IH Hin Hx) as (e' & ->). cbn [bind]. eexists; reflexivity.
Qed.

Lemma convert_string_levels (levels : list ((string * string) * (R * R))) :
  (forall l, In l levels ->
             float_of_str (fst (fst l)) = Some (fst (snd l)) /\
             float_of_str (snd (fst l)) = Some (snd (snd l))) ->
  mapM (fun row =>
          pq <- unpack2 row ;;
          price <- float (fst pq) ;;
          qty <- float (snd pq) ;;
          Return (price, qty))
       (map (fun l => JArr [JStr (fst (fst l)); JStr (snd (fst l))]) levels) =
  Return (map snd levels).
Proof.
  induction levels as [|[[p q] [x y]] levels IH]; intros H; [reflexivity|].
  cbn [map mapM unpack2 iter bind fst snd float].
  destruct (H _ (or_introl eq_refl)) as [Hp Hq]. cbn [fst snd] in Hp, Hq.
  rewrite Hp, Hq. cbn [bind].
  rewrite IH by (intros l Hl; apply H; right; exact Hl). reflexivity.
Qed.

Lemma replace_Z_app (s t : string) :
  replace_Z (s ++ t) = (replace_Z s ++ replace_Z t)%string.
Proof.
  induction s as [|c s IH]; cbn [String.append replace_Z]; [reflexivity|].
  rewrite IH. destruct (Ascii.eqb c "Z"); reflexivity.
Qed.

Lemma replace_Z_without_Z (s : string) :
  ~ In "Z"%char (list_ascii_of_string s) -> replace_Z s = s.
Proof.
  induction s as [|c s IH]; cbn [list_ascii_of_string replace_Z]; intros H;
    [reflexivity|].
  destruct (Ascii.eqb c "Z") eqn:Hc.
  - apply Ascii.eqb_eq in Hc. subst c. exfalso. apply H. left. reflexivity.
  - rewrite IH; [reflexivity|]. intros Hin. apply H. right. exact Hin.
Qed.

End ValidationFacts.

(** X9: what validation accepts.  A dictionary whose timestamp is a string
    that parses once its Z is replaced, and whose asks and bids convert, is
    turned into the snapshot with that instant, the converted levels, the
    exchange and the symbol as they came, and every other key of the frame
    kept beside them. *)
Theorem X9_well_formed_message_accepted {bi : Client.Builtins}
        (members : list (string * json)) (ts : string) (t : datetime)
        (a b ex sy : json) (asks' bids' : list (R * R)) :
  MainWindow.dict_get members "timestamp" = Return (JStr ts) ->
  Client.fromisoformat (Client.replace_Z ts) = Some t ->
  MainWindow.dict_get members "asks" = Return a ->
  Client.convert_levels a = Return asks' ->
  MainWindow.dict_get members "bids" = Return b ->
  Client.convert_levels b = Return bids' ->
  MainWindow.dict_get members "exchange" = Return ex ->
  MainWindow.dict_get members "symbol" = Return sy ->
  Client.decode (Client.Json (JObj members)) =
  Return {| timestamp := t;
            exchange := ex;
            symbol := sy;
            asks := asks';
            bids := bids';
            extra := filter (fun kv => negb (Client.is_required (fst kv))) members |}.
Proof.
  intros Hts Ht Ha Hasks Hb Hbids Hex Hsy.
  unfold Client.decode. cbn [Client.json_loads bind].
  unfold Client._process_orderbook_body, Client.check_required,
    Client.required_fields.
  cbn [mapM Client.contains bind].
  rewrite (dict_get_present _ _ _ Hts), (dict_get_present _ _ _ Hex),
    (dict_get_present _ _ _ Hsy), (dict_get_present _ _ _ Ha),
    (dict_get_present _ _ _ Hb).
  cbn [bind Client.getitem]. rewrite Hts. cbn [bind Client.parse_timestamp].
  rewrite Ht. cbn [bind]. rewrite Ha. cbn [bind]. rewrite Hasks. cbn [bind].
  rewrite Hb. cbn [bind]. rewrite Hbids. cbn [bind].
  rewrite Hex. cbn [bind]. rewrite Hsy. reflexivity.
Qed.

(** The hypotheses of X9 hold for the frame of the scenario book. *)
Lemma X9_well_formed_message_accepted_witness :
  Client.decode (bi := Examples.table_builtins) Examples.valid_frame =
  Return Examples.scenario_book.
Proof.
  refine (X9_well_formed_message_accepted (bi := Examples.table_builtins)
            [("timestamp"%string, JStr "2025-05-04T10:39:13Z");
             ("exchange"%string, JStr "OKX");
             ("symbol"%string, JStr "BTC-USDT-SWAP");
             ("asks"%string, JArr [JArr [JStr "100.5"; JStr "2"];
                                   JArr [JStr "101"; JStr "3"]]);
             ("bids"%string, JArr [JArr [JStr "100"; JStr "2"];
                                   JArr [JStr "99.5"; JStr "3"]])]
            "2025-05-04T10:39:13Z" 0%Z
            (JArr [JArr [JStr "100.5"; JStr "2"]; JArr [JStr "101"; JStr "3"]])
            (JArr [JArr [JStr "100"; JStr "2"]; JArr [JStr "99.5"; JStr "3"]])
            (JStr "OKX") (JStr "BTC-USDT-SWAP")
            [(100.5, 2); (101, 3)] [(100, 2); (99.5, 3)]
            _ _ _ _ _ _ _ _); reflexivity.
Defined.

(** X10: levels keep their wire order.  A list of [[price, quantity]] pairs
    of strings that all convert is turned into the list of the converted
    pairs, one level for each pair, in the same order. *)
Theorem X10_levels_keep_wire_order {bi : Client.Builtins}
        (levels : list ((string * string) * (R * R))) :
  (forall l, In l levels ->
             Client.float_of_str (fst (fst l)) = Some (fst (snd l)) /\
             Client.float_of_str (snd (fst l)) = Some (snd (snd l))) ->
  Client.convert_levels
    (JArr (map (fun l => JArr [JStr (fst (fst l)); JStr (snd (fst l))]) levels)) =
  Return (map snd levels).
Proof.
  intros H. unfold Client.convert_levels. cbn [Client.iter bind].
  apply convert_string_levels. exact H.
Qed.

(** The hypothesis of X10 holds for the asks of the scenario frame. *)
Lemma X10_levels_keep_wire_order_witness :
  Client.convert_levels (bi := Examples.table_builtins)
    (JArr [JArr [JStr "100.5"; JStr "2"]; JArr [JStr "101"; JStr "3"]]) =
  Return [(100.5, 2); (101, 3)].
Proof.
  apply (X10_levels_keep_wire_order (bi := Examples.table_builtins)
           [(("100.5"%string, "2"%string), (100.5, 2));
            (("101"%string, "3"%string), (101, 3))]).
  intros l [<-|[<-|[]]]; split; reflexivity.
Defined.

Section RejectionFacts.

Context {bi : Client.Builtins}.

Import Client.

(** A row that does not unpack into two values stops the conversion. *)
Lemma convert_levels_bad_row (rows : list json) (items : list json) :
  In (JArr items) rows ->
  length items <> 2%nat ->
  exists e, convert_levels (JArr rows) = Raise e.
Proof.
  intros Hin Hlen. unfold convert_levels. cbn [iter bind].
  eapply mapM_raises; [exact Hin|].
  cbn [unpack2 iter bind].
  destruct items as [|p [|q [|r items]]]; cbn [length] in Hlen;
    try reflexivity; congruence.
Qed.

(** Once the five keys are there, what is left of the body either raises
    before it converts the asks or converts them. *)
Lemma body_raises_if_asks_raise (members : list (string * json)) (a : json)
      (e : exn) :
  MainWindow.dict_get members "asks" = Return a ->
  convert_levels a = Raise e ->
  exists e', _process_orderbook_body (JObj members) = Raise e'.
Proof.
  intros Ha Hconv. unfold _process_orderbook_body.
  destruct (check_required (JObj members)) as [u|e1]; cbn [bind];
    [|eexists; reflexivity].
  destruct (getitem (JObj members) "timestamp") as [ts|e1]; cbn [bind];
    [|eexists; reflexivity].
  destruct (parse_timestamp ts) as [t|e1]; cbn [bind]; [|eexists; reflexivity].
  cbn [getitem]. rewrite Ha. cbn [bind]. rewrite Hconv. eexists; reflexivity.
Qed.

End RejectionFacts.

(** X11: only a JSON object can be a snapshot.  A message whose JSON is
    null, a boolean, a number, a string or an array is rejected by
    validation, whatever it contains. *)
Theorem X11_non_object_rejected {bi : Client.Builtins} (data : json) :
  (forall members, data <> JObj members) ->
  exists e, Client.decode (Client.Json data) = Raise e.
Proof.
  intros Hnot. unfold Client.decode. cbn [Client.json_loads bind].
  unfold Client._process_orderbook_body, Client.check_required,
    Client.required_fields.
  destruct data as [| b | r | s | items | members];
    try (eexists; reflexivity).
  - cbn [mapM Client.contains bind].
    repeat match goal with
           | |- context [match String.index 0 ?f s with _ => _ end] =>
               destruct (String.index 0 f s); cbn [bind]
           end;
      eexists; reflexivity.
  - cbn [mapM Client.contains bind].
    repeat match goal with
           | |- context [existsb ?f items] =>
               destruct (existsb f items); cbn [bind]
           end;
      eexists; reflexivity.
  - exfalso. apply (Hnot members). reflexivity.
Qed.

(** The hypothesis of X11 holds for an array that lists the five keys. *)
Lemma X11_non_object_rejected_witness :
  exists e,
    Client.decode (bi := Examples.table_builtins)
      (Client.Json (JArr [JStr "timestamp"; JStr "exchange"; JStr "symbol";
                          JStr "asks"; JStr "bids"])) = Raise e.
Proof.
  apply (X11_non_object_rejected (bi := Examples.table_builtins)).
  intros members H. discriminate H.
Defined.

(** X12: a level is a pair.  A dictionary whose asks hold an array that has
    not exactly two items (a lone price, or a price, a quantity and a count)
    is rejected, wherever that row stands among the asks. *)
Theorem X12_level_of_wrong_arity_rejected {bi : Client.Builtins}
        (members : list (string * json)) (rows items : list json) :
  MainWindow.dict_get members "asks" = Return (JArr rows) ->
  In (JArr items) rows ->
  length items <> 2%nat ->
  exists e, Client.decode (Client.Json (JObj members)) = Raise e.
Proof.
  intros Ha Hin Hlen. unfold Client.decode. cbn [Client.json_loads bind].
  destruct (convert_levels_bad_row rows items Hin Hlen) as (e & He).
  eapply body_raises_if_asks_raise; eassumption.
Qed.

(** The hypotheses of X12 hold for the scenario frame with a third item in
    its second ask. *)
Lemma X12_level_of_wrong_arity_rejected_witness :
  exists e,
    Client.decode (bi := Examples.table_builtins)
      (Client.Json
         (JObj [("timestamp"%string, JStr "2025-05-04T10:39:13Z");
                ("exchange"%string, JStr "OKX");
                ("symbol"%string, JStr "BTC-USDT-SWAP");
                ("asks"%string, JArr [JArr [JStr "100.5"; JStr "2"];
                                      JArr [JStr "101"; JStr "3"; JStr "2"]]);
                ("bids"%string, JArr [JArr [JStr "100"; JStr "2"]])])) = Raise e.
Proof.
  apply (X12_level_of_wrong_arity_rejected (bi := Examples.table_builtins) _
           [JArr [JStr "100.5"; JStr "2"]; JArr [JStr "101"; JStr "3"; JStr "2"]]
           [JStr "101"; JStr "3"; JStr "2"]).
  - reflexivity.
  - right. left. reflexivity.
  - simpl. lia.
Defined.

(** X13: a timestamp with the suffix Z is read as the same timestamp with
    the offset +00:00.  For a string without any other Z, the two spellings
    give the same instant, or are both refused. *)
Theorem X13_zulu_suffix_is_utc_offset {bi : Client.Builtins} (s : string) :
  ~ In "Z"%char (list_ascii_of_string s) ->
  Client.parse_timestamp (JStr (s ++ "Z")) =
  Client.parse_timestamp (JStr (s ++ "+00:00")).
Proof.
  intros Hs. cbn [Client.parse_timestamp].
  rewrite !replace_Z_app, (replace_Z_without_Z s Hs). reflexivity.
Qed.

(** The hypothesis of X13 holds for the timestamp of the scenario frame. *)
Lemma X13_zulu_suffix_is_utc_offset_witness :
  Client.parse_timestamp (bi := Examples.table_builtins)
    (JStr ("2025-05-04T10:39:13" ++ "Z")) =
  Client.parse_timestamp (bi := Examples.table_builtins)
    (JStr ("2025-05-04T10:39:13" ++ "+00:00")).
Proof.
  apply (X13_zulu_suffix_is_utc_offset (bi := Examples.table_builtins)).
  cbn. intros H.
  repeat (destruct H as [H|H]; [discriminate H|]). exact H.
Defined.

(** *** Market impact: execution time, lower bound, broadcasting *)

Section NumericFacts.

Lemma ln_10_pos : 0 < ln 10.
Proof. rewrite <- ln_1. apply ln_increasing; lra. Qed.

Lemma log10_le (x y : R) : 0 < x -> x <= y -> Np.log10 x <= Np.log10 y.
Proof.
  intros Hx [Hlt| ->]; [|lra].
  unfold Np.log10. pose proof ln_10_pos as H10.
  pose proof (ln_increasing x y Hx Hlt) as Hln.
  apply Rmult_le_compat_r; [left; apply Rinv_0_lt_compat; exact H10|lra].
Qed.

Lemma log10_pow (n : nat) : Np.log10 (10 ^ n) = INR n.
Proof.
  unfold Np.log10. rewrite ln_pow by lra. field.
  pose proof ln_10_pos. lra.
Qed.

Lemma log10_hundredth : Np.log10 0.01 = -2.
Proof.
  replace 0.01 with (/ 10 ^ 2) by (simpl; lra).
  unfold Np.log10. rewrite ln_Rinv by (simpl; lra).
  rewrite ln_pow by lra. simpl INR. field.
  pose proof ln_10_pos. lra.
Qed.

Lemma log10_million : Np.log10 1000000 = 6.
Proof.
  replace 1000000 with (10 ^ 6) by (simpl; lra).
  rewrite log10_pow. simpl. lra.
Qed.

(** The execution time for a quantity of at least 0.01. *)
Lemma optimal_time_floor (quantity volatility : R) :
  0.01 <= quantity -> 0 <= volatility ->
  100 <= 300 * (1 + Np.log10 quantity / 3 + volatility * 2).
Proof.
  intros Hq Hv.
  pose proof (log10_le 0.01 quantity ltac:(lra) Hq) as H.
  rewrite log10_hundredth in H. lra.
Qed.



Lemma sum_nonneg (l : list R) : Forall (fun x => 0 <= x) l -> 0 <= Np.sum l.
Proof.
  induction 1 as [|x l Hx _ IH]; cbn [Np.sum fold_right]; [lra|].
  unfold Np.sum in IH. lra.
Qed.

Lemma sum_pos (l : list R) : l <> [] -> Forall (fun x => 0 < x) l -> 0 < Np.sum l.
Proof.
  intros Hne H. induction H as [|x l Hx Hl IH]; [congruence|].
  cbn [Np.sum fold_right].
  assert (0 <= Np.sum l)
    by (apply sum_nonneg; eapply Forall_impl; [|exact Hl]; intros; cbn beta; lra).
  unfold Np.sum in *. lra.
Qed.

(** The means of the impact model are taken over arrays that are not empty:
    the divisor is the number of elements, which is positive. *)
Lemma mean_nonneg (l : list R) :
  l <> [] -> Forall (fun x => 0 <= x) l -> 0 <= Np.mean l.
Proof.
  intros Hne H. unfold Np.mean. apply sum_nonneg in H.
  apply Rmult_le_pos; [exact H|].
  left. apply Rinv_0_lt_compat. apply lt_0_INR.
  destruct l; [congruence|cbn [length]; lia].
Qed.

Lemma mean_pos (l : list R) :
  l <> [] -> Forall (fun x => 0 < x) l -> 0 < Np.mean l.
Proof.
  intros Hne H. unfold Np.mean. apply Rdiv_lt_0_compat.
  - apply sum_pos; assumption.
  - apply lt_0_INR. destruct l; [congruence|cbn [length]; lia].
Qed.

Lemma div_nonneg_pos (x y : R) : 0 <= x -> 0 < y -> 0 <= x / y.
Proof.
  intros Hx Hy.
  apply Rmult_le_pos; [exact Hx|left; apply Rinv_0_lt_compat; exact Hy].
Qed.

Lemma div_nonneg (x y : R) : 0 <= x -> 0 <= y -> 0 <= x / y.
Proof.
  intros Hx [Hy|<-].
  - apply Rmult_le_pos; [exact Hx|left; apply Rinv_0_lt_compat; exact Hy].
  - unfold Rdiv. rewrite Rinv_0. lra.
Qed.

(** With a temporary-impact coefficient that is not negative, the
    percentage is at least the permanent term. *)
Lemma impact_pct_of_floor (eta : R) (n : nat) (quantity volatility : R) :
  0 <= eta -> (0 < n)%nat -> 0.01 <= quantity -> 0 <= volatility ->
  5 / sqrt (INR n) <= MarketImpact.impact_pct_of eta n quantity volatility /\
  0 < 5 / sqrt (INR n).
Proof.
  intros Heta Hn Hq Hv.
  assert (Hs : 0 < sqrt (INR n)) by (apply sqrt_lt_R0, lt_0_INR; exact Hn).
  split; [|apply Rdiv_lt_0_compat; lra].
  unfold MarketImpact.impact_pct_of.
  pose proof (optimal_time_floor quantity volatility Hq Hv) as HT.
  set (T := 300 * (1 + Np.log10 quantity / 3 + volatility * 2)) in *.
  pose proof (sqrt_pos T) as HsT.
  assert (HA : 0 <= eta * (quantity / T))
    by (apply Rmult_le_pos; [exact Heta|apply div_nonneg_pos; lra]).
  assert (HC : 0 <= 0.1 * (1 + volatility) * volatility * sqrt T) by nra.
  set (A := eta * (quantity / T)) in *.
  set (C := 0.1 * (1 + volatility) * volatility * sqrt T) in *.
  assert (Hg : 0.05 / sqrt (INR n) = 5 / sqrt (INR n) / 100)
    by (unfold Rdiv; lra).
  rewrite Hg. set (g := 5 / sqrt (INR n)) in *.
  assert (Hqi : quantity * / quantity = 1) by (apply Rinv_r; lra).
  replace ((A + g / 100 * quantity + C) / quantity * 100)
    with ((A + C) / quantity * 100 + g * (quantity * / quantity))
    by (unfold Rdiv; ring_simplify; lra).
  rewrite Hqi.
  assert (0 <= (A + C) / quantity) by (apply div_nonneg_pos; lra).
  lra.
Qed.

End NumericFacts.

Section MarketImpactShapes.

Import MarketImpact.

(** [calculate] in terms of the coefficient [eta], whenever the
    temporary-impact helper returns. *)
Lemma calculate_of_eta (ob : orderbook) (quantity volatility eta : R) :
  asks ob <> [] -> bids ob <> [] ->
  _calculate_temporary_impact (asks ob) (bids ob) quantity = Return eta ->
  calculate ob quantity volatility =
  (Return (impact_pct_of eta (length (asks ob)) quantity volatility), []).
Proof.
  intros Ha Hb Heta. unfold calculate, calculate_body. rewrite Heta.
  destruct (asks ob) as [|[pa qa] asks']; [congruence|].
  destruct (bids ob) as [|[pb qb] bids']; [congruence|].
  reflexivity.
Qed.


End MarketImpactShapes.

(** X14: the execution time stays in a fixed window for every input the
    window can hold.  With a quantity in the range of its spin box (0.01 to
    1000000) and a volatility in the range of its own (0 to 100 per cent),
    the time [_calculate_optimal_time] returns for the update lies between
    100 and 1500 seconds: it is positive, so the division by it and its
    square root are well defined. *)
Theorem X14_execution_time_bounds {sk : Sk.Sklearn} (self : MainWindow.MainWindow) :
  MainWindow.inputs_in_range self ->
  exists T,
    MarketImpact._calculate_optimal_time (MainWindow.quantity_spin self)
      (MainWindow.volatility_spin self / 100) = Return T /\
    100 <= T <= 1500.
Proof.
  intros ((Hq1 & Hq2) & (Hv1 & Hv2) & _).
  cbn [MainWindow.quantity_range MainWindow.volatility_range fst snd] in *.
  eexists. split; [reflexivity|].
  split.
  - apply optimal_time_floor; lra.
  - assert (Hpos : 0 < MainWindow.quantity_spin self) by lra.
    pose proof (log10_le _ _ Hpos Hq2) as H.
    rewrite log10_million in H. lra.
Qed.

(** The hypothesis of X14 holds for the window as it is created. *)
Lemma X14_execution_time_bounds_witness :
  exists T,
    MarketImpact._calculate_optimal_time 100 (1.0 / 100) = Return T /\
    100 <= T <= 1500.
Proof.
  apply (X14_execution_time_bounds (sk := Examples.mean_sklearn) Examples.window).
  unfold MainWindow.inputs_in_range. cbn. repeat split; try lra. left. reflexivity.
Defined.

(** X15: the market impact is never below its permanent term.  On a book
    with as many ask as bid levels, at least one, where every ask price is at
    least the bid price of the same level and every quantity is positive, for
    a quantity of at least 0.01 and a volatility that is not negative,
    [calculate] returns, with nothing logged, a percentage of at least
    5/sqrt(number of levels), hence positive.  Every divisor of the
    computation is positive on these inputs: the mean quantity, the
    execution time, the square root of the number of levels and the
    quantity. *)
Theorem X15_impact_at_least_permanent_term
        (ob : orderbook) (quantity volatility : R) :
  asks ob <> [] ->
  length (asks ob) = length (bids ob) ->
  Forall (fun ab => fst (snd ab) <= fst (fst ab)) (combine (asks ob) (bids ob)) ->
  Forall (fun level => 0 < snd level) (asks ob) ->
  Forall (fun level => 0 < snd level) (bids ob) ->
  0.01 <= quantity ->
  0 <= volatility ->
  exists v,
    MarketImpact.calculate ob quantity volatility = (Return v, []) /\
    5 / sqrt (INR (length (asks ob))) <= v /\
    0 < v /\
    0 < MarketImpact.spec_mean_depth (asks ob) (bids ob) /\
    100 <= 300 * (1 + Np.log10 quantity / 3 + volatility * 2).
Proof.
  intros Hne Hlen Hprices Hqa Hqb Hq Hv.
  assert (Hnb : bids ob <> []).
  { destruct (asks ob); [congruence|]. destruct (bids ob); [discriminate|].
    discriminate. }
  assert (Hdepth : 0 < MarketImpact.spec_mean_depth (asks ob) (bids ob)).
  { unfold MarketImpact.spec_mean_depth. apply mean_pos.
    - destruct (asks ob); [congruence|discriminate].
    - apply Forall_app. split; apply Forall_map; assumption. }
  eexists. split.
  - apply calculate_of_eta; [exact Hne|exact Hnb|].
    apply temporary_impact_same_length; assumption.
  - assert (Heta : 0 <= 0.1 * (MarketImpact.spec_mean_spread (asks ob) (bids ob) /
                              MarketImpact.spec_mean_depth (asks ob) (bids ob))).
    { apply Rmult_le_pos; [lra|]. apply div_nonneg_pos; [|exact Hdepth].
      unfold MarketImpact.spec_mean_spread. apply mean_nonneg.
      - destruct (asks ob); [congruence|]. destruct (bids ob); discriminate.
      - apply Forall_map. eapply Forall_impl; [|exact Hprices].
        intros ab H. cbn beta in H. lra. }
    assert (Hn : (0 < length (asks ob))%nat)
      by (destruct (asks ob); [congruence|cbn [length]; lia]).
    destruct (impact_pct_of_floor _ _ quantity volatility Heta Hn Hq Hv) as [H1 H2].
    split; [exact H1|]. split; [lra|]. split; [exact Hdepth|].
    apply optimal_time_floor; assumption.
Qed.

(** The hypotheses of X15 hold for the scenario book, the quantity 500 and
    the volatility 0.01. *)
Lemma X15_impact_at_least_permanent_term_witness :
  exists v,
    MarketImpact.calculate Examples.scenario_book 500 0.01 = (Return v, []) /\
    5 / sqrt (INR 2) <= v /\
    0 < v /\
    0 < MarketImpact.spec_mean_depth (asks Examples.scenario_book)
                                     (bids Examples.scenario_book) /\
    100 <= 300 * (1 + Np.log10 500 / 3 + 0.01 * 2).
Proof.
  apply (X15_impact_at_least_permanent_term Examples.scenario_book 500 0.01).
  - discriminate.
  - reflexivity.
  - cbn. repeat constructor; cbn; lra.
  - cbn. repeat constructor; cbn; lra.
  - cbn. repeat constructor; cbn; lra.
  - lra.
  - lra.
Defined.



(** *** The heuristics of the slippage and maker/taker models *)

Section HeuristicFacts.

Context {sk : Sk.Sklearn}.

Lemma depth_nonneg (a : list (R * R)) :
  Forall (fun level => 0 < fst level /\ 0 < snd level) a -> 0 <= Np.depth a.
Proof.
  intros H. rewrite <- sum_products_depth. apply sum_products_nonneg. exact H.
Qed.

Lemma depth_pos (a : list (R * R)) :
  a <> [] ->
  Forall (fun level => 0 < fst level /\ 0 < snd level) a -> 0 < Np.depth a.
Proof.
  intros Hne H. destruct a as [|[p q] a]; [congruence|].
  pose proof (Forall_inv H) as [Hp Hq]. apply Forall_inv_tail in H.
  apply depth_nonneg in H. unfold Np.depth in *.
  cbn [map Np.sum fold_right fst snd] in *. unfold Np.sum in H. nra.
Qed.

(** The features of the two models on a book with a level on each side. *)
Lemma slippage_features (ob : orderbook) (quantity pa qa pb qb : R)
      (asks' bids' : list (R * R)) :
  asks ob = (pa, qa) :: asks' ->
  bids ob = (pb, qb) :: bids' ->
  Slippage._extract_features ob quantity =
  Return [(pa - pb) / ((pa + pb) / 2) * 100;
          Rabs (Np.depth (asks ob) - Np.depth (bids ob)) /
            (Np.depth (asks ob) + Np.depth (bids ob));
          INR (length (asks ob));
          quantity / (Np.depth (asks ob) + Np.depth (bids ob));
          Np.log10 quantity].
Proof.
  intros Ha Hb. unfold Slippage._extract_features. rewrite Ha, Hb.
  cbn [Np.item00 bind]. rewrite !col0_cons, !col1_cons. cbn [bind].
  rewrite !multiply_cols. cbn [bind]. rewrite !sum_products_depth. reflexivity.
Qed.

Lemma maker_taker_features (ob : orderbook) (quantity pa qa pb qb : R)
      (asks' bids' : list (R * R)) :
  asks ob = (pa, qa) :: asks' ->
  bids ob = (pb, qb) :: bids' ->
  MakerTaker._extract_features ob quantity =
  Return [(pa - pb) / ((pa + pb) / 2) * 100;
          (Np.depth (asks ob) - Np.depth (bids ob)) /
            (Np.depth (asks ob) + Np.depth (bids ob));
          INR (length (asks ob));
          quantity / (Np.depth (asks ob) + Np.depth (bids ob));
          (Np.depth (asks ob) - Np.depth (bids ob)) /
            (Np.depth (asks ob) + Np.depth (bids ob));
          Np.log10 quantity].
Proof.
  intros Ha Hb. unfold MakerTaker._extract_features. rewrite Ha, Hb.
  cbn [Np.item00 bind]. rewrite !col0_cons, !col1_cons. cbn [bind].
  rewrite !multiply_cols. cbn [bind]. rewrite !sum_products_depth. reflexivity.
Qed.

(** What an untrained model returns on a book with a level on each side. *)
Lemma slippage_untrained_value (self : Slippage.SlippageModel) (ob : orderbook)
      (quantity pa qa pb qb : R) (asks' bids' : list (R * R)) :
  Slippage.is_trained self = false ->
  asks ob = (pa, qa) :: asks' ->
  bids ob = (pb, qb) :: bids' ->
  Slippage.calculate self ob quantity =
  (Return ((pa - pb) / ((pa + pb) / 2) * 100 * 0.5 +
           quantity / (Np.depth (asks ob) + Np.depth (bids ob)) * 100 * 0.5), []).
Proof.
  intros Htr Ha Hb. unfold Slippage.calculate, Slippage.calculate_body.
  rewrite (slippage_features ob quantity pa qa pb qb asks' bids' Ha Hb), Htr.
  cbn [bind negb]. unfold Slippage._calculate_heuristic_slippage.
  rewrite Ha, Hb. cbn [Np.item00 bind]. rewrite !col0_cons, !col1_cons.
  cbn [bind]. rewrite !multiply_cols. cbn [bind try_except].
  rewrite !sum_products_depth. reflexivity.
Qed.

Lemma maker_taker_untrained_value (self : MakerTaker.MakerTakerModel)
      (ob : orderbook) (quantity pa qa pb qb : R) (asks' bids' : list (R * R)) :
  MakerTaker.is_trained self = false ->
  asks ob = (pa, qa) :: asks' ->
  bids ob = (pb, qb) :: bids' ->
  MakerTaker.calculate self ob quantity =
  (Return
     {| MakerTaker.maker :=
          py_max 0.0
            (py_min 100.0
               (50.0 + (pa - pb) / ((pa + pb) / 2) * 100 * 2 -
                quantity / (Np.depth (asks ob) + Np.depth (bids ob)) * 100));
        MakerTaker.taker :=
          100.0 -
          py_max 0.0
            (py_min 100.0
               (50.0 + (pa - pb) / ((pa + pb) / 2) * 100 * 2 -
                quantity / (Np.depth (asks ob) + Np.depth (bids ob)) * 100)) |},
   []).
Proof.
  intros Htr Ha Hb. unfold MakerTaker.calculate, MakerTaker.calculate_body.
  rewrite (maker_taker_features ob quantity pa qa pb qb asks' bids' Ha Hb), Htr.
  cbn [bind negb]. unfold MakerTaker._calculate_heuristic_proportions.
  rewrite Ha, Hb. cbn [Np.item00 bind]. rewrite !col0_cons, !col1_cons.
  cbn [bind]. rewrite !multiply_cols. cbn [bind try_except].
  rewrite !sum_products_depth. reflexivity.
Qed.

Lemma py_clamp_monotone (x y : R) :
  x <= y -> py_max 0.0 (py_min 100.0 x) <= py_max 0.0 (py_min 100.0 y).
Proof.
  intros Hxy. unfold py_max, py_min.
  destruct (Rlt_dec x 100.0); destruct (Rlt_dec y 100.0);
    repeat match goal with |- context [Rlt_dec ?a ?b] => destruct (Rlt_dec a b) end;
    lra.
Qed.

Lemma div_monotone (x y d : R) : 0 < d -> x <= y -> x / d <= y / d.
Proof.
  intros Hd Hxy. apply Rmult_le_compat_r; [|exact Hxy].
  left. apply Rinv_0_lt_compat. exact Hd.
Qed.

End HeuristicFacts.

(** X17: a book with an empty side gives the defaults, trained or not.
    When the asks or the bids are empty, the three models return their
    defaults (0.0, 0.0 and 50/50) and each logs the [IndexError] of its first
    look at the best price; the model objects play no part. *)
Theorem X17_empty_side_gives_defaults {sk : Sk.Sklearn}
        (slippage_model : Slippage.SlippageModel)
        (maker_taker_model : MakerTaker.MakerTakerModel)
        (ob : orderbook) (quantity volatility : R) :
  asks ob = [] \/ bids ob = [] ->
  MarketImpact.calculate ob quantity volatility =
    (Return 0.0, [log_error "Error calculating market impact" IndexError]) /\
  Slippage.calculate slippage_model ob quantity =
    (Return 0.0, [log_error "Error calculating slippage" IndexError]) /\
  MakerTaker.calculate maker_taker_model ob quantity =
    (Return {| MakerTaker.maker := 50.0; MakerTaker.taker := 50.0 |},
     [log_error "Error calculating maker/taker proportions" IndexError]).
Proof.
  intros Hempty.
  unfold MarketImpact.calculate, MarketImpact.calculate_body,
    Slippage.calculate, Slippage.calculate_body, Slippage._extract_features,
    MakerTaker.calculate, MakerTaker.calculate_body,
    MakerTaker._extract_features.
  destruct Hempty as [-> | ->].
  - repeat split.
  - destruct (asks ob) as [|[pa qa] asks']; repeat split.
Qed.

(** The hypothesis of X17 holds for a book without asks. *)
Lemma X17_empty_side_gives_defaults_witness :
  MarketImpact.calculate (Examples.book [] [(100, 2)]) 500 0.01 =
    (Return 0.0, [log_error "Error calculating market impact" IndexError]) /\
  Slippage.calculate Examples.trained_slippage_model
    (Examples.book [] [(100, 2)]) 500 =
    (Return 0.0, [log_error "Error calculating slippage" IndexError]) /\
  MakerTaker.calculate MakerTaker.__init__ (Examples.book [] [(100, 2)]) 500 =
    (Return {| MakerTaker.maker := 50.0; MakerTaker.taker := 50.0 |},
     [log_error "Error calculating maker/taker proportions" IndexError]).
Proof.
  apply (X17_empty_side_gives_defaults (sk := Examples.mean_sklearn)).
  left. reflexivity.
Defined.

Lemma trained_example_is_trained :
  Slippage.is_trained Examples.trained_slippage_model = true.
Proof.
  unfold Examples.trained_slippage_model.
  destruct (slippage_train_cases (sk := Examples.mean_sklearn)
              Slippage.__init__ [Examples.slippage_sample])
    as (self' & log & Htrain & Hcase).
  rewrite Htrain. cbn [fst].
  unfold Slippage.train_body in Hcase.
  cbn [mapM Examples.slippage_sample Slippage.s_orderbook Slippage.s_quantity]
    in Hcase.
  rewrite (slippage_features
             Examples.scenario_book 500 100.5 2 100 2 [(101, 3)] [(99.5, 3)]
             eq_refl eq_refl) in Hcase.
  apply Hcase.
Qed.

(** X18: a trained slippage model never returns a negative slippage,
    whatever the book, crossed or not, and whatever its regression
    predicts: the prediction is clamped at 0.0, and every failure gives
    0.0. *)
Theorem X18_trained_slippage_not_negative {sk : Sk.Sklearn}
        (self : Slippage.SlippageModel) (ob : orderbook) (quantity : R) :
  Slippage.is_trained self = true ->
  exists v log, Slippage.calculate self ob quantity = (Return v, log) /\ 0 <= v.
Proof.
  apply trained_slippage_nonneg.
Qed.

(** The hypothesis of X18 holds for the trained example model, here on the
    crossed book. *)
Lemma X18_trained_slippage_not_negative_witness :
  exists v log,
    Slippage.calculate Examples.trained_slippage_model Examples.crossed_book 0.01 =
      (Return v, log) /\ 0 <= v.
Proof.
  apply (X18_trained_slippage_not_negative (sk := Examples.mean_sklearn)).
  exact trained_example_is_trained.
Defined.

(** X19: on a book that is not crossed the heuristic slippage is not
    negative.  For an untrained model, a book with positive prices and
    quantities whose best ask is not below its best bid, and a quantity that
    is not negative, [calculate] returns, with nothing logged, a slippage of
    at least 0. *)
Theorem X19_heuristic_slippage_not_negative {sk : Sk.Sklearn}
        (self : Slippage.SlippageModel) (ob : orderbook) (quantity : R)
        (pa qa pb qb : R) (asks' bids' : list (R * R)) :
  Slippage.is_trained self = false ->
  asks ob = (pa, qa) :: asks' ->
  bids ob = (pb, qb) :: bids' ->
  Forall (fun level => 0 < fst level /\ 0 < snd level) (asks ob) ->
  Forall (fun level => 0 < fst level /\ 0 < snd level) (bids ob) ->
  pb <= pa ->
  0 <= quantity ->
  exists v, Slippage.calculate self ob quantity = (Return v, []) /\ 0 <= v.
Proof.
  intros Htr Ha Hb Hasks Hbids Hcross Hq.
  eexists. split; [eapply slippage_untrained_value; eassumption|].
  pose proof (depth_nonneg _ Hasks) as HA.
  pose proof (depth_nonneg _ Hbids) as HB.
  rewrite Ha in Hasks. rewrite Hb in Hbids.
  apply Forall_inv in Hasks, Hbids. cbn [fst snd] in Hasks, Hbids.
  assert (0 <= (pa - pb) / ((pa + pb) / 2)) by (apply div_nonneg; lra).
  assert (0 <= quantity / (Np.depth (asks ob) + Np.depth (bids ob)))
    by (apply div_nonneg; lra).
  lra.
Qed.

(** The hypotheses of X19 hold for a fresh model on the scenario book. *)
Lemma X19_heuristic_slippage_not_negative_witness :
  exists v,
    Slippage.calculate Slippage.__init__ Examples.scenario_book 500 =
      (Return v, []) /\ 0 <= v.
Proof.
  apply (X19_heuristic_slippage_not_negative (sk := Examples.mean_sklearn)
           Slippage.__init__ Examples.scenario_book 500
           100.5 2 100 2 [(101, 3)] [(99.5, 3)]).
  - reflexivity.
  - reflexivity.
  - reflexivity.
  - cbn. repeat constructor; cbn; lra.
  - cbn. repeat constructor; cbn; lra.
  - lra.
  - lra.
Defined.

(** X20: a larger order never slips less.  For an untrained model and a
    book with a level on each side, positive prices and quantities, the
    heuristic slippage does not decrease when the quantity grows. *)
Theorem X20_heuristic_slippage_grows_with_quantity {sk : Sk.Sklearn}
        (self : Slippage.SlippageModel) (ob : orderbook) (q1 q2 : R) :
  Slippage.is_trained self = false ->
  asks ob <> [] ->
  bids ob <> [] ->
  Forall (fun level => 0 < fst level /\ 0 < snd level) (asks ob) ->
  Forall (fun level => 0 < fst level /\ 0 < snd level) (bids ob) ->
  q1 <= q2 ->
  exists v1 v2,
    Slippage.calculate self ob q1 = (Return v1, []) /\
    Slippage.calculate self ob q2 = (Return v2, []) /\
    v1 <= v2.
Proof.
  intros Htr Ha Hb Hasks Hbids Hq.
  pose proof (depth_pos _ Ha Hasks) as HA.
  pose proof (depth_pos _ Hb Hbids) as HB.
  destruct (asks ob) as [|[pa qa] asks'] eqn:Ea; [congruence|].
  destruct (bids ob) as [|[pb qb] bids'] eqn:Eb; [congruence|].
  eexists _, _.
  split; [eapply slippage_untrained_value; eassumption|].
  split; [eapply slippage_untrained_value; eassumption|].
  rewrite Ea, Eb.
  pose proof (div_monotone q1 q2
                (Np.depth ((pa, qa) :: asks') + Np.depth ((pb, qb) :: bids'))
                ltac:(lra) Hq).
  lra.
Qed.

(** The hypotheses of X20 hold for a fresh model on the scenario book and
    the quantities 100 and 500. *)
Lemma X20_heuristic_slippage_grows_with_quantity_witness :
  exists v1 v2,
    Slippage.calculate Slippage.__init__ Examples.scenario_book 100 =
      (Return v1, []) /\
    Slippage.calculate Slippage.__init__ Examples.scenario_book 500 =
      (Return v2, []) /\
    v1 <= v2.
Proof.
  apply (X20_heuristic_slippage_grows_with_quantity (sk := Examples.mean_sklearn)).
  - reflexivity.
  - discriminate.
  - discriminate.
  - cbn. repeat constructor; cbn; lra.
  - cbn. repeat constructor; cbn; lra.
  - lra.
Defined.

(** X21: a larger order is never more of a maker.  For an untrained model
    and a book with a level on each side, positive prices and quantities,
    the maker share of the heuristic does not increase, and the taker share
    does not decrease, when the quantity grows. *)
Theorem X21_heuristic_maker_share_falls_with_quantity {sk : Sk.Sklearn}
        (self : MakerTaker.MakerTakerModel) (ob : orderbook) (q1 q2 : R) :
  MakerTaker.is_trained self = false ->
  asks ob <> [] ->
  bids ob <> [] ->
  Forall (fun level => 0 < fst level /\ 0 < snd level) (asks ob) ->
  Forall (fun level => 0 < fst level /\ 0 < snd level) (bids ob) ->
  q1 <= q2 ->
  exists p1 p2,
    MakerTaker.calculate self ob q1 = (Return p1, []) /\
    MakerTaker.calculate self ob q2 = (Return p2, []) /\
    MakerTaker.maker p2 <= MakerTaker.maker p1 /\
    MakerTaker.taker p1 <= MakerTaker.taker p2.
Proof.
  intros Htr Ha Hb Hasks Hbids Hq.
  pose proof (depth_pos _ Ha Hasks) as HA.
  pose proof (depth_pos _ Hb Hbids) as HB.
  destruct (asks ob) as [|[pa qa] asks'] eqn:Ea; [congruence|].
  destruct (bids ob) as [|[pb qb] bids'] eqn:Eb; [congruence|].
  eexists _, _.
  split; [eapply maker_taker_untrained_value; eassumption|].
  split; [eapply maker_taker_untrained_value; eassumption|].
  rewrite Ea, Eb. cbn [MakerTaker.maker MakerTaker.taker].
  pose proof (div_monotone q1 q2
                (Np.depth ((pa, qa) :: asks') + Np.depth ((pb, qb) :: bids'))
                ltac:(lra) Hq) as Hd.
  match goal with
  | |- py_max 0.0 (py_min 100.0 ?y) <= py_max 0.0 (py_min 100.0 ?x) /\ _ =>
      assert (Hm : py_max 0.0 (py_min 100.0 y) <= py_max 0.0 (py_min 100.0 x))
        by (apply py_clamp_monotone; lra)
  end.
  split; [exact Hm|lra].
Qed.

(** The hypotheses of X21 hold for a fresh model on the scenario book and
    the quantities 100 and 500. *)
Lemma X21_heuristic_maker_share_falls_with_quantity_witness :
  exists p1 p2,
    MakerTaker.calculate MakerTaker.__init__ Examples.scenario_book 100 =
      (Return p1, []) /\
    MakerTaker.calculate MakerTaker.__init__ Examples.scenario_book 500 =
      (Return p2, []) /\
    MakerTaker.maker p2 <= MakerTaker.maker p1 /\
    MakerTaker.taker p1 <= MakerTaker.taker p2.
Proof.
  apply (X21_heuristic_maker_share_falls_with_quantity
           (sk := Examples.mean_sklearn)).
  - reflexivity.
  - discriminate.
  - discriminate.
  - cbn. repeat constructor; cbn; lra.
  - cbn. repeat constructor; cbn; lra.
  - lra.
Defined.

(** *** Features and training *)

Section TrainingFailures.

Context {sk : Sk.Sklearn}.

Lemma slippage_features_raise (ob : orderbook) (quantity : R) (e : exn) :
  Slippage._extract_features ob quantity = Raise e -> e = IndexError.
Proof.
  destruct (asks ob) as [|[pa qa] asks'] eqn:Ha.
  - unfold Slippage._extract_features. rewrite Ha. cbn [Np.item00 bind].
    intros H. now injection H.
  - destruct (bids ob) as [|[pb qb] bids'] eqn:Hb.
    + unfold Slippage._extract_features. rewrite Ha, Hb. cbn [Np.item00 bind].
      intros H. now injection H.
    + rewrite (slippage_features ob quantity pa qa pb qb asks' bids' Ha Hb).
      discriminate.
Qed.

Lemma maker_taker_features_raise (ob : orderbook) (quantity : R) (e : exn) :
  MakerTaker._extract_features ob quantity = Raise e -> e = IndexError.
Proof.
  destruct (asks ob) as [|[pa qa] asks'] eqn:Ha.
  - unfold MakerTaker._extract_features. rewrite Ha. cbn [Np.item00 bind].
    intros H. now injection H.
  - destruct (bids ob) as [|[pb qb] bids'] eqn:Hb.
    + unfold MakerTaker._extract_features. rewrite Ha, Hb. cbn [Np.item00 bind].
      intros H. now injection H.
    + rewrite (maker_taker_features ob quantity pa qa pb qb asks' bids' Ha Hb).
      discriminate.
Qed.

Lemma slippage_features_empty_side (ob : orderbook) (quantity : R) :
  asks ob = [] \/ bids ob = [] ->
  Slippage._extract_features ob quantity = Raise IndexError.
Proof.
  unfold Slippage._extract_features. intros [-> | ->]; [reflexivity|].
  destruct (asks ob) as [|[pa qa] asks']; reflexivity.
Qed.

Lemma maker_taker_features_empty_side (ob : orderbook) (quantity : R) :
  asks ob = [] \/ bids ob = [] ->
  MakerTaker._extract_features ob quantity = Raise IndexError.
Proof.
  unfold MakerTaker._extract_features. intros [-> | ->]; [reflexivity|].
  destruct (asks ob) as [|[pa qa] asks']; reflexivity.
Qed.

Lemma slippage_train_spoiled (self : Slippage.SlippageModel)
      (data : list Slippage.sample) (d : Slippage.sample) :
  In d data ->
  asks (Slippage.s_orderbook d) = [] \/ bids (Slippage.s_orderbook d) = [] ->
  Slippage.train self data =
  ({| Slippage.model := Slippage.model self;
      Slippage.scaler := Slippage.scaler self;
      Slippage.is_trained := false |},
   Return tt, [log_error "Error training slippage model" IndexError]).
Proof.
  intros Hin Hempty.
  destruct (mapM_raises
              (fun x => Slippage._extract_features (Slippage.s_orderbook x)
                          (Slippage.s_quantity x))
              data d IndexError Hin
              (slippage_features_empty_side _ _ Hempty)) as (e & He).
  assert (e = IndexError).
  { destruct (mapM_raise _ _ _ He) as (x & _ & Hx).
    eapply slippage_features_raise; exact Hx. }
  subst e. unfold Slippage.train, Slippage.train_body.
  destruct data as [|d0 data]; [destruct Hin|].
  rewrite He. reflexivity.
Qed.

Lemma maker_taker_train_spoiled (self : MakerTaker.MakerTakerModel)
      (data : list MakerTaker.sample) (d : MakerTaker.sample) :
  In d data ->
  asks (MakerTaker.s_orderbook d) = [] \/ bids (MakerTaker.s_orderbook d) = [] ->
  MakerTaker.train self data =
  ({| MakerTaker.model := MakerTaker.model self;
      MakerTaker.scaler := MakerTaker.scaler self;
      MakerTaker.is_trained := false |},
   Return tt, [log_error "Error training maker/taker model" IndexError]).
Proof.
  intros Hin Hempty.
  destruct (mapM_raises
              (fun x => MakerTaker._extract_features (MakerTaker.s_orderbook x)
                          (MakerTaker.s_quantity x))
              data d IndexError Hin
              (maker_taker_features_empty_side _ _ Hempty)) as (e & He).
  assert (e = IndexError).
  { destruct (mapM_raise _ _ _ He) as (x & _ & Hx).
    eapply maker_taker_features_raise; exact Hx. }
  subst e. unfold MakerTaker.train, MakerTaker.train_body.
  destruct data as [|d0 data]; [destruct Hin|].
  rewrite He. reflexivity.
Qed.

Lemma imbalance_bounds (A B : R) :
  0 < A -> 0 < B ->
  0 <= Rabs (A - B) / (A + B) <= 1 /\ -1 <= (A - B) / (A + B) <= 1.
Proof.
  intros HA HB.
  assert (Hi : 0 < / (A + B)) by (apply Rinv_0_lt_compat; lra).
  assert (Hone : (A + B) * / (A + B) = 1) by (apply Rinv_r; lra).
  assert (Habs : 0 <= Rabs (A - B) <= A + B).
  { split; [apply Rabs_pos|]. unfold Rabs. destruct (Rcase_abs (A - B)); lra. }
  unfold Rdiv. split; split; nra.
Qed.

End TrainingFailures.

(** X22: the feature vectors.  On a book with a level on each side and
    positive prices and quantities, the slippage model extracts five
    features and the maker/taker model six; the third is the number of ask
    levels and the last the decimal logarithm of the quantity; the unsigned
    depth imbalance lies in [0,1], the signed one in [-1,1], and the
    pressure of the maker/taker model is always equal to its signed
    imbalance. *)
Theorem X22_feature_vectors (ob : orderbook) (quantity : R) :
  asks ob <> [] ->
  bids ob <> [] ->
  Forall (fun level => 0 < fst level /\ 0 < snd level) (asks ob) ->
  Forall (fun level => 0 < fst level /\ 0 < snd level) (bids ob) ->
  (exists spread imbalance ratio,
     Slippage._extract_features ob quantity =
       Return [spread; imbalance; INR (length (asks ob)); ratio;
               Np.log10 quantity] /\
     0 <= imbalance <= 1) /\
  (exists spread imbalance ratio pressure,
     MakerTaker._extract_features ob quantity =
       Return [spread; imbalance; INR (length (asks ob)); ratio; pressure;
               Np.log10 quantity] /\
     -1 <= imbalance <= 1 /\
     pressure = imbalance).
Proof.
  intros Ha Hb Hasks Hbids.
  pose proof (depth_pos _ Ha Hasks) as HA.
  pose proof (depth_pos _ Hb Hbids) as HB.
  destruct (imbalance_bounds _ _ HA HB) as [Hu Hs].
  destruct (asks ob) as [|[pa qa] asks'] eqn:Ea; [congruence|].
  destruct (bids ob) as [|[pb qb] bids'] eqn:Eb; [congruence|].
  split.
  - eexists _, _, _. split.
    + rewrite (slippage_features ob quantity pa qa pb qb asks' bids' Ea Eb).
      rewrite Ea, Eb. reflexivity.
    + exact Hu.
  - eexists _, _, _, _. split.
    + rewrite (maker_taker_features ob quantity pa qa pb qb asks' bids' Ea Eb).
      rewrite Ea, Eb. reflexivity.
    + split; [exact Hs|reflexivity].
Qed.

(** The hypotheses of X22 hold for the scenario book. *)
Lemma X22_feature_vectors_witness :
  (exists spread imbalance ratio,
     Slippage._extract_features Examples.scenario_book 500 =
       Return [spread; imbalance; INR 2; ratio; Np.log10 500] /\
     0 <= imbalance <= 1) /\
  (exists spread imbalance ratio pressure,
     MakerTaker._extract_features Examples.scenario_book 500 =
       Return [spread; imbalance; INR 2; ratio; pressure; Np.log10 500] /\
     -1 <= imbalance <= 1 /\
     pressure = imbalance).
Proof.
  apply (X22_feature_vectors Examples.scenario_book 500).
  - discriminate.
  - discriminate.
  - cbn. repeat constructor; cbn; lra.
  - cbn. repeat constructor; cbn; lra.
Defined.

(** X23: one bad sample spoils the training of the slippage model.  When
    any sample of the training set has a book with an empty side, [train]
    fails before it fits anything: it returns normally, logs the
    [IndexError], leaves the regression and the scaler as they were and sets
    [is_trained] to false, also for a model that was trained before. *)
Theorem X23_slippage_training_spoiled_by_empty_book {sk : Sk.Sklearn}
        (self : Slippage.SlippageModel) (data : list Slippage.sample)
        (d : Slippage.sample) :
  In d data ->
  asks (Slippage.s_orderbook d) = [] \/ bids (Slippage.s_orderbook d) = [] ->
  Slippage.train self data =
  ({| Slippage.model := Slippage.model self;
      Slippage.scaler := Slippage.scaler self;
      Slippage.is_trained := false |},
   Return tt, [log_error "Error training slippage model" IndexError]).
Proof.
  apply slippage_train_spoiled.
Qed.

(** The hypotheses of X23 hold for the trained example model and a training
    set whose second sample has no asks. *)
Lemma X23_slippage_training_spoiled_by_empty_book_witness :
  Slippage.is_trained
    (fst (fst (Slippage.train Examples.trained_slippage_model
                 Examples.spoiled_samples))) = false.
Proof.
  rewrite (X23_slippage_training_spoiled_by_empty_book
             (sk := Examples.mean_sklearn) Examples.trained_slippage_model
             Examples.spoiled_samples
             {| Slippage.s_orderbook := Examples.book [] [(100, 2)];
                Slippage.s_quantity := 500;
                Slippage.actual_slippage := 0.3 |}).
  - reflexivity.
  - right. left. reflexivity.
  - left. reflexivity.
Defined.

(** X24: one bad sample spoils the training of the maker/taker model in the
    same way: [train] returns normally, logs the [IndexError], leaves the
    classifier and the scaler as they were and sets [is_trained] to
    false. *)
Theorem X24_maker_taker_training_spoiled_by_empty_book {sk : Sk.Sklearn}
        (self : MakerTaker.MakerTakerModel) (data : list MakerTaker.sample)
        (d : MakerTaker.sample) :
  In d data ->
  asks (MakerTaker.s_orderbook d) = [] \/ bids (MakerTaker.s_orderbook d) = [] ->
  MakerTaker.train self data =
  ({| MakerTaker.model := MakerTaker.model self;
      MakerTaker.scaler := MakerTaker.scaler self;
      MakerTaker.is_trained := false |},
   Return tt, [log_error "Error training maker/taker model" IndexError]).
Proof.
  apply maker_taker_train_spoiled.
Qed.

(** The hypotheses of X24 hold for a trained model of the example
    estimators and a one-sample training set without bids. *)
Lemma X24_maker_taker_training_spoiled_by_empty_book_witness :
  MakerTaker.is_trained
    (fst (fst (MakerTaker.train
                 (MakerTaker.mk_model (sk := Examples.mean_sklearn) 0.25 tt true)
                 [{| MakerTaker.s_orderbook := Examples.book [(100, 2)] [];
                     MakerTaker.s_quantity := 500;
                     MakerTaker.execution_type := 1 |}]))) = false.
Proof.
  rewrite (X24_maker_taker_training_spoiled_by_empty_book
             (sk := Examples.mean_sklearn)
             (MakerTaker.mk_model (sk := Examples.mean_sklearn) 0.25 tt true)
             _ {| MakerTaker.s_orderbook := Examples.book [(100, 2)] [];
                  MakerTaker.s_quantity := 500;
                  MakerTaker.execution_type := 1 |}).
  - reflexivity.
  - left. reflexivity.
  - right. reflexivity.
Defined.


